(** * MetaRunner: continual-training scheduler and fairness evaluator

    A shallow embedding of [src/helpers/MetaRunner.py] (classes [MetaRunner]
    and [Tester]) and the properties of its snapshot scheduler, recommendation
    list generator and ranking metrics.

    Conventions of the embedding:
    - Python [int] is [Z] (or [nat] for loop counters and list positions);
    - a Python [dict] is an association list in insertion order;
    - a raised exception is the [Err] branch of [result];
    - the entries of a numpy prediction are IEEE classes ([spec_float]);
    - a relevance score is a float: NaN, an infinity or a finite number, read
      as a rational ([score]);
    - metric values, which the program holds in binary64, are read as real
      numbers: every property of a metric below is a property of the exact
      arithmetic the program approximates. *)

From Stdlib Require Import List Bool Arith ZArith Lia String Ascii.
From Stdlib Require Import QArith Qminmax.
From Stdlib Require Import Reals Lra.
From Stdlib Require Import Sorting.Sorted Sorting.Permutation.
From Stdlib Require Import DecimalString.
From Stdlib Require Import Floats.SpecFloat.
Import ListNotations.

#[local] Close Scope Q_scope.
#[local] Close Scope R_scope.
#[local] Open Scope string_scope.
#[local] Open Scope list_scope.

(** ** Python strings *)

Module PyStr.

(** [sub in s] on strings. *)
Fixpoint contains (sub s : string) : bool :=
  if String.prefix sub s then true
  else match s with
       | EmptyString => false
       | String _ rest => contains sub rest
       end.

Definition is_digit (c : ascii) : bool :=
  let n := nat_of_ascii c in (48 <=? n)%nat && (n <=? 57)%nat.

(** [re.sub('[^0-9]', '', s)]: the characters of [s] that are ASCII digits. *)
Fixpoint keep_digits (s : string) : string :=
  match s with
  | EmptyString => EmptyString
  | String c rest =>
      if is_digit c then String c (keep_digits rest) else keep_digits rest
  end.

(** [int(s)] on a string of ASCII digits. *)
Fixpoint int_of_digits (acc : Z) (s : string) : Z :=
  match s with
  | EmptyString => acc
  | String c rest =>
      int_of_digits (10 * acc + (Z.of_nat (nat_of_ascii c) - 48)) rest
  end.

(** ['{}'.format(n)] for a non-negative [int]. *)
Definition format_nat (n : nat) : string :=
  NilZero.string_of_uint (Nat.to_uint n).

(** ['_snap{}'.format(idx)]. *)
Definition snap_tag (idx : nat) : string := String.append "_snap" (format_nat idx).

End PyStr.

(** ** numpy predicates on predictions *)

(** [np.isnan] on one entry. *)
Definition np_isnan (x : spec_float) : bool :=
  match x with
  | S754_nan => true
  | _ => false
  end.

(** [np.isnan(prediction).any()]. *)
Definition isnan_any (prediction : list spec_float) : bool :=
  existsb np_isnan prediction.

(** What "non-finite" means for an entry: NaN or an infinity. *)
Definition non_finite (x : spec_float) : bool :=
  match x with
  | S754_nan | S754_infinity _ => true
  | _ => false
  end.

(** ** MetaRunner: the snapshot scheduler *)

Module MetaRunner.

(** What the scheduler does that can be seen from outside, in the order it
    happens. *)
Inductive event : Type :=
| EpochLog (snap_idx epoch steps : nat)
    (** the [logging.info("Epoch ...")] line that ends a pass; [steps] is
        [len(loss_lst)], the number of examples the pass trained on *)
| NaNLog (snap_idx : nat)
    (** ['NaN loss, stop training'] (pre-training) or
        ['@@@ prediction contains invalid values @@@'] (fine-tuning) *)
| Plot (snap_idx : nat)                 (** [self.make_plot(args, ..., 'pd', snap_idx)] *)
| SaveModel (add_path : string)         (** [model.save_model(add_path=...)] *)
| LoadModel (add_path : string).        (** [model.load_model(add_path=...)] *)

Definition is_epoch_log (i : nat) (ev : event) : bool :=
  match ev with
  | EpochLog j _ _ => Nat.eqb i j
  | _ => false
  end.

Definition is_milestone (ev : event) : bool :=
  match ev with
  | Plot _ | SaveModel _ => true
  | _ => false
  end.

Definition saved_tags (tr : list event) : list string :=
  flat_map (fun ev => match ev with SaveModel t => [t] | _ => [] end) tr.

(** Number of passes the trace records for snapshot [i]. *)
Definition passes_of (i : nat) (tr : list event) : nat :=
  List.length (filter (is_epoch_log i) tr).

(** The pass logs and the NaN notices that the trace records for snapshot
    [i], in the order they were written. *)
Definition logs_of (i : nat) (tr : list event) : list event :=
  filter (fun ev => match ev with
                    | EpochLog j _ _ | NaNLog j => Nat.eqb i j
                    | _ => false
                    end) tr.

(** [snap_thres] of [dynamic_prediction]: the digits of the mode string read
    as a number, [-1] when there is none. *)
Definition snap_thres_of (dyn_method : string) : Z :=
  let digits := PyStr.keep_digits dyn_method in
  if String.eqb digits "" then (-1)%Z else PyStr.int_of_digits 0 digits.

(** Position of the first prediction with a NaN entry. *)
Fixpoint first_nan (predictions : list (list spec_float)) : option nat :=
  match predictions with
  | [] => None
  | p :: rest => if isnan_any p then Some 0 else option_map S (first_nan rest)
  end.

(** A trace that holds nothing but the pass logs of snapshot [i]. *)
Definition only_logs (i : nat) (tr : list event) : Prop :=
  Forall (fun ev => match ev with
                    | EpochLog j _ _ | NaNLog j => j = i
                    | _ => False
                    end) tr.

Section Trainer.

(** The model collaborator and one streamed example. *)
Variable Model : Type.
Variable Example : Type.

(** [train_recommender_vanilla]: one optimisation step on [current]. The
    Python method updates the model in place and returns the losses and the
    raw prediction; the flag depends on the prediction only, so the losses
    are left out. *)
Variable train_recommender_vanilla : Model -> Example -> Model * list spec_float.

(** The body shared by the [for current in dl] loop of [fit_offline] and the
    [for i, current in enumerate(snapshot_data)] loop of
    [dynamic_prediction]: train on each example, set [flag] from the
    prediction, [break] when it is set. Returns the model, the flag and
    [len(loss_lst)]. *)
Fixpoint pass_loop (model : Model) (dl : list Example) (flag : bool) (steps : nat)
  : Model * bool * nat :=
  match dl with
  | [] => (model, flag, steps)
  | current :: rest =>
      let '(model', prediction) := train_recommender_vanilla model current in
      let flag' := isnan_any prediction in
      if flag' then (model', flag', S steps)
      else pass_loop model' rest flag' (S steps)
  end.

(** The predictions the steps of a pass would return, one per example, were
    no step to stop the pass. *)
Fixpoint step_predictions (model : Model) (dl : list Example)
  : list (list spec_float) :=
  match dl with
  | [] => []
  | current :: rest =>
      let '(model', prediction) := train_recommender_vanilla model current in
      prediction :: step_predictions model' rest
  end.

(** The model after [j] passes over [snapshot_data], each run to the end of
    the pass. *)
Fixpoint after_passes (j : nat) (model : Model) (snapshot_data : list Example)
  : Model :=
  match j with
  | O => model
  | S j' =>
      after_passes j' (fst (fst (pass_loop model snapshot_data false 0)))
                   snapshot_data
  end.

(** What the passes of one snapshot are to leave in the log, [tepoch] passes
    being asked for, from [model] on: when no step of these passes returns a
    NaN prediction, one line per pass, each pass over every example of the
    snapshot; otherwise the lines of the passes before the first flagged one,
    the line of the flagged pass, which ends with its first flagged step, and
    the NaN notice, and nothing after it. *)
Definition snapshot_passes (tepoch snap_idx : nat) (model : Model)
           (snapshot_data : list Example) (tr : list event) : Prop :=
  let clean := fun j =>
    first_nan (step_predictions (after_passes j model snapshot_data) snapshot_data)
    = None in
  let full := fun n =>
    map (fun j => EpochLog snap_idx (S j) (List.length snapshot_data)) (seq 0 n) in
  ((forall j, j < tepoch -> clean j) /\ tr = full tepoch)
  \/ (exists k p : nat,
         k < tepoch
         /\ (forall j, j < k -> clean j)
         /\ first_nan (step_predictions (after_passes k model snapshot_data)
                                        snapshot_data) = Some p
         /\ tr = full k ++ [EpochLog snap_idx (S k) (S p); NaNLog snap_idx]).

(** A step never returns a prediction with a NaN entry. *)
Definition quiet : Prop :=
  forall (m : Model) (x : Example),
    isnan_any (snd (train_recommender_vanilla m x)) = false.

(** [fit_offline]: one pass over the pre-training data, in the order the
    shuffling loader yields it. *)
Definition fit_offline (model : Model) (dl : list Example) : Model * bool * nat :=
  pass_loop model dl false 0.

(** The [for i, current in enumerate(dl)] loop that fills
    [data_custom[snap_idx]]: skip while [i < start], stop at [i >= end]. *)
Fixpoint collect (dl : list Example) (i start end_ : Z) : list Example :=
  match dl with
  | [] => []
  | current :: rest =>
      if (i <? start)%Z then collect rest (i + 1)%Z start end_
      else if (i >=? end_)%Z then []
      else current :: collect rest (i + 1)%Z start end_
  end.

(** The loop that builds [data_custom], as the list of its values in key
    order [0, 1, ...]: [starts] is [-100] followed by the boundaries, [ends]
    is the boundaries. [data k] is what the loader yields (unshuffled) once
    [data.fine_tune_snap_idx] is set to [k]. *)
Fixpoint data_custom_from (snap_idx : nat) (start : Z) (snap_boundaries : list Z)
         (data : nat -> list Example) : list (list Example) :=
  match snap_boundaries with
  | [] => []
  | end_ :: rest =>
      collect (data snap_idx) 0%Z start end_
      :: data_custom_from (S snap_idx) end_ rest data
  end.

Definition data_custom (snap_boundaries : list Z) (data : nat -> list Example)
  : list (list Example) :=
  data_custom_from 0 (-100)%Z snap_boundaries data.

(** The [for e in tqdm(range(self.tepoch))] loop on one snapshot; [n] passes
    remain and [e] have been run. *)
Fixpoint tepoch_loop (n e : nat) (snap_idx : nat) (model : Model)
         (snapshot_data : list Example) (flag : bool)
  : Model * bool * list event :=
  match n with
  | O => (model, flag, [])
  | S n' =>
      let '(model', flag', steps) := pass_loop model snapshot_data flag 0 in
      let log := EpochLog snap_idx (S e) steps in
      if flag' then (model', false, [log; NaNLog snap_idx])
      else
        let '(model'', flag'', tr) :=
          tepoch_loop n' (S e) snap_idx model' snapshot_data flag' in
        (model'', flag'', log :: tr)
  end.

(** The [for snap_idx, snapshot_data in data_custom.items()] loop. *)
Fixpoint snapshot_loop (dyn_method : string) (snap_thres : Z) (tepoch : nat)
         (snap_idx : nat) (snaps : list (list Example))
         (model : Model) (flag : bool)
  : Model * bool * list event :=
  match snaps with
  | [] => (model, flag, [])
  | snapshot_data :: rest =>
      if Nat.eqb snap_idx 0 then
        snapshot_loop dyn_method snap_thres tepoch (S snap_idx) rest model flag
      else
        let '(model1, flag1, tr_fit) :=
          if (Z.of_nat snap_idx >? snap_thres)%Z then
            let '(m, f, tr) := tepoch_loop tepoch 0 snap_idx model snapshot_data flag in
            (m, f, tr ++ [Plot snap_idx])
          else (model, flag, []) in
        let tr_save :=
          if PyStr.contains "modi-fine" dyn_method
             && (Z.of_nat snap_idx <=? snap_thres)%Z
          then []
          else [SaveModel (PyStr.snap_tag snap_idx)] in
        let '(model2, flag2, tr_rest) :=
          snapshot_loop dyn_method snap_thres tepoch (S snap_idx) rest model1 flag1 in
        (model2, flag2, tr_fit ++ tr_save ++ tr_rest)
  end.

(** [dynamic_prediction(model, data, args)]. *)
Definition dynamic_prediction (dyn_method : string) (snap_boundaries : list Z)
           (tepoch : nat) (model : Model) (data : nat -> list Example)
  : Model * bool * list event :=
  snapshot_loop dyn_method (snap_thres_of dyn_method) tepoch 0
                (data_custom snap_boundaries data) model false.

(** The [for epoch in range(self.epoch)] loop of [train]. [loader epoch] is
    the order in which the shuffling loader yields the pre-training data in
    that epoch; [snap0_exists] is [os.path.exists(model.model_path+'_snap0')].
    The interactive handling of [KeyboardInterrupt] is not part of the
    model. *)
Fixpoint epoch_loop (dyn_method : string) (snap0_exists : bool)
         (loader : nat -> list Example) (n epoch : nat) (model : Model)
  : Model * list event :=
  match n with
  | O => (model, [])
  | S n' =>
      if PyStr.contains "finetune" dyn_method && snap0_exists then
        (model, [LoadModel (PyStr.snap_tag 0)])
      else
        let '(model', flag, steps) := fit_offline model (loader epoch) in
        let log := EpochLog 0 (S epoch) steps in
        if flag then (model', [log; NaNLog 0])
        else
          let '(model'', tr) :=
            epoch_loop dyn_method snap0_exists loader n' (S epoch) model' in
          (model'', log :: tr)
  end.

(** [train(model, data_dict, args, snap_idx)]. *)
Definition train (dyn_method : string) (snap_boundaries : list Z)
           (epochs tepoch : nat) (snap0_exists : bool)
           (loader : nat -> list Example) (test_data : nat -> list Example)
           (snap_idx : nat) (model : Model)
  : Model * list event :=
  let '(model1, tr_pre) :=
    epoch_loop dyn_method snap0_exists loader epochs 0 model in
  let tr_pre := tr_pre ++ [Plot 0] in
  if PyStr.contains "fulltrain" dyn_method then
    (model1, tr_pre ++ [SaveModel (PyStr.snap_tag snap_idx)])
  else if PyStr.contains "pretrain" dyn_method then
    (model1,
     tr_pre ++ map (fun i => SaveModel (PyStr.snap_tag i))
                   (seq 0 (List.length snap_boundaries)))
  else
    let tr_modi :=
      if PyStr.contains "modi-fine" dyn_method
      then map (fun i => SaveModel (PyStr.snap_tag i)) (seq 0 (S snap_idx))
      else [] in
    let '(model2, _, tr_dyn) :=
      dynamic_prediction dyn_method snap_boundaries tepoch model1 test_data in
    (model2, tr_pre ++ tr_modi ++ [SaveModel (PyStr.snap_tag 0)] ++ tr_dyn).

End Trainer.

Arguments pass_loop {Model Example} _ model dl flag steps.
Arguments quiet {Model Example} _.
Arguments after_passes {Model Example} _ j model snapshot_data.
Arguments snapshot_passes {Model Example} _ tepoch snap_idx model snapshot_data tr.
Arguments step_predictions {Model Example} _ model dl.
Arguments fit_offline {Model Example} _ model dl.
Arguments collect {Example} dl i start end_.
Arguments data_custom_from {Example} snap_idx start snap_boundaries data.
Arguments data_custom {Example} snap_boundaries data.
Arguments tepoch_loop {Model Example} _ n e snap_idx model snapshot_data flag.
Arguments snapshot_loop {Model Example} _ dyn_method snap_thres tepoch snap_idx
  snaps model flag.
Arguments dynamic_prediction {Model Example} _ dyn_method snap_boundaries tepoch
  model data.
Arguments epoch_loop {Model Example} _ dyn_method snap0_exists loader n epoch model.
Arguments train {Model Example} _ dyn_method snap_boundaries epochs tepoch
  snap0_exists loader test_data snap_idx model.

(** The test that guards [model.save_model] in the snapshot loop: a snapshot
    is saved unless the mode holds [modi-fine] and the snapshot is at or below
    the threshold. *)
Definition checkpointed (dyn_method : string) (snap_idx : nat) : bool :=
  negb (PyStr.contains "modi-fine" dyn_method
        && (Z.of_nat snap_idx <=? snap_thres_of dyn_method)%Z).

(** Boundaries that start at or after [prev] and never decrease. *)
Fixpoint nondecreasing_from (prev : Z) (snap_boundaries : list Z) : bool :=
  match snap_boundaries with
  | [] => true
  | b :: rest => (prev <=? b)%Z && nondecreasing_from b rest
  end.

(** A trace of the pre-training loop: logs of snapshot 0 and the load of an
    existing checkpoint. *)
Definition pretrain_event (ev : event) : Prop :=
  match ev with
  | EpochLog j _ _ | NaNLog j => j = 0
  | LoadModel _ => True
  | _ => False
  end.

End MetaRunner.

(** ** Exceptions and results *)

Inductive exn : Type :=
| ValueError (msg : string)
| KeyError (key : Z)
| IndexError
| UnboundLocalError (name : string)
| TypeError
| ZeroDivisionError.

Inductive result (A : Type) : Type :=
| Ok (a : A)
| Err (e : exn).
Arguments Ok {A} a.
Arguments Err {A} e.

Definition is_ok {A : Type} (r : result A) : bool :=
match r with
| Ok _ => true
| Err _ => false
end.

(** ** Python dictionaries, in insertion order *)

Module Dict.
Section Dict.
Variables (K V : Type).
Variable eqb : K -> K -> bool.

Definition t : Type := list (K * V).

(** [d.get(k)]. *)
Fixpoint get (k : K) (d : t) : option V :=
  match d with
  | [] => None
  | (k', v) :: rest => if eqb k k' then Some v else get k rest
  end.

(** [d[k] = v]: an existing key keeps its place, a new key goes last. *)
Fixpoint set (k : K) (v : V) (d : t) : t :=
  match d with
  | [] => [(k, v)]
  | (k', v') :: rest =>
      if eqb k k' then (k', v) :: rest else (k', v') :: set k v rest
  end.

(** [d[k] = f(d[k])] for a key that is present (as in [d[k] += x]); a dict
    without the key is returned unchanged. *)
Fixpoint adjust (k : K) (f : V -> V) (d : t) : t :=
  match d with
  | [] => []
  | (k', v) :: rest =>
      if eqb k k' then (k', f v) :: rest else (k', v) :: adjust k f rest
  end.

Definition keys (d : t) : list K := map fst d.

Definition mem (k : K) (d : t) : bool :=
  match get k d with
  | Some _ => true
  | None => false
  end.
End Dict.
Arguments get {K V} eqb k d.
Arguments set {K V} eqb k v d.
Arguments adjust {K V} eqb k f d.
Arguments keys {K V} d.
Arguments mem {K V} eqb k d.
End Dict.

(** ** [sorted(..., reverse=True)] *)

Section SortedReverse.
Variable A : Type.
(** [lt x y]: the key of [x] is strictly below the key of [y]. *)
Variable lt : A -> A -> bool.

(** Put [x], which came before every element of [l] in the input, in front
    of the first element that is not strictly above it. *)
Fixpoint insert_desc (x : A) (l : list A) : list A :=
  match l with
  | [] => [x]
  | y :: rest => if lt x y then y :: insert_desc x rest else x :: y :: rest
  end.

(** Descending and stable, as Python's [sorted] with [reverse=True]. *)
Definition sorted_reverse (l : list A) : list A :=
  fold_right insert_desc [] l.
End SortedReverse.
Arguments insert_desc {A} lt x l.
Arguments sorted_reverse {A} lt l.

(** [a] occurs in [l] before an occurrence of [b]. *)
Definition precedes {A : Type} (a b : A) (l : list A) : Prop :=
  exists l1 l2 l3, l = l1 ++ a :: l2 ++ b :: l3.

(** [x] may stand before [z] in the descending stable sort of [l]: the key
    of [x] is strictly above, or the keys tie and [x] came first in [l]. *)
Definition stable_desc {A : Type} (lt : A -> A -> bool) (l : list A) (x z : A)
  : Prop :=
  In x l /\ In z l /\ (lt z x = true \/ (lt x z = false /\ precedes x z l)).

(** The items of [l] in the order of their first occurrence, skipping those
    in [seen]: the key order of a dict filled by walking [l]. *)
Fixpoint first_occurrences (seen l : list Z) : list Z :=
  match l with
  | [] => []
  | x :: rest =>
      if existsb (Z.eqb x) seen then first_occurrences seen rest
      else x :: first_occurrences (seen ++ [x]) rest
  end.

(** [a < b] on rationals. *)
Definition Qltb (a b : Q) : bool := negb (Qle_bool b a).

(** A relevance score, a float (or a tensor of one float): NaN, an infinity
    or a number; every finite binary float is a rational. *)
Inductive score : Type :=
| NaN
| NegInf
| Num (q : Q)
| PosInf.

Definition is_nan (s : score) : bool :=
  match s with
  | NaN => true
  | _ => false
  end.

(** [a < b] on floats: false as soon as one side is NaN. *)
Definition score_ltb (a b : score) : bool :=
  match a, b with
  | NaN, _ | _, NaN => false
  | NegInf, NegInf => false
  | NegInf, _ => true
  | _, NegInf => false
  | PosInf, _ => false
  | Num _, PosInf => true
  | Num x, Num y => Qltb x y
  end.


(** The key comparison of [sorted(..., key=lambda x: x[1])]. *)
Definition by_score (x y : Z * score) : bool := score_ltb (snd x) (snd y).

(** Some score of the list is NaN. *)
Definition has_nan (l : list (Z * score)) : bool :=
  existsb (fun x => is_nan (snd x)) l.

(** No entry is directly followed by one with a strictly higher score. *)
Fixpoint descending_run (l : list (Z * score)) : bool :=
  match l with
  | x :: (y :: _) as rest => negb (by_score x y) && descending_run rest
  | _ => true
  end.

(** [False < True] on numpy booleans. *)
Definition bool_ltb (a b : bool) : bool := negb a && b.

(** ** MetaRunner: early stopping *)

Module EarlyStop.

Section Criterion.

(** [utils.non_increasing], which is not part of this file: a test on a list
    of scores. *)
Variable non_increasing : list Q -> bool.

(** [l[-n:]]. *)
Definition last_slice (n : Z) (l : list Q) : list Q :=
  if (n =? 0)%Z then l
  else if (0 <? n)%Z then skipn (List.length l - Z.to_nat n) l
  else skipn (Z.to_nat (- n)) l.

(** [max(x, rest...)]: the first of the largest scores. *)
Fixpoint py_max (best : Q) (rest : list Q) : Q :=
  match rest with
  | [] => best
  | y :: rest' => if Qltb best y then py_max y rest' else py_max best rest'
  end.

(** [l.index(x)] for an [x] that occurs in [l]; [len(l)] stands for the
    [ValueError] of an absent [x]. *)
Fixpoint py_index (x : Q) (l : list Q) : nat :=
  match l with
  | [] => 0
  | y :: rest => if Qeq_bool y x then 0 else S (py_index x rest)
  end.

(** [eval_termination(criterion)]. *)
Definition eval_termination (early_stop : Z) (criterion : list Q) : result bool :=
  if (20 <? List.length criterion)%nat
     && non_increasing (last_slice early_stop criterion)
  then Ok true
  else
    match criterion with
    | [] => Err (ValueError "max() arg is an empty sequence")
    | x :: rest =>
        if (20 <? List.length criterion - py_index (py_max x rest) criterion)%nat
        then Ok true
        else Ok false
    end.

End Criterion.

End EarlyStop.

(** ** Ranking metrics of [Tester] *)

Module Metrics.

Definition log2 (x : R) : R := (ln x / ln 2)%R.

Definition sum_R (l : list R) : R := fold_right Rplus 0%R l.

(** [np.isin(rec_list, test_pos)]. *)
Definition isin (rec_list test_pos : list Z) : list bool :=
map (fun x => existsb (Z.eqb x) test_pos) rec_list.

(** [np.asfarray] of a boolean array. *)
Definition asfarray (r : list bool) : list R :=
map (fun b : bool => if b then 1%R else 0%R) r.

(** [np.isin(rec_list, test_pos).sum()]. *)
Definition hit_count (rec_list test_pos : list Z) : nat :=
List.length (filter (fun b : bool => b) (isin rec_list test_pos)).

(** [np.sum(r / np.log2(np.arange(first, first + r.size)))]. *)
Fixpoint discounted_sum (first : nat) (r : list R) : R :=
match r with
| [] => 0%R
| x :: rest => (x / log2 (INR first) + discounted_sum (S first) rest)%R
end.

(** [np.sum(r / np.arange(first, first + r.size))]. *)
Fixpoint reciprocal_sum (first : nat) (r : list R) : R :=
match r with
| [] => 0%R
| x :: rest => (x / INR first + reciprocal_sum (S first) rest)%R
end.

Definition measure_recall (rec_list test_pos : list Z) : R :=
(INR (hit_count rec_list test_pos) / INR (List.length test_pos))%R.

Definition measure_num_hit (rec_list test_pos : list Z) : R :=
INR (hit_count rec_list test_pos).

Definition measure_ndcg_deprecated (rec_list test_pos : list Z) : R :=
let k := Nat.min (List.length rec_list) (List.length test_pos) in
let idcg := discounted_sum 2 (repeat 1%R k) in
let dcg := discounted_sum 2 (asfarray (isin rec_list test_pos)) in
(dcg / idcg)%R.

Definition measure_ndcg (rec_list test_pos : list Z) (method : Z) : result R :=
let r := asfarray (isin rec_list test_pos) in
let max_r := asfarray (sorted_reverse bool_ltb (isin rec_list test_pos)) in
if (method =? 0)%Z then
  match r, max_r with
  | r0 :: r1, m0 :: m1 =>
      let dcg := (r0 + discounted_sum 2 r1)%R in
      let idcg := (m0 + discounted_sum 2 m1)%R in
      if Req_dec_T idcg 0%R then Ok 0%R else Ok (dcg / idcg)%R
  | _, _ => Err IndexError
  end
else if (method =? 1)%Z then
  let dcg := discounted_sum 2 r in
  let idcg := discounted_sum 2 max_r in
  if Req_dec_T idcg 0%R then Ok 0%R else Ok (dcg / idcg)%R
else if (method =? 2)%Z then
  Ok (discounted_sum 2 r)
else Err (UnboundLocalError "idcg").

Definition measure_hit_ratio (rec_list test_pos : list Z) : R :=
if (0 <? hit_count rec_list test_pos)%nat then 1%R else 0%R.

Definition measure_precision (rec_list test_pos : list Z) : R :=
(INR (hit_count rec_list test_pos) / INR (List.length rec_list))%R.

(** [[measure_precision(rec_list[:k+1], test_pos) for k in range(len(rec_list)) if r[k]]]. *)
Definition precisions_at_hits (rec_list test_pos : list Z) : list R :=
flat_map
  (fun k => if nth k (isin rec_list test_pos) false
            then [measure_precision (firstn (S k) rec_list) test_pos]
            else [])
  (seq 0 (List.length rec_list)).

Definition measure_average_precision (rec_list test_pos : list Z) (method : Z)
: result R :=
let out := precisions_at_hits rec_list test_pos in
match out with
| [] => Ok 0%R
| _ =>
    if (method =? 0)%Z then Ok (sum_R out / INR (List.length out))%R
    else if (method =? 1)%Z then
      Ok (sum_R out / INR (Nat.min (List.length rec_list) (List.length test_pos)))%R
    else if (method =? 2)%Z then Ok (sum_R out / INR (List.length test_pos))%R
    else Err TypeError
end.

Definition measure_f1 (rec_list test_pos : list Z) : R :=
let recall := measure_recall rec_list test_pos in
let precision := measure_precision rec_list test_pos in
if Req_dec_T (recall + precision)%R 0%R then 0%R
else (2 * (recall * precision) / (recall + precision))%R.

(** The [for rank, i in enumerate(r)] loop of method 1: the 1-based rank of
  the first hit, 0 when there is none. *)
Fixpoint first_hit_rank (rank : nat) (r : list bool) : nat :=
match r with
| [] => 0
| i :: rest => if i then S rank else first_hit_rank (S rank) rest
end.

Definition measure_mrr (rec_list test_pos : list Z) (method : Z) : result R :=
if (method =? 0)%Z then
  Ok (reciprocal_sum 1 (asfarray (isin rec_list test_pos)))
else if (method =? 1)%Z then
  let r_ := first_hit_rank 0 (isin rec_list test_pos) in
  if Nat.eqb r_ 0 then Ok 0%R else Ok (1 / INR r_)%R
else Err (UnboundLocalError "rr").

(** ['Undefined evaluation metric: {}.'.format(metric)]. *)
Definition undefined_metric (metric : string) : string :=
  String.append "Undefined evaluation metric: " (String.append metric ".").

(** The [if metric == ... elif ... else raise ValueError] chain of
  [measure_performance_for_a_user]. *)
Definition metric_value (metric : string) (rec_list test_pos : list Z) : result R :=
if String.eqb metric "recall" then Ok (measure_recall rec_list test_pos)
else if String.eqb metric "ndcg1" then measure_ndcg rec_list test_pos 1
else if String.eqb metric "ndcg0" then Ok (measure_ndcg_deprecated rec_list test_pos)
else if String.eqb metric "mrr0" then measure_mrr rec_list test_pos 0
else if String.eqb metric "mrr1" then measure_mrr rec_list test_pos 1
else if String.eqb metric "ap0" then measure_average_precision rec_list test_pos 0
else if String.eqb metric "ap1" then measure_average_precision rec_list test_pos 1
else if String.eqb metric "ap2" then measure_average_precision rec_list test_pos 2
else if String.eqb metric "hit_ratio" then Ok (measure_hit_ratio rec_list test_pos)
else if String.eqb metric "precision" then Ok (measure_precision rec_list test_pos)
else if String.eqb metric "f1" then Ok (measure_f1 rec_list test_pos)
else if String.eqb metric "ndcg2" then measure_ndcg rec_list test_pos 2
else if String.eqb metric "hit" then Ok (measure_num_hit rec_list test_pos)
else Err (ValueError
            (String.append "Undefined evaluation metric: " (String.append metric "."))).

(** The value of a computed metric, 0 when it raised. *)
Definition value_of (r : result R) : R :=
  match r with
  | Ok v => v
  | Err _ => 0%R
  end.

(** The metric names the chain above recognises. *)
Definition supported_metrics : list string :=
["recall"; "ndcg1"; "ndcg0"; "mrr0"; "mrr1"; "ap0"; "ap1"; "ap2";
 "hit_ratio"; "precision"; "f1"; "ndcg2"; "hit"].

Definition supported (metric : string) : bool :=
existsb (String.eqb metric) supported_metrics.

End Metrics.

(** ** Tester: recommendation lists and the evaluation pass *)

Module Tester.

(** The attributes of the tester that hold the metric results:
  [self.results], [self.num_test_users], [self.results_user_attr],
  [self.num_users_per_group] and [self.binary_unfairness]. The per-group
  counters that [init_results] creates beside them (users, unseen items and
  positives per group, cold-start counts) are other attributes of the object:
  no metric reads them, and they are not part of this record;
  [count_info_per_group], which fills the user counters, is embedded in
  [GroupInfo]. *)
Record tester : Type := mkTester {
results : Dict.t string R;
num_test_users : nat;
results_user_attr : list (Dict.t Z (Dict.t string R));
num_users_per_group : list (Dict.t Z nat);
binary_unfairness : Dict.t string (Dict.t nat R)
}.

(** Computations on the tester object that may raise: the state at the time
  of the exception is kept. *)
Definition M (A : Type) : Type := tester -> result A * tester.

Definition ret {A : Type} (a : A) : M A := fun st => (Ok a, st).

Definition bind {A B : Type} (m : M A) (k : A -> M B) : M B :=
fun st =>
  match m st with
  | (Ok a, st') => k a st'
  | (Err e, st') => (Err e, st')
  end.

Definition lift {A : Type} (r : result A) : M A := fun st => (r, st).

Definition modify (f : tester -> tester) : M unit := fun st => (Ok tt, f st).

Notation "x <- m ;; k" := (bind m (fun x => k))
(at level 61, m at next level, right associativity).
Notation "m ;;; k" := (bind m (fun _ => k))
(at level 61, right associativity).

(** [list(set(a) - set(b) - set(c))]. CPython does not specify the order in
  which a set is enumerated; the model keeps first occurrences in the order
  of [a]. *)
Definition set_difference (a b c : list Z) : list Z :=
filter (fun x => negb (existsb (Z.eqb x) b) && negb (existsb (Z.eqb x) c))
       (nodup Z.eq_dec a).

(** The [for k in range(self.num_type_attr)] loops, which walk the attribute
  dimensions and the table of each in step. *)
Fixpoint per_dim {A : Type} (f : nat -> list Z -> A -> A) (k : nat)
       (user_groups : list (list Z)) (tables : list A) : list A :=
match user_groups, tables with
| groups :: gs, table :: ts => f k groups table :: per_dim f (S k) gs ts
| _, _ => tables
end.


Section Evaluation.

(** Configuration of the tester: [self.metrics], [self.user_groups] (one
    list of group labels per attribute dimension; [self.num_type_attr] is
    its length), [self.K] and [self.num_neg_samples]. *)
Variable metrics : list string.
Variable user_groups : list (list Z).
Variable K : Z.
Variable num_neg_samples : Z.

(** [self.user_attr[user][k]]. [set_user_attr] fills the table for every
    user of the training user set, one entry per dimension, before any user
    is visited (or raises there), so the lookup is total on the users the
    pass visits. *)
Variable user_attr : Z -> nat -> Z.

(** [model.get_relevances(model, user, candidate_items)] in eval mode: one
    score per candidate. *)
Variable get_relevances : Z -> list Z -> list score.

(** What [sorted] makes of a list that holds a NaN score and is not one
    descending run: every comparison with NaN is false, the list that
    CPython's sort leaves then depends on the runs it finds and the merges it
    makes, and is a rearrangement of its input. [nan_order l item] is the
    rank at which it leaves [item], higher ranks first. *)
Variable nan_order : list (Z * score) -> Z -> nat.

(** What [random.sample(population, k)] draws for this user when the
    request can be served. The generator is re-seeded with [random.seed(10)]
    before the pass and every user is visited once, so within a pass the
    draw is a function of the user. *)
Variable sample_draw : Z -> list Z -> nat -> list Z.

(** Data of the pass: [train_item_set], [train_pos], [test_pos] and
    [train_user_set], as [utils] builds them from the edge files. *)
Variable train_item_set : list Z.
Variable train_pos : Dict.t Z (list Z).
Variable test_pos : Dict.t Z (list Z).

(** [d[user]]. *)
Definition lookup (d : Dict.t Z (list Z)) (user : Z) : result (list Z) :=
  match Dict.get Z.eqb user d with
  | Some items => Ok items
  | None => Err (KeyError user)
  end.

(** [random.sample(population, k)]. *)
Definition random_sample (user : Z) (population : list Z) (k : Z)
  : result (list Z) :=
  if (0 <=? k)%Z && (k <=? Z.of_nat (List.length population))%Z
  then Ok (sample_draw user population (Z.to_nat k))
  else Err (ValueError "Sample larger than population or is negative").

(** The [for item, relevance in zip(candidate_items, item_relevances)]
    loop: fills [relevances] and counts the candidates outside
    [train_item_set]. *)
Fixpoint fill_relevances (pairs : list (Z * score)) (relevances : Dict.t Z score)
         (cnt : nat) : Dict.t Z score * nat :=
  match pairs with
  | [] => (relevances, cnt)
  | (item, relevance) :: rest =>
      if existsb (Z.eqb item) train_item_set
      then fill_relevances rest (Dict.set Z.eqb item relevance relevances) cnt
      else fill_relevances rest (Dict.set Z.eqb item relevance relevances) (S cnt)
  end.


(** [sorted(relevances.items(), key=lambda x: x[1], reverse=True)].
    Without a NaN among the scores [<] orders them and the result is the
    descending stable sort. With a NaN, CPython's sort (which, for
    [reverse=True], reverses the list, sorts it and reverses it again) first
    looks for a run: when no entry is directly followed by one of a strictly
    higher score the whole list is one run and comes back as it is;
    otherwise the result is the rearrangement [nan_order]. *)
Definition sorted_relevances (relevances : Dict.t Z score) : list (Z * score) :=
  if negb (has_nan relevances) then sorted_reverse by_score relevances
  else if descending_run relevances then relevances
  else
    sorted_reverse
      (fun x y => (nan_order relevances (fst x) <? nan_order relevances (fst y))%nat)
      relevances.

(** What [generate_recommendation_list_for_a_user] prints when the request
    exceeds the pool: the four counts. *)
Definition diagnostics (new_item_set train_items user_train user_test : list Z)
  : list nat :=
  if (num_neg_samples >? Z.of_nat (List.length new_item_set))%Z
  then [List.length new_item_set; List.length train_items;
        List.length user_train; List.length user_test]
  else [].

(** The [if num_neg_samples != -1] branch: the negatives of a user, drawn
    from [new_item_set] or all of it. *)
Definition negative_samples (user : Z) (new_item_set : list Z) : result (list Z) :=
  if (num_neg_samples =? -1)%Z then Ok new_item_set
  else random_sample user new_item_set num_neg_samples.

(** [generate_recommendation_list_for_a_user]: the lines printed, and the
    recommendation list with the count of unseen candidates. *)
Definition generate_recommendation_list_for_a_user (user : Z)
  : list nat * result (list Z * nat) :=
  match lookup train_pos user with
  | Err e => ([], Err e)
  | Ok user_train =>
  match lookup test_pos user with
  | Err e => ([], Err e)
  | Ok user_test =>
      let new_item_set := set_difference train_item_set user_train user_test in
      let printed :=
        if (num_neg_samples =? -1)%Z then []
        else diagnostics new_item_set train_item_set user_train user_test in
      match negative_samples user new_item_set with
      | Err e => (printed, Err e)
      | Ok neg_samples =>
          let candidate_items := user_test ++ neg_samples in
          let '(relevances, cnt) :=
            fill_relevances
              (combine candidate_items (get_relevances user candidate_items)) [] 0 in
          let ranked := map fst (sorted_relevances relevances) in
          let recommendation_list :=
            if (K >? 0)%Z then firstn (Z.to_nat K) ranked else ranked in
          (printed, Ok (recommendation_list, cnt))
      end
  end
  end.

(** [init_results]. *)
Definition init_metric_totals : Dict.t string R :=
  fold_left (fun d metric => Dict.set String.eqb metric 0%R d) metrics [].

Definition init_results : tester :=
  {| results := init_metric_totals;
     num_test_users := 0;
     results_user_attr :=
       map (fun groups =>
              fold_left (fun d attr => Dict.set Z.eqb attr init_metric_totals d)
                        groups [])
           user_groups;
     num_users_per_group :=
       map (fun groups =>
              fold_left (fun d attr => Dict.set Z.eqb attr 0%nat d) groups [])
           user_groups;
     binary_unfairness := [] |}.

(** The body of the metric loop after [value] is known: the overall total,
    the user count on the first metric, and the totals and counts of the
    groups the user belongs to. [init_results] creates every key touched
    here. *)
Definition accumulate (user : Z) (metric : string) (value : R) (flag : nat)
           (st : tester) : tester :=
  {| results := Dict.adjust String.eqb metric (fun total => (total + value)%R)
                            (results st);
     num_test_users :=
       if Nat.eqb flag 0 then S (num_test_users st) else num_test_users st;
     results_user_attr :=
       per_dim
         (fun k groups table =>
            fold_left
              (fun tb attr =>
                 if (user_attr user k =? attr)%Z
                 then Dict.adjust Z.eqb attr
                        (Dict.adjust String.eqb metric
                                     (fun total => (total + value)%R)) tb
                 else tb)
              groups table)
         0 user_groups (results_user_attr st);
     num_users_per_group :=
       per_dim
         (fun k groups table =>
            fold_left
              (fun tb attr =>
                 if (user_attr user k =? attr)%Z && Nat.eqb flag 0
                 then Dict.adjust Z.eqb attr S tb
                 else tb)
              groups table)
         0 user_groups (num_users_per_group st);
     binary_unfairness := binary_unfairness st |}.

(** The [for metric in self.metrics] loop of
    [measure_performance_for_a_user]; a user without test positives only
    gets the error line printed. *)
Fixpoint measure_metrics (user : Z) (recommendation_list : list Z)
         (remaining : list string) (flag : nat) : M unit :=
  match remaining with
  | [] => ret tt
  | metric :: rest =>
      match Dict.get Z.eqb user test_pos with
      | Some user_test =>
          value <- lift (Metrics.metric_value metric recommendation_list user_test) ;;
          modify (accumulate user metric value flag) ;;;
          measure_metrics user recommendation_list rest (S flag)
      | None => measure_metrics user recommendation_list rest flag
      end
  end.

Definition measure_performance_for_a_user (user : Z) (recommendation_list : list Z)
  : M unit :=
  measure_metrics user recommendation_list metrics 0.

(** The [for user in train_user_set] loop of [recommendation] and
    [quick_recommendation]. *)
Fixpoint user_loop (users : list Z) : M unit :=
  match users with
  | [] => ret tt
  | user :: rest =>
      (if Dict.mem Z.eqb user test_pos then
         generated <- lift (snd (generate_recommendation_list_for_a_user user)) ;;
         measure_performance_for_a_user user (fst generated)
       else ret tt) ;;;
      user_loop rest
  end.

(** [value / self.num_test_users] on a Python float. *)
Definition py_div (value : R) (n : nat) : result R :=
  if Nat.eqb n 0 then Err ZeroDivisionError else Ok (value / INR n)%R.

(** The loop of [average_user] over [self.results.items()]; [done] holds
    the entries already divided. *)
Fixpoint average_items (n : nat) (items : list (string * R)) : result (Dict.t string R) :=
  match items with
  | [] => Ok []
  | (metric, value) :: rest =>
      match py_div value n with
      | Err e => Err e
      | Ok mean =>
          match average_items n rest with
          | Err e => Err e
          | Ok rest' => Ok ((metric, mean) :: rest')
          end
      end
  end.

Definition average_user : M unit :=
  fun st =>
    match average_items (num_test_users st) (results st) with
    | Err e => (Err e, st)
    | Ok averaged =>
        (Ok tt, {| results := averaged;
                   num_test_users := num_test_users st;
                   results_user_attr := results_user_attr st;
                   num_users_per_group := num_users_per_group st;
                   binary_unfairness := binary_unfairness st |})
    end.

(** [self.num_users_per_group[k][attr]], the count of a group that
    [init_results] created. *)
Definition group_count (counts : list (Dict.t Z nat)) (k : nat) (attr : Z) : nat :=
  match Dict.get Z.eqb attr (nth k counts []) with
  | Some n => n
  | None => 0
  end.

(** What [average_user_attr] makes of a group total, given the user count of
    the group. *)
Definition average_of (count : nat) (total : R) : R :=
  if Nat.eqb count 0 then 0%R else (total / INR count)%R.

(** [average_user_attr]: every group total becomes 0 for an empty group and
    total / count otherwise. *)
Definition average_user_attr (st : tester) : tester :=
  {| results := results st;
     num_test_users := num_test_users st;
     results_user_attr :=
       per_dim
         (fun k groups table =>
            fold_left
              (fun tb attr =>
                 fold_left
                   (fun tb' metric =>
                      if Nat.eqb (group_count (num_users_per_group st) k attr) 0
                      then Dict.adjust Z.eqb attr
                             (Dict.adjust String.eqb metric (fun _ => 0%R)) tb'
                      else Dict.adjust Z.eqb attr
                             (Dict.adjust String.eqb metric
                                (fun total =>
                                   (total / INR (group_count (num_users_per_group st)
                                                             k attr))%R)) tb')
                   metrics tb)
              groups table)
         0 user_groups (results_user_attr st);
     num_users_per_group := num_users_per_group st;
     binary_unfairness := binary_unfairness st |}.

(** The entry [self.results_user_attr[k][attr][metric]], when it exists. *)
Definition group_entry (tables : list (Dict.t Z (Dict.t string R)))
           (k : nat) (attr : Z) (metric : string) : option R :=
  match Dict.get Z.eqb attr (nth k tables []) with
  | Some totals => Dict.get String.eqb metric totals
  | None => None
  end.

(** [self.results_user_attr[k][attr][metric]], for an entry that
    [init_results] created. *)
Definition group_value (tables : list (Dict.t Z (Dict.t string R)))
           (k : nat) (attr : Z) (metric : string) : R :=
  match group_entry tables k attr metric with
  | Some v => v
  | None => 0%R
  end.

(** The [for k in range(self.num_type_attr)] loop of [measure_unfairness]
    for one metric: [value_list] per dimension, and the difference when it
    has two entries. The variance list is left out. *)
Fixpoint unfairness_of_metric (tables : list (Dict.t Z (Dict.t string R)))
         (metric : string) (k : nat) (dims : list (list Z)) (acc : Dict.t nat R)
  : Dict.t nat R :=
  match dims with
  | [] => acc
  | groups :: rest =>
      let value_list := map (fun attr => group_value tables k attr metric) groups in
      let acc' :=
        match value_list with
        | [v0; v1] => Dict.set Nat.eqb k (v0 - v1)%R acc
        | _ => acc
        end in
      unfairness_of_metric tables metric (S k) rest acc'
  end.

(** [measure_unfairness]. *)
Definition measure_unfairness (st : tester) : tester :=
  {| results := results st;
     num_test_users := num_test_users st;
     results_user_attr := results_user_attr st;
     num_users_per_group := num_users_per_group st;
     binary_unfairness :=
       fold_left
         (fun d metric =>
            Dict.set String.eqb metric
              (unfairness_of_metric (results_user_attr st) metric 0 user_groups [])
              d)
         metrics [] |}.

(** The metric results of [recommendation]: what [init_results], the user
    loop, [average_user], [average_user_attr] and [measure_unfairness] (which
    [get_results_str_] calls first) make of the five attributes of [tester],
    once [set_user_attr] has built [self.user_attr]. The calls that
    [recommendation] makes between [average_user_attr] and
    [get_results_str_] ([count_info_per_group], [average_info_per_group],
    [get_average_out_degree_per_groups]) write the per-group counters that
    are not part of [tester], over every user of the training user set, and
    none of the five attributes. [quick_recommendation], which looks up
    [self.user_attr[0]] before its loop, is embedded on its own in
    [QuickRecommendation]. *)
Definition evaluation_pass (train_user_set : list Z) : result unit * tester :=
  (user_loop train_user_set ;;;
   average_user ;;;
   modify average_user_attr ;;;
   modify measure_unfairness) init_results.

(** The users the loop scores: those of the training user set that are keys
    of [test_pos], in the order of the loop. *)
Definition eligible_users (train_user_set : list Z) : list Z :=
  filter (fun user => Dict.mem Z.eqb user test_pos) train_user_set.

(** The value of a metric for a user, on the list generated for that user. *)
Definition user_value (metric : string) (user : Z) : R :=
  match Dict.get Z.eqb user test_pos,
        snd (generate_recommendation_list_for_a_user user) with
  | Some user_test, Ok (recommendation_list, _) =>
      Metrics.value_of (Metrics.metric_value metric recommendation_list user_test)
  | _, _ => 0%R
  end.

(** Sum of the values of a metric over a list of users. *)
Definition total_value (metric : string) (users : list Z) : R :=
  Metrics.sum_R (map (user_value metric) users).

(** The parity difference that [measure_unfairness] stored for a metric and
    an attribute dimension, if any. *)
Definition reported_parity (st : tester) (metric : string) (k : nat) : option R :=
  match Dict.get String.eqb metric (binary_unfairness st) with
  | Some per_dim_values => Dict.get Nat.eqb k per_dim_values
  | None => None
  end.

End Evaluation.

End Tester.

(** ** Tester: unseen items *)

(** [item not in train_item_set], the test of the zip loop of
    [generate_recommendation_list_for_a_user]. *)
Definition unseen (train_item_set : list Z) (item : Z) : bool :=
  negb (existsb (Z.eqb item) train_item_set).

(** ** Tester: the user attribute table *)

Module UserAttr.

(** The loop [for user in user_attr: user_attr_dict[user[0]] = [user[1]]]
    over the rows of the attribute file. *)
Fixpoint read_rows (rows : list (list Z)) (user_attr_dict : Dict.t Z (list Z))
  : result (Dict.t Z (list Z)) :=
  match rows with
  | [] => Ok user_attr_dict
  | user :: rest =>
      match user with
      | u :: a :: _ => read_rows rest (Dict.set Z.eqb u [a] user_attr_dict)
      | _ => Err IndexError
      end
  end.

(** The loop [for u_idx in train_user_set:
    self.user_attr[u_idx] = [user_attr_dict[u_idx][0]]]. *)
Fixpoint fill (user_attr_dict : Dict.t Z (list Z)) (train_user_set : list Z)
         (user_attr : Dict.t Z (list Z)) : result (Dict.t Z (list Z)) :=
  match train_user_set with
  | [] => Ok user_attr
  | u_idx :: rest =>
      match Dict.get Z.eqb u_idx user_attr_dict with
      | None => Err (KeyError u_idx)
      | Some [] => Err IndexError
      | Some (a :: _) => fill user_attr_dict rest (Dict.set Z.eqb u_idx [a] user_attr)
      end
  end.

(** [set_user_attr]: [self.user_attr], from the rows of the attribute file
    and the training user set that [utils] reads from the training file. *)
Definition set_user_attr (rows : list (list Z)) (train_user_set : list Z)
  : result (Dict.t Z (list Z)) :=
  match read_rows rows [] with
  | Err e => Err e
  | Ok user_attr_dict => fill user_attr_dict train_user_set []
  end.

(** The first attribute of the last row of a user, [acc] when the user has
    no row. *)
Fixpoint last_attr (u : Z) (rows : list (list Z)) (acc : option Z) : option Z :=
  match rows with
  | [] => acc
  | (u' :: a :: _) :: rest =>
      if (u' =? u)%Z then last_attr u rest (Some a) else last_attr u rest acc
  | _ :: rest => last_attr u rest acc
  end.

(** Every row has a user and an attribute. *)
Definition well_formed (rows : list (list Z)) : bool :=
  forallb (fun row => (2 <=? List.length row)%nat) rows.

End UserAttr.

(** ** Tester: the parity differences of [quick_recommendation] *)

Module QuickPd.

(** The metrics whose parity difference [quick_recommendation] returns. *)
Definition pd_metrics : list string := ["recall"; "f1"; "ndcg1"; "precision"].

(** What the loop that fills [pd_dict] can raise: [IndexError] from
    [self.attr_type[k]], and [KeyError] from [self.binary_unfairness[metric]]
    or from [self.binary_unfairness[metric][k]]. *)
Inductive pd_error : Type :=
| AttrTypeIndexError
| MetricKeyError (metric : string)
| DimensionKeyError (k : nat).

(** The [for metric in self.metrics] loop for dimension [k]. *)
Fixpoint pd_metric_loop (binary_unfairness : Dict.t string (Dict.t nat R)) (k : nat)
         (metrics : list string) (pd_dict : Dict.t string R)
  : Dict.t string R + pd_error :=
  match metrics with
  | [] => inl pd_dict
  | metric :: rest =>
      if existsb (String.eqb metric) pd_metrics then
        match Dict.get String.eqb metric binary_unfairness with
        | None => inr (MetricKeyError metric)
        | Some per_dim =>
            match Dict.get Nat.eqb k per_dim with
            | None => inr (DimensionKeyError k)
            | Some pd =>
                pd_metric_loop binary_unfairness k rest
                               (Dict.set String.eqb metric pd pd_dict)
            end
        end
      else pd_metric_loop binary_unfairness k rest pd_dict
  end.

(** The [for k in range(self.num_type_attr)] loop, from dimension [k] on,
    [remaining] dimensions to go. *)
Fixpoint pd_dim_loop (attr_type : list string)
         (binary_unfairness : Dict.t string (Dict.t nat R)) (metrics : list string)
         (k remaining : nat) (pd_dict : Dict.t string R)
  : Dict.t string R + pd_error :=
  match remaining with
  | 0 => inl pd_dict
  | S remaining' =>
      match nth_error attr_type k with
      | None => inr AttrTypeIndexError
      | Some name =>
          if String.eqb name "ages" || String.eqb name "occupations"
          then pd_dim_loop attr_type binary_unfairness metrics (S k) remaining' pd_dict
          else
            match pd_metric_loop binary_unfairness k metrics pd_dict with
            | inr e => inr e
            | inl pd_dict' =>
                pd_dim_loop attr_type binary_unfairness metrics (S k) remaining'
                            pd_dict'
            end
      end
  end.

(** [pd_dict], as [quick_recommendation] returns it after the pass. *)
Definition pd_dict_of (attr_type : list string) (num_type_attr : nat)
           (metrics : list string) (st : Tester.tester)
  : Dict.t string R + pd_error :=
  pd_dim_loop attr_type (Tester.binary_unfairness st) metrics 0 num_type_attr [].

End QuickPd.

(** ** Tester: [quick_recommendation] *)

Module QuickRecommendation.

(** [self.user_attr[user][k]] for a user who has an entry with an attribute
    for dimension [k] in the table that [set_user_attr] built, as every user
    of the training user set has for [k = 0]. *)
Definition attr_of (user_attr : Dict.t Z (list Z)) (user : Z) (k : nat) : Z :=
  match Dict.get Z.eqb user user_attr with
  | Some attrs => nth k attrs 0%Z
  | None => 0%Z
  end.

(** The first user of [train_pos] without an entry in [self.user_attr]:
    [get_average_out_degree_per_groups] walks [train_pos.items()] and raises
    [KeyError] at [self.user_attr[user][k]] for such a user, when the
    dimension has a group. ([train_pos] and the training user set are read
    from the same training file, so that a run has no such user.) *)
Definition first_unknown_user (user_attr : Dict.t Z (list Z)) (groups : list Z)
           (train_pos : Dict.t Z (list Z)) : option Z :=
  match groups with
  | [] => None
  | _ :: _ =>
      find (fun user => negb (Dict.mem Z.eqb user user_attr)) (Dict.keys train_pos)
  end.

(** How a call of [quick_recommendation] ends: it returns [pd_dict], or
    raises. *)
Inductive outcome : Type :=
| Returned (pd_dict : Dict.t string R)
| Raised (e : exn)
| RaisedPd (e : QuickPd.pd_error).

Section Quick.

Variable metrics : list string.
Variable user_groups : list (list Z).
Variable attr_type : list string.
Variable K : Z.
Variable num_neg_samples : Z.
Variable get_relevances : Z -> list Z -> list score.
Variable nan_order : list (Z * score) -> Z -> nat.
Variable sample_draw : Z -> list Z -> nat -> list Z.
Variable train_item_set : list Z.
Variable train_pos : Dict.t Z (list Z).
Variable test_pos : Dict.t Z (list Z).

(** [quick_recommendation], given the rows of the attribute file and the
    training user set. [self.num_type_attr] is 1 when [init_results] runs
    (the constructor sets it, and so does every earlier call), and 1 again
    after line 605, since [set_user_attr] stores one attribute per user: the
    loops walk dimension 0 only, and [init_results] raises [IndexError] when
    there is none. The counters that lines 629-633 fill are not part of
    [tester]: of these calls only what they raise is kept.
    [count_info_per_group] walks the training user set, whose users all have
    an entry in the table of [set_user_attr], and raises nothing;
    [get_average_out_degree_per_groups] walks [train_pos] and raises for
    [first_unknown_user]. *)
Definition quick_recommendation (rows : list (list Z)) (train_user_set : list Z)
  : outcome :=
  match user_groups with
  | [] => Raised IndexError
  | groups :: _ =>
      match UserAttr.set_user_attr rows train_user_set with
      | Err e => Raised e
      | Ok user_attr =>
          match Dict.get Z.eqb 0%Z user_attr with
          | None => Raised (KeyError 0)
          | Some attrs =>
              let num_type_attr := List.length attrs in
              match Tester.evaluation_pass
                      metrics [groups] K num_neg_samples (attr_of user_attr)
                      get_relevances nan_order sample_draw train_item_set
                      train_pos test_pos train_user_set with
              | (Err e, _) => Raised e
              | (Ok _, st) =>
                  match first_unknown_user user_attr groups train_pos with
                  | Some user => Raised (KeyError user)
                  | None =>
                      match QuickPd.pd_dict_of attr_type num_type_attr metrics st with
                      | inl pd_dict => Returned pd_dict
                      | inr e => RaisedPd e
                      end
                  end
              end
          end
      end
  end.

End Quick.

End QuickRecommendation.

(** ** MetaRunner: the history of parity differences *)

Module PdHistory.

(** The loop [for metric, pd in pd_per_metric.items()] of [get_pd] on
    [global_pd[test_setting]]. *)
Fixpoint append_metrics (pd_per_metric : list (string * R))
         (history : Dict.t string (list R)) : Dict.t string (list R) :=
  match pd_per_metric with
  | [] => history
  | (metric, pd) :: rest =>
      let history' :=
        if Dict.mem String.eqb metric history then history
        else Dict.set String.eqb metric [] history in
      append_metrics rest
                     (Dict.adjust String.eqb metric (fun l => l ++ [pd]) history')
  end.

(** The loop [for test_setting, pd_per_metric in pd_per_test_setting.items()]. *)
Fixpoint append_settings (pd_per_test_setting : list (string * Dict.t string R))
         (global_pd : Dict.t string (Dict.t string (list R)))
  : Dict.t string (Dict.t string (list R)) :=
  match pd_per_test_setting with
  | [] => global_pd
  | (test_setting, pd_per_metric) :: rest =>
      let global_pd' :=
        if Dict.mem String.eqb test_setting global_pd then global_pd
        else Dict.set String.eqb test_setting [] global_pd in
      append_settings rest
                      (Dict.adjust String.eqb test_setting
                                   (append_metrics pd_per_metric) global_pd')
  end.

(** [get_pd(global_pd, model, snap_idx)], given the dict that
    [self.tester.quick_get_pd(model, snap_idx)] returned. *)
Definition get_pd (global_pd : Dict.t string (Dict.t string (list R)))
           (pd_per_test_setting : Dict.t string (Dict.t string R))
  : Dict.t string (Dict.t string (list R)) :=
  append_settings pd_per_test_setting global_pd.

(** The values recorded for a metric, none when the metric is not a key. *)
Definition metric_history (history : Dict.t string (list R)) (metric : string)
  : list R :=
  match Dict.get String.eqb metric history with
  | Some l => l
  | None => []
  end.

(** The values recorded for a test setting and a metric. *)
Definition pd_history (global_pd : Dict.t string (Dict.t string (list R)))
           (test_setting metric : string) : list R :=
  match Dict.get String.eqb test_setting global_pd with
  | Some history => metric_history history metric
  | None => []
  end.

(** The value a call brings for a test setting and a metric, if any. *)
Definition pd_entry (pd_per_test_setting : Dict.t string (Dict.t string R))
           (test_setting metric : string) : list R :=
  match Dict.get String.eqb test_setting pd_per_test_setting with
  | Some pd_per_metric =>
      match Dict.get String.eqb metric pd_per_metric with
      | Some pd => [pd]
      | None => []
      end
  | None => []
  end.

End PdHistory.

(** ** Tester: counting users per group *)

Module GroupInfo.

(** [self.user_attr[i][k]] on the table that [set_user_attr] built. *)
Definition attr_at (user_attr : Dict.t Z (list Z)) (i : Z) (k : nat) : result Z :=
  match Dict.get Z.eqb i user_attr with
  | None => Err (KeyError i)
  | Some attrs =>
      match nth_error attrs k with
      | None => Err IndexError
      | Some a => Ok a
      end
  end.

(** [info[k][attr] += 1]. *)
Definition increment (info : list (Dict.t Z Z)) (k : nat) (attr : Z)
  : result (list (Dict.t Z Z)) :=
  match nth_error info k with
  | None => Err IndexError
  | Some d =>
      match Dict.get Z.eqb attr d with
      | None => Err (KeyError attr)
      | Some n =>
          Ok (firstn k info ++ Dict.set Z.eqb attr (n + 1)%Z d :: skipn (S k) info)
      end
  end.

(** The loop [for attr in self.user_groups[k]] for user [i]. *)
Fixpoint attr_loop (user_attr : Dict.t Z (list Z)) (i : Z) (k : nat)
         (groups : list Z) (info : list (Dict.t Z Z))
  : result (list (Dict.t Z Z)) :=
  match groups with
  | [] => Ok info
  | attr :: rest =>
      match attr_at user_attr i k with
      | Err e => Err e
      | Ok a =>
          if (a =? attr)%Z then
            match increment info k attr with
            | Err e => Err e
            | Ok info' => attr_loop user_attr i k rest info'
            end
          else attr_loop user_attr i k rest info
      end
  end.

(** The loop [for k in range(self.num_type_attr)] for user [i], from
    dimension [k] on; [dims] are the groups of the dimensions to go. *)
Fixpoint dim_loop (user_attr : Dict.t Z (list Z)) (i : Z) (k : nat)
         (dims : list (list Z)) (info : list (Dict.t Z Z))
  : result (list (Dict.t Z Z)) :=
  match dims with
  | [] => Ok info
  | groups :: rest =>
      match attr_loop user_attr i k groups info with
      | Err e => Err e
      | Ok info' => dim_loop user_attr i (S k) rest info'
      end
  end.

(** [count_info_per_group(train_user_set, info)]; [self.num_type_attr] is
    the number of dimensions of [self.user_groups]. *)
Fixpoint count_info_per_group (user_attr : Dict.t Z (list Z))
         (user_groups : list (list Z)) (train_user_set : list Z)
         (info : list (Dict.t Z Z)) : result (list (Dict.t Z Z)) :=
  match train_user_set with
  | [] => Ok info
  | i :: rest =>
      match dim_loop user_attr i 0 user_groups info with
      | Err e => Err e
      | Ok info' => count_info_per_group user_attr user_groups rest info'
      end
  end.

(** [info[k][attr]], when the dimension and the group are there. *)
Definition cell (info : list (Dict.t Z Z)) (k : nat) (attr : Z) : option Z :=
  match nth_error info k with
  | Some d => Dict.get Z.eqb attr d
  | None => None
  end.

(** User [i] has attribute [attr] in dimension [k]. *)
Definition has_attr (user_attr : Dict.t Z (list Z)) (k : nat) (attr : Z) (i : Z)
  : bool :=
  match attr_at user_attr i k with
  | Ok a => (a =? attr)%Z
  | Err _ => false
  end.

End GroupInfo.

(** ** Tester: the lines of the result string *)

Module ResultsStr.

(** [str(attr)] for an [int]. *)
Definition str_int (z : Z) : string := NilZero.string_of_int (Z.to_int z).

(** [metric+'__'+suffix]. *)
Definition label (metric suffix : string) : string :=
  String.append metric (String.append "__" suffix).

(** A line ['\n{}\t{:.4f}'.format(label, value)] of the result string: the
    label and the number that is rendered. *)
Definition line : Type := (string * R)%type.

(** [self.results[metric]], for a metric that [init_results] created. *)
Definition result_of (st : Tester.tester) (metric : string) : R :=
  match Dict.get String.eqb metric (Tester.results st) with
  | Some v => v
  | None => 0%R
  end.

(** The entries that [measure_unfairness] reads for a metric, from
    dimension [k] on, are there. *)
Fixpoint dims_present (tables : list (Dict.t Z (Dict.t string R))) (metric : string)
         (k : nat) (dims : list (list Z)) : bool :=
  match dims with
  | [] => true
  | groups :: rest =>
      forallb (fun attr =>
                 match Tester.group_entry tables k attr metric with
                 | Some _ => true
                 | None => false
                 end) groups
      && dims_present tables metric (S k) rest
  end.

(** The [for attr in self.user_groups[k]] loops of [get_results_str_];
    [None] stands for the [KeyError] of a missing entry. *)
Fixpoint group_lines (tables : list (Dict.t Z (Dict.t string R))) (k : nat)
         (metric : string) (groups : list Z) : option (list line) :=
  match groups with
  | [] => Some []
  | attr :: rest =>
      match Tester.group_entry tables k attr metric,
            group_lines tables k metric rest with
      | Some v, Some ls => Some ((label metric (str_int attr), v) :: ls)
      | _, _ => None
      end
  end.

(** The [for metric in self.metrics] loop for dimension [k], whose name is
    [attr_name] and whose groups are [groups]. *)
Fixpoint metric_lines (st : Tester.tester) (attr_name : string) (k : nat)
         (groups : list Z) (metrics : list string) : option (list line) :=
  match metrics with
  | [] => Some []
  | metric :: rest =>
      match Dict.get String.eqb metric (Tester.results st),
            Dict.get String.eqb metric (Tester.binary_unfairness st) with
      | Some overall, Some per_dim =>
          let parity :=
            match Dict.get Nat.eqb k per_dim with
            | Some pd => [(label metric attr_name, pd)]
            | None => []
            end in
          match group_lines (Tester.results_user_attr st) k metric groups,
                metric_lines st attr_name k groups rest with
          | Some gl, Some ls =>
              Some ((label metric "overall", overall) :: parity ++ gl ++ ls)
          | _, _ => None
          end
      | _, _ => None
      end
  end.

(** The [for k in range(self.num_type_attr)] loop, from dimension [k] on;
    [self.num_type_attr] is the number of dimensions of [self.user_groups]. *)
Fixpoint dim_lines (st : Tester.tester) (attr_type : list string)
         (metrics : list string) (k : nat) (dims : list (list Z))
  : option (list line) :=
  match dims with
  | [] => Some []
  | groups :: rest =>
      match nth_error attr_type k with
      | None => None
      | Some name =>
          if String.eqb name "ages" || String.eqb name "occupations"
          then dim_lines st attr_type metrics (S k) rest
          else
            match metric_lines st name k groups metrics,
                  dim_lines st attr_type metrics (S k) rest with
            | Some a, Some b => Some (a ++ b)
            | _, _ => None
            end
      end
  end.

(** [get_results_str_]: the lines of the string it returns and the tester
    after [measure_unfairness]; [None] when a lookup raises. *)
Definition get_results_str_ (metrics : list string) (user_groups : list (list Z))
           (attr_type : list string) (st : Tester.tester)
  : option (list line * Tester.tester) :=
  if forallb (fun metric =>
                dims_present (Tester.results_user_attr st) metric 0 user_groups)
             metrics
  then
    let st' := Tester.measure_unfairness metrics user_groups st in
    match dim_lines st' attr_type metrics 0 user_groups with
    | Some lines => Some (lines, st')
    | None => None
    end
  else None.

End ResultsStr.

(** ** Tester: cold-start users *)

Module ColdStart.

(** [cold_start_user_set] and [not_cold_start_user_set] of
    [recommendation]; [list(set(a) - set(b))] is [set_difference a b []]. *)
Definition user_sets (snap_idx : nat)
           (train_user_set hist_train_user_set cur_train_user_set : list Z)
  : list Z * list Z :=
  if Nat.eqb snap_idx 0 then (train_user_set, train_user_set)
  else
    let cold_start_user_set :=
      Tester.set_difference train_user_set hist_train_user_set [] in
    (cold_start_user_set,
     Tester.set_difference cur_train_user_set cold_start_user_set []).

(** The loop [for i, v in cur_train_pos.items()] that fills
    [cold_start_train_pos] and [not_cold_start_train_pos]. *)
Fixpoint split_train_pos (items : list (Z * list Z))
         (cold_start_user_set not_cold_start_user_set : list Z)
         (cold_start_train_pos not_cold_start_train_pos : Dict.t Z (list Z))
  : Dict.t Z (list Z) * Dict.t Z (list Z) :=
  match items with
  | [] => (cold_start_train_pos, not_cold_start_train_pos)
  | (i, v) :: rest =>
      split_train_pos
        rest cold_start_user_set not_cold_start_user_set
        (if existsb (Z.eqb i) cold_start_user_set
         then Dict.set Z.eqb i v cold_start_train_pos
         else cold_start_train_pos)
        (if existsb (Z.eqb i) not_cold_start_user_set
         then Dict.set Z.eqb i v not_cold_start_train_pos
         else not_cold_start_train_pos)
  end.

(** [cold_start_train_pos] and [not_cold_start_train_pos], as
    [recommendation] builds them. *)
Definition train_pos_split (snap_idx : nat)
           (train_user_set hist_train_user_set cur_train_user_set : list Z)
           (cur_train_pos : Dict.t Z (list Z))
  : Dict.t Z (list Z) * Dict.t Z (list Z) :=
  let sets := user_sets snap_idx train_user_set hist_train_user_set
                        cur_train_user_set in
  split_train_pos cur_train_pos (fst sets) (snd sets) [] [].

End ColdStart.

(** ** Concrete inputs used in the examples *)

Module Examples.

(** A trainer whose predictions are finite. *)
Definition finite_step (m : nat) (x : Z) : nat * list spec_float :=
  (S m, [S754_finite false 1 0]).

(** A trainer whose predictions are [+inf]. *)
Definition inf_step (m : nat) (x : Z) : nat * list spec_float :=
  (S m, [S754_infinity false]).

(** A trainer whose prediction is NaN on example [bad]. *)
Definition nan_step (bad : Z) (m : nat) (x : Z) : nat * list spec_float :=
  (S m, if (x =? bad)%Z then [S754_zero false; S754_nan] else [S754_zero false]).

(** A stream of three examples, the same for every snapshot index. *)
Definition stream3 (_ : nat) : list Z := [10; 20; 30]%Z.

(** A small catalogue: five items; user 7 trained on items 1 and 2 and has
    item 3 as test positive, user 8 trained on item 4 and has items 1 and 5
    as test positives, user 9 trained on item 2 and has no test positive. *)
Definition items5 : list Z := [1; 2; 3; 4; 5]%Z.
Definition train_pos3 : Dict.t Z (list Z) :=
  [(7, [1; 2]); (8, [4]); (9, [2])]%Z.
Definition test_pos2 : Dict.t Z (list Z) := [(7, [3]); (8, [1; 5])]%Z.

(** A model that scores an item by its parity, so that scores tie. *)
Definition parity_scores (_ : Z) (candidate_items : list Z) : list score :=
  map (fun i => Num (inject_Z (i mod 2))) candidate_items.


(** An order for the lists that [sorted] rearranges in its own way: every
    item at rank 0, so that the list is left as it is. *)
Definition input_order (_ : list (Z * score)) (_ : Z) : nat := 0.

(** A generator that draws the first [k] items of the population. *)
Definition draw_first (_ : Z) (population : list Z) (k : nat) : list Z :=
  firstn k population.

(** Every user of the small catalogue is in group 0 except user 8. *)
Definition attr_of (user : Z) (_ : nat) : Z := if (user =? 8)%Z then 1%Z else 0%Z.

(** An attribute file for the small catalogue; user 8 has two rows. *)
Definition attr_rows : list (list Z) :=
  [[7; 0]; [8; 0; 3]; [9; 1]; [8; 1]; [5; 0]]%Z.

(** The parity differences of one call, for two test settings. *)
Definition pd_call : Dict.t string (Dict.t string R) :=
  [("current", [("recall", 1%R); ("f1", 0%R)]); ("next", [("recall", 0%R)])].

(** The attribute table of users 7, 8 and 9, and counters at 0 for the
    groups 0 and 1 of one dimension. *)
Definition attr_table : Dict.t Z (list Z) := [(7, [0]); (8, [1]); (9, [0])]%Z.
Definition info0 : list (Dict.t Z Z) := [[(0, 0); (1, 0)]%Z].

(** A catalogue in which user 0 is a training user: user 0 trained on item
    2 and has no test positive; the attribute file puts users 0 and 7 in
    group 0 and user 8 in group 1. *)
Definition train_pos0 : Dict.t Z (list Z) :=
  [(0, [2]); (7, [1; 2]); (8, [4])]%Z.
Definition attr_rows0 : list (list Z) := [[0; 0]; [7; 0]; [8; 1]]%Z.

End Examples.

(** * Properties *)

(** ** Dictionaries *)

Module DictFacts.
Section DictFacts.

Variables (K V : Type).
Variable eqb : K -> K -> bool.
Hypothesis eqb_spec : forall a b : K, eqb a b = true <-> a = b.

Lemma eqb_refl (a : K) : eqb a a = true.
Proof. now apply eqb_spec. Qed.

Lemma eqb_neq (a b : K) : a <> b -> eqb a b = false.
Proof.
  intros H. destruct (eqb a b) eqn:E; [|reflexivity].
  apply eqb_spec in E. contradiction.
Qed.

Lemma get_None (k : K) (d : Dict.t K V) :
  Dict.get eqb k d = None <-> ~ In k (Dict.keys d).
Proof.
  induction d as [|[k' v] d IH]; simpl.
  - tauto.
  - destruct (eqb k k') eqn:E.
    + apply eqb_spec in E. subst. split; [discriminate | tauto].
    + rewrite IH. split.
      * intros H [H'|H']; [|tauto]. subst. rewrite eqb_refl in E. discriminate.
      * tauto.
Qed.


Lemma keys_set (k : K) (v : V) (d : Dict.t K V) :
  Dict.keys (Dict.set eqb k v d)
  = if Dict.mem eqb k d then Dict.keys d else Dict.keys d ++ [k].
Proof.
  unfold Dict.mem. induction d as [|[k' v'] d IH]; simpl; [reflexivity|].
  destruct (eqb k k') eqn:E; simpl; [reflexivity|].
  rewrite IH. now destruct (Dict.get eqb k d).
Qed.

Lemma keys_adjust (k : K) (f : V -> V) (d : Dict.t K V) :
  Dict.keys (Dict.adjust eqb k f d) = Dict.keys d.
Proof.
  induction d as [|[k' v'] d IH]; simpl; [reflexivity|].
  destruct (eqb k k'); simpl; [reflexivity | now rewrite IH].
Qed.

Lemma get_set_same (k : K) (v : V) (d : Dict.t K V) :
  Dict.get eqb k (Dict.set eqb k v d) = Some v.
Proof.
  induction d as [|[k' v'] d IH]; simpl.
  - now rewrite eqb_refl.
  - destruct (eqb k k') eqn:E; simpl; rewrite E; [reflexivity | exact IH].
Qed.

Lemma get_set_other (k k0 : K) (v : V) (d : Dict.t K V) :
  k0 <> k -> Dict.get eqb k0 (Dict.set eqb k v d) = Dict.get eqb k0 d.
Proof.
  intros Hne. induction d as [|[k' v'] d IH]; simpl.
  - now rewrite eqb_neq.
  - destruct (eqb k k') eqn:E; simpl.
    + apply eqb_spec in E. subst k'. now rewrite eqb_neq.
    + now rewrite IH.
Qed.

Lemma get_adjust_same (k : K) (f : V -> V) (d : Dict.t K V) :
  Dict.get eqb k (Dict.adjust eqb k f d) = option_map f (Dict.get eqb k d).
Proof.
  induction d as [|[k' v'] d IH]; simpl; [reflexivity|].
  destruct (eqb k k') eqn:E; simpl; rewrite E; [reflexivity | exact IH].
Qed.

Lemma get_adjust_other (k k0 : K) (f : V -> V) (d : Dict.t K V) :
  k0 <> k -> Dict.get eqb k0 (Dict.adjust eqb k f d) = Dict.get eqb k0 d.
Proof.
  intros Hne. induction d as [|[k' v'] d IH]; simpl; [reflexivity|].
  destruct (eqb k k') eqn:E; simpl.
  - apply eqb_spec in E. subst k'. now rewrite eqb_neq.
  - now rewrite IH.
Qed.


End DictFacts.
End DictFacts.

(** ** [sorted(..., reverse=True)] is descending, stable and a permutation *)

Lemma StronglySorted_impl_list {A : Type} (R R' : A -> A -> Prop) (l : list A) :
  (forall x y, R x y -> R' x y) -> StronglySorted R l -> StronglySorted R' l.
Proof.
  intros H Hs. induction Hs; constructor; [assumption|].
  eapply Forall_impl; [|eassumption]. intros; now apply H.
Qed.

Section SortedReverseFacts.

Variable A : Type.
Variable lt : A -> A -> bool.
Hypothesis lt_asym : forall x y, lt x y = true -> lt y x = false.
Hypothesis lt_negtrans :
  forall x y z, lt x y = false -> lt y z = false -> lt x z = false.

Lemma insert_desc_perm (x : A) (l : list A) :
  Permutation (insert_desc lt x l) (x :: l).
Proof.
  induction l as [|y l IH]; simpl; [reflexivity|].
  destruct (lt x y); [|reflexivity].
  rewrite IH. apply perm_swap.
Qed.

Lemma sorted_reverse_perm (l : list A) : Permutation (sorted_reverse lt l) l.
Proof.
  induction l as [|x l IH]; simpl; [reflexivity|].
  rewrite insert_desc_perm. now constructor.
Qed.

Lemma precedes_cons (a x z : A) (l : list A) :
  precedes x z l -> precedes x z (a :: l).
Proof.
  intros (l1 & l2 & l3 & ->). now exists (a :: l1), l2, l3.
Qed.

Lemma precedes_head (x z : A) (l : list A) : In z l -> precedes x z (x :: l).
Proof.
  intros H. apply in_split in H. destruct H as (l2 & l3 & ->).
  now exists [], l2, l3.
Qed.

Lemma stable_desc_cons (a x z : A) (l : list A) :
  stable_desc lt l x z -> stable_desc lt (a :: l) x z.
Proof.
  intros (Hx & Hz & H). repeat split; try (now right).
  destruct H as [H|[H1 H2]]; [now left | right].
  split; [assumption | now apply precedes_cons].
Qed.

Lemma insert_desc_sorted (a : A) (l s : list A) :
  (forall z, In z s -> In z l) ->
  StronglySorted (stable_desc lt (a :: l)) s ->
  StronglySorted (stable_desc lt (a :: l)) (insert_desc lt a s).
Proof.
  intros Hin Hs. induction Hs as [|y r Hr IH Hy]; simpl.
  - repeat constructor.
  - destruct (lt a y) eqn:E.
    + constructor.
      * apply IH. intros z Hz. apply Hin. now right.
      * apply Forall_forall. intros z Hz.
        apply (Permutation_in _ (insert_desc_perm a r)) in Hz.
        destruct Hz as [<-|Hz].
        -- repeat split; [right; apply Hin; now left | now left | now left].
        -- rewrite Forall_forall in Hy. now apply Hy.
    + constructor; [now constructor|].
      apply Forall_forall. intros z Hz.
      assert (Hzl : In z l) by now apply Hin.
      repeat split; [now left | now right |].
      right. split; [|now apply precedes_head].
      destruct Hz as [<-|Hz]; [assumption|].
      rewrite Forall_forall in Hy. destruct (Hy z Hz) as (_ & _ & [H|[H _]]).
      * apply lt_asym in H. now apply lt_negtrans with y.
      * now apply lt_negtrans with y.
Qed.

(** The output of the sort is strongly sorted for [stable_desc]. *)
Lemma sorted_reverse_sorted (l : list A) :
  StronglySorted (stable_desc lt l) (sorted_reverse lt l).
Proof.
  induction l as [|a l IH]; simpl; [constructor|].
  apply insert_desc_sorted.
  - intros z Hz. now apply (Permutation_in _ (sorted_reverse_perm l)).
  - eapply StronglySorted_impl_list; [|exact IH]. intros x z. apply stable_desc_cons.
Qed.

End SortedReverseFacts.

(** The same for a comparison that orders the entries of the list only. *)
Section SortedReverseOn.

Variable A : Type.
Variable lt : A -> A -> bool.
Variable P : A -> Prop.
Hypothesis lt_asym : forall x y, lt x y = true -> lt y x = false.
Hypothesis lt_negtrans :
  forall x y z, P x -> P y -> P z ->
                lt x y = false -> lt y z = false -> lt x z = false.



End SortedReverseOn.

Lemma In_firstn {A : Type} (x : A) (n : nat) (l : list A) :
  In x (firstn n l) -> In x l.
Proof.
  revert n. induction l as [|y l IH]; intros [|n]; simpl; try tauto.
  intros [H|H]; [now left | right; eauto].
Qed.





(** ** Recommendation lists *)

Module TesterFacts.
Import Tester.

Lemma Z_eqb_spec' (a b : Z) : (a =? b)%Z = true <-> a = b.
Proof. apply Z.eqb_eq. Qed.

Lemma existsb_Zeqb (x : Z) (l : list Z) :
  existsb (Z.eqb x) l = true <-> In x l.
Proof.
  rewrite existsb_exists. split.
  - intros (y & Hy & E). apply Z.eqb_eq in E. now subst.
  - intros H. exists x. split; [assumption | apply Z.eqb_refl].
Qed.

Lemma set_difference_spec (a b c : list Z) :
  NoDup (set_difference a b c)
  /\ forall x, In x (set_difference a b c) <-> In x a /\ ~ In x b /\ ~ In x c.
Proof.
  unfold set_difference. split.
  - apply NoDup_filter, NoDup_nodup.
  - intros x. rewrite filter_In, nodup_In, andb_true_iff, !negb_true_iff.
    rewrite <- !not_true_iff_false, !existsb_Zeqb. tauto.
Qed.



Lemma Qltb_true (x y : Q) : Qltb x y = true -> (x < y)%Q.
Proof.
  unfold Qltb. rewrite negb_true_iff. intros H. apply Qnot_le_lt.
  intros Hle. apply Qle_bool_iff in Hle. congruence.
Qed.


Lemma mem_keys {V : Type} (k : Z) (d : Dict.t Z V) :
  Dict.mem Z.eqb k d = existsb (Z.eqb k) (Dict.keys d).
Proof.
  unfold Dict.mem. induction d as [|[k' v] d IH]; simpl; [reflexivity|].
  destruct (k =? k')%Z; [reflexivity | exact IH].
Qed.

Lemma map_fst_combine {A B : Type} (l : list A) (l' : list B) :
  map fst (combine l l') = firstn (List.length l') l.
Proof.
  revert l'. induction l as [|x l IH]; intros [|y l']; simpl;
    try reflexivity.
  now rewrite IH.
Qed.

Section GenerateFacts.

Variable K : Z.
Variable num_neg_samples : Z.
Variable get_relevances : Z -> list Z -> list score.
Variable nan_order : list (Z * score) -> Z -> nat.
Variable sample_draw : Z -> list Z -> nat -> list Z.
Variable train_item_set : list Z.
Variable train_pos : Dict.t Z (list Z).
Variable test_pos : Dict.t Z (list Z).

(** The keys of the dict that the zip loop fills are the items walked, in
    the order of their first occurrence. *)
Lemma fill_relevances_keys (pairs : list (Z * score)) :
  forall (d : Dict.t Z score) (cnt : nat),
    Dict.keys (fst (fill_relevances train_item_set pairs d cnt))
    = Dict.keys d ++ first_occurrences (Dict.keys d) (map fst pairs).
Proof.
  induction pairs as [|[item q] pairs IH]; intros d cnt; simpl.
  - now rewrite app_nil_r.
  - assert (Hk : Dict.keys
                   (fst (fill_relevances train_item_set pairs
                           (Dict.set Z.eqb item q d)
                           (if existsb (Z.eqb item) train_item_set
                            then cnt else S cnt)))
                 = Dict.keys d
                     ++ (if existsb (Z.eqb item) (Dict.keys d)
                         then first_occurrences (Dict.keys d) (map fst pairs)
                         else item :: first_occurrences (Dict.keys d ++ [item])
                                        (map fst pairs))).
    { rewrite IH, (DictFacts.keys_set Z score Z.eqb), mem_keys.
      destruct (existsb (Z.eqb item) (Dict.keys d)); [reflexivity|].
      now rewrite <- app_assoc. }
    destruct (existsb (Z.eqb item) train_item_set); exact Hk.
Qed.








Lemma sorted_relevances_perm (relevances : Dict.t Z score) :
  Permutation (map fst (sorted_relevances nan_order relevances))
              (Dict.keys relevances).
Proof.
  unfold Dict.keys. apply Permutation_map. unfold sorted_relevances.
  destruct (negb (has_nan relevances)); [apply sorted_reverse_perm|].
  destruct (descending_run relevances); [reflexivity | apply sorted_reverse_perm].
Qed.


(** C7. When the requested number of negatives exceeds the number of
    eligible items (the items of the training item set, each once, that are
    in neither the train positives nor the test positives of the user), the
    generator prints the four counts and raises [ValueError]: no list is
    returned. *)
Theorem oversized_sample_request_fails
        (user : Z) (user_train user_test : list Z) :
  Dict.get Z.eqb user train_pos = Some user_train ->
  Dict.get Z.eqb user test_pos = Some user_test ->
  let eligible := set_difference train_item_set user_train user_test in
  (Z.of_nat (List.length eligible) < num_neg_samples)%Z ->
  (NoDup eligible
   /\ forall x, In x eligible
                <-> In x train_item_set /\ ~ In x user_train /\ ~ In x user_test)
  /\ generate_recommendation_list_for_a_user
       K num_neg_samples get_relevances nan_order sample_draw train_item_set
       train_pos test_pos user
     = ([List.length eligible; List.length train_item_set;
         List.length user_train; List.length user_test],
        Err (ValueError "Sample larger than population or is negative")).
Proof.
  intros Htrain Htest eligible Hbig.
  split; [apply set_difference_spec|].
  unfold generate_recommendation_list_for_a_user, lookup.
  rewrite Htrain, Htest. fold eligible.
  unfold negative_samples, random_sample, diagnostics.
  destruct (Z.eqb_spec num_neg_samples (-1)); [lia|].
  destruct (Z.gtb_spec num_neg_samples (Z.of_nat (List.length eligible))); [|lia].
  destruct (Z.leb_spec num_neg_samples (Z.of_nat (List.length eligible))); [lia|].
  now rewrite andb_false_r.
Qed.


End GenerateFacts.

(** Witness: the hypotheses hold for user 7 of the
    small catalogue, with two eligible items and a request of 100. *)
Lemma oversized_sample_request_fails_witness :
  let eligible := set_difference Examples.items5 [1; 2]%Z [3]%Z in
  (NoDup eligible
   /\ forall x, In x eligible
                <-> In x Examples.items5 /\ ~ In x [1; 2]%Z /\ ~ In x [3]%Z)
  /\ generate_recommendation_list_for_a_user
       20 100 Examples.parity_scores Examples.input_order Examples.draw_first Examples.items5
       Examples.train_pos3 Examples.test_pos2 7
     = ([List.length eligible; List.length Examples.items5;
         List.length [1; 2]%Z; List.length [3]%Z],
        Err (ValueError "Sample larger than population or is negative")).
Proof.
  apply (oversized_sample_request_fails
           20 100 Examples.parity_scores Examples.input_order Examples.draw_first Examples.items5
           Examples.train_pos3 Examples.test_pos2 7 [1; 2]%Z [3]%Z).
  - reflexivity.
  - reflexivity.
  - simpl. lia.
Defined.




End TesterFacts.

(** ** The evaluation pass *)

Module EvaluationFacts.
Import Tester.

#[local] Arguments INR : simpl never.

Lemma String_eqb_spec' (a b : string) : String.eqb a b = true <-> a = b.
Proof. apply String.eqb_eq. Qed.

Lemma Nat_eqb_spec' (a b : nat) : Nat.eqb a b = true <-> a = b.
Proof. apply Nat.eqb_eq. Qed.

Lemma measure_ndcg_ok (rec_list test_pos : list Z) (method : Z) :
  method = 1%Z \/ method = 2%Z ->
  exists v : R, Metrics.measure_ndcg rec_list test_pos method = Ok v.
Proof.
  unfold Metrics.measure_ndcg. intros [-> | ->]; cbn [Z.eqb Pos.eqb].
  - destruct (Req_dec_T _ _); eauto.
  - eauto.
Qed.

Lemma measure_mrr_ok (rec_list test_pos : list Z) (method : Z) :
  method = 0%Z \/ method = 1%Z ->
  exists v : R, Metrics.measure_mrr rec_list test_pos method = Ok v.
Proof.
  unfold Metrics.measure_mrr. intros [-> | ->]; cbn [Z.eqb Pos.eqb].
  - eauto.
  - destruct (Nat.eqb _ _); eauto.
Qed.

Lemma measure_average_precision_ok (rec_list test_pos : list Z) (method : Z) :
  method = 0%Z \/ method = 1%Z \/ method = 2%Z ->
  exists v : R, Metrics.measure_average_precision rec_list test_pos method = Ok v.
Proof.
  unfold Metrics.measure_average_precision.
  destruct (Metrics.precisions_at_hits rec_list test_pos); [eauto|].
  intros [-> | [-> | ->]]; cbn [Z.eqb Pos.eqb]; eauto.
Qed.

(** A supported metric has a value on every list. *)
Lemma supported_ok (metric : string) (rec_list test_pos : list Z) :
  Metrics.supported metric = true ->
  exists v : R, Metrics.metric_value metric rec_list test_pos = Ok v.
Proof.
  unfold Metrics.supported, Metrics.supported_metrics, Metrics.metric_value.
  cbn [existsb]. intros H.
  repeat match goal with
         | |- context [if String.eqb metric ?s then _ else _] =>
             destruct (String.eqb metric s);
               [first [ eexists; reflexivity
                      | apply measure_ndcg_ok; tauto
                      | apply measure_mrr_ok; tauto
                      | apply measure_average_precision_ok; tauto ]|]
         end.
  discriminate.
Qed.

(** An unsupported metric raises [ValueError] on every list. *)
Lemma unsupported_err (metric : string) (rec_list test_pos : list Z) :
  Metrics.supported metric = false ->
  Metrics.metric_value metric rec_list test_pos
  = Err (ValueError (Metrics.undefined_metric metric)).
Proof.
  unfold Metrics.supported, Metrics.supported_metrics, Metrics.metric_value.
  cbn [existsb]. intros H.
  repeat match goal with
         | |- context [if String.eqb metric ?s then _ else _] =>
             destruct (String.eqb metric s); [discriminate|]
         end.
  reflexivity.
Qed.

(** The total of a metric after a run of [+=] over a list of metric names:
    one addition per occurrence of the name. *)
Lemma get_fold_adjust (val : string -> R) (m : string) (ms : list string) :
  forall d : Dict.t string R,
    Dict.get String.eqb m
      (fold_left (fun d' m' => Dict.adjust String.eqb m' (fun t => (t + val m')%R) d')
                 ms d)
    = option_map (fun t => (t + INR (count_occ string_dec ms m) * val m)%R)
                 (Dict.get String.eqb m d).
Proof.
  induction ms as [|m' ms IH]; intros d; cbn [fold_left].
  - destruct (Dict.get String.eqb m d); simpl; [|reflexivity].
    change (INR 0) with 0%R. f_equal. ring.
  - rewrite IH. destruct (string_dec m' m) as [->|Hne].
    + rewrite count_occ_cons_eq by reflexivity.
      rewrite (DictFacts.get_adjust_same string R String.eqb).
      destruct (Dict.get String.eqb m d); simpl; [|reflexivity].
      f_equal. rewrite S_INR. ring.
    + rewrite count_occ_cons_neq by assumption.
      rewrite (DictFacts.get_adjust_other string R String.eqb String_eqb_spec')
        by congruence.
      reflexivity.
Qed.

Lemma set_not_nil {Kt V : Type} (eqb : Kt -> Kt -> bool) (k : Kt) (v : V)
      (d : Dict.t Kt V) :
  Dict.set eqb k v d <> [].
Proof. destruct d as [|[k' v'] d]; simpl; [|destruct (eqb k k')]; discriminate. Qed.

Lemma fold_set_not_nil (c : R) (ms : list string) :
  forall d : Dict.t string R,
    d <> [] \/ ms <> [] ->
    fold_left (fun d' m => Dict.set String.eqb m c d') ms d <> [].
Proof.
  induction ms as [|m ms IH]; intros d H; simpl.
  - destruct H; congruence.
  - apply IH. left. apply set_not_nil.
Qed.

(** After a loop of [d[m] = g(m)] over a list of names, every name of the
    list holds its value. *)
Lemma get_fold_set {V : Type} (g : string -> V) (m : string) (ms : list string) :
  forall d : Dict.t string V,
    In m ms \/ Dict.get String.eqb m d = Some (g m) ->
    Dict.get String.eqb m
      (fold_left (fun d' m' => Dict.set String.eqb m' (g m') d') ms d)
    = Some (g m).
Proof.
  induction ms as [|m' ms IH]; intros d H; simpl.
  - destruct H as [[]|H]. exact H.
  - apply IH. destruct (string_dec m' m) as [->|Hne].
    + right. apply (DictFacts.get_set_same string V String.eqb String_eqb_spec').
    + destruct H as [[H|H]|H]; [congruence | now left | right].
      rewrite (DictFacts.get_set_other string V String.eqb String_eqb_spec')
        by congruence.
      exact H.
Qed.

Lemma average_items_ok (n : nat) (items : Dict.t string R) :
  n <> 0 \/ items = [] ->
  Tester.average_items n items
  = Ok (map (fun item => (fst item, (snd item / INR n)%R)) items).
Proof.
  intros H. induction items as [|[m v] items IH]; simpl; [reflexivity|].
  destruct H as [H|H]; [|discriminate].
  unfold py_div. destruct (Nat.eqb_spec n 0); [contradiction|].
  rewrite IH by now left. reflexivity.
Qed.

Lemma get_map_div (n : nat) (m : string) (items : Dict.t string R) :
  Dict.get String.eqb m (map (fun item => (fst item, (snd item / INR n)%R)) items)
  = option_map (fun v => (v / INR n)%R) (Dict.get String.eqb m items).
Proof.
  induction items as [|[m' v] items IH]; simpl; [reflexivity|].
  destruct (String.eqb m m'); [reflexivity | exact IH].
Qed.

(** *** Group tables *)

Lemma fold_left_ext {A B : Type} (f g : A -> B -> A) (l : list B) :
  (forall a b, f a b = g a b) ->
  forall a : A, fold_left f l a = fold_left g l a.
Proof.
  intros H. induction l as [|b l IH]; intros a; simpl; [reflexivity|].
  now rewrite H, IH.
Qed.

Lemma adjust_ext {Kt V : Type} (eqb : Kt -> Kt -> bool) (k : Kt) (f g : V -> V)
      (d : Dict.t Kt V) :
  (forall v, f v = g v) -> Dict.adjust eqb k f d = Dict.adjust eqb k g d.
Proof.
  intros H. induction d as [|[k' v] d IH]; simpl; [reflexivity|].
  destruct (eqb k k'); [now rewrite H | now rewrite IH].
Qed.

Lemma nth_per_dim {A : Type} (f : nat -> list Z -> A -> A) (d : A)
      (user_groups : list (list Z)) :
  forall (s : nat) (tables : list A) (k : nat),
    k < List.length user_groups ->
    k < List.length tables ->
    nth k (per_dim f s user_groups tables) d
    = f (s + k) (nth k user_groups []) (nth k tables d).
Proof.
  induction user_groups as [|g gs IH]; intros s [|t ts] k Hg Ht; simpl in *;
    try lia.
  destruct k as [|k].
  - now rewrite Nat.add_0_r.
  - rewrite IH by lia. f_equal. lia.
Qed.

(** The entry of one table. *)
Lemma entry_adjust_same (attr : Z) (metric : string) (f : R -> R)
      (tb : Dict.t Z (Dict.t string R)) :
  match Dict.get Z.eqb attr
          (Dict.adjust Z.eqb attr (Dict.adjust String.eqb metric f) tb) with
  | Some totals => Dict.get String.eqb metric totals
  | None => None
  end
  = option_map f match Dict.get Z.eqb attr tb with
                 | Some totals => Dict.get String.eqb metric totals
                 | None => None
                 end.
Proof.
  rewrite (DictFacts.get_adjust_same Z _ Z.eqb).
  destruct (Dict.get Z.eqb attr tb); simpl; [|reflexivity].
  apply (DictFacts.get_adjust_same string R String.eqb).
Qed.

Lemma entry_adjust_other (attr attr' : Z) (metric metric' : string) (f : R -> R)
      (tb : Dict.t Z (Dict.t string R)) :
  attr' <> attr \/ metric' <> metric ->
  match Dict.get Z.eqb attr
          (Dict.adjust Z.eqb attr' (Dict.adjust String.eqb metric' f) tb) with
  | Some totals => Dict.get String.eqb metric totals
  | None => None
  end
  = match Dict.get Z.eqb attr tb with
    | Some totals => Dict.get String.eqb metric totals
    | None => None
    end.
Proof.
  intros H. destruct (Z.eq_dec attr' attr) as [->|Hne].
  - rewrite (DictFacts.get_adjust_same Z _ Z.eqb).
    destruct (Dict.get Z.eqb attr tb); simpl; [|reflexivity].
    apply (DictFacts.get_adjust_other string R String.eqb String_eqb_spec').
    destruct H; congruence.
  - now rewrite (DictFacts.get_adjust_other Z _ Z.eqb TesterFacts.Z_eqb_spec')
      by congruence.
Qed.

(** The loops of [average_user_attr] on one table: the entry of [attr] and
    [metric] is rewritten once per occurrence of [attr] in the groups and of
    [metric] in the metric list. *)
Lemma average_table_entry (f : Z -> R -> R) (attr : Z) (metric : string)
      (metrics : list string) (groups : list Z) :
  forall tb : Dict.t Z (Dict.t string R),
    match Dict.get Z.eqb attr
            (fold_left
               (fun tb1 a =>
                  fold_left
                    (fun tb2 m =>
                       Dict.adjust Z.eqb a (Dict.adjust String.eqb m (f a)) tb2)
                    metrics tb1)
               groups tb) with
    | Some totals => Dict.get String.eqb metric totals
    | None => None
    end
    = option_map
        (Nat.iter (count_occ Z.eq_dec groups attr * count_occ string_dec metrics metric)
                  (f attr))
        match Dict.get Z.eqb attr tb with
        | Some totals => Dict.get String.eqb metric totals
        | None => None
        end.
Proof.
  assert (Hinner :
            forall (a : Z) (ms : list string) (tb : Dict.t Z (Dict.t string R)),
              match Dict.get Z.eqb attr
                      (fold_left
                         (fun tb2 m =>
                            Dict.adjust Z.eqb a (Dict.adjust String.eqb m (f a)) tb2)
                         ms tb) with
              | Some totals => Dict.get String.eqb metric totals
              | None => None
              end
              = option_map
                  (Nat.iter (if Z.eq_dec a attr
                             then count_occ string_dec ms metric else 0)
                            (f attr))
                  match Dict.get Z.eqb attr tb with
                  | Some totals => Dict.get String.eqb metric totals
                  | None => None
                  end).
  { intros a ms. induction ms as [|m ms IH]; intros tb; cbn [fold_left].
    - destruct (Z.eq_dec a attr); simpl; now destruct (Dict.get Z.eqb attr tb) as [t|];
        [destruct (Dict.get String.eqb metric t)|].
    - rewrite IH. destruct (Z.eq_dec a attr) as [->|Ha].
      + destruct (string_dec m metric) as [->|Hm].
        * rewrite count_occ_cons_eq by reflexivity. rewrite entry_adjust_same.
          destruct (Dict.get Z.eqb attr tb) as [t|]; [|reflexivity].
          destruct (Dict.get String.eqb metric t); [|reflexivity].
          cbn [option_map]. now rewrite Nat.iter_succ_r.
        * rewrite count_occ_cons_neq by assumption.
          now rewrite entry_adjust_other by (right; assumption).
      + now rewrite entry_adjust_other by (left; assumption). }
  induction groups as [|a groups IH]; intros tb; cbn [fold_left].
  - simpl. destruct (Dict.get Z.eqb attr tb) as [t|]; [|reflexivity].
    now destruct (Dict.get String.eqb metric t).
  - rewrite IH, Hinner. destruct (Z.eq_dec a attr) as [->|Ha].
    + rewrite count_occ_cons_eq by reflexivity.
      destruct (Dict.get Z.eqb attr tb) as [t|]; [|reflexivity].
      destruct (Dict.get String.eqb metric t); [|reflexivity].
      cbn [option_map]. f_equal.
      rewrite <- Nat.iter_add. f_equal. lia.
    + rewrite count_occ_cons_neq by assumption.
      destruct (Dict.get Z.eqb attr tb) as [t|]; [|reflexivity].
      now destruct (Dict.get String.eqb metric t).
Qed.

Lemma average_user_attr_entry (metrics : list string) (user_groups : list (list Z))
      (st : tester) (k : nat) (attr : Z) (metric : string) :
  k < List.length user_groups ->
  k < List.length (results_user_attr st) ->
  group_entry (results_user_attr (average_user_attr metrics user_groups st))
              k attr metric
  = option_map
      (Nat.iter (count_occ Z.eq_dec (nth k user_groups []) attr
                 * count_occ string_dec metrics metric)
                (average_of (group_count (num_users_per_group st) k attr)))
      (group_entry (results_user_attr st) k attr metric).
Proof.
  intros Hk Hk'. unfold group_entry. cbn [average_user_attr results_user_attr].
  rewrite nth_per_dim by assumption. cbn [Nat.add].
  rewrite <- (average_table_entry
                (fun a => average_of (group_count (num_users_per_group st) k a))).
  match goal with
  | |- match Dict.get _ _ ?X with _ => _ end
       = match Dict.get _ _ ?Y with _ => _ end =>
      replace X with Y; [reflexivity|]
  end.
  apply fold_left_ext. intros tb a.
  apply fold_left_ext. intros tb' m.
  unfold average_of.
  destruct (Nat.eqb (group_count (num_users_per_group st) k a) 0);
    apply adjust_ext; intros totals; apply adjust_ext; reflexivity.
Qed.


(** *** Parity difference *)

(** The loop of [measure_unfairness] from dimension [s] on leaves the keys
    below [s] alone. *)
Lemma unfairness_below (tables : list (Dict.t Z (Dict.t string R)))
      (metric : string) (k : nat) (dims : list (list Z)) :
  forall (s : nat) (acc : Dict.t nat R),
    k < s ->
    Dict.get Nat.eqb k (unfairness_of_metric tables metric s dims acc)
    = Dict.get Nat.eqb k acc.
Proof.
  induction dims as [|groups dims IH]; intros s acc Hk; cbn [unfairness_of_metric].
  - reflexivity.
  - rewrite IH by lia.
    destruct (map (fun attr => group_value tables s attr metric) groups)
      as [|v0 [|v1 [|v2 vs]]]; try reflexivity.
    apply (DictFacts.get_set_other nat R Nat.eqb Nat_eqb_spec'). lia.
Qed.

(** The dimensions before [k] leave the key [k] alone. *)
Lemma unfairness_above (tables : list (Dict.t Z (Dict.t string R)))
      (metric : string) (k : nat) (dims : list (list Z)) :
  forall (s : nat) (acc : Dict.t nat R),
    s + List.length dims <= k ->
    Dict.get Nat.eqb k (unfairness_of_metric tables metric s dims acc)
    = Dict.get Nat.eqb k acc.
Proof.
  induction dims as [|groups dims IH]; intros s acc Hk; cbn [unfairness_of_metric].
  - reflexivity.
  - simpl in Hk. rewrite IH by lia.
    destruct (map (fun attr => group_value tables s attr metric) groups)
      as [|v0 [|v1 [|v2 vs]]]; try reflexivity.
    apply (DictFacts.get_set_other nat R Nat.eqb Nat_eqb_spec'). lia.
Qed.

Lemma unfairness_app (tables : list (Dict.t Z (Dict.t string R)))
      (metric : string) (pre dims : list (list Z)) :
  forall (s : nat) (acc : Dict.t nat R),
    unfairness_of_metric tables metric s (pre ++ dims) acc
    = unfairness_of_metric tables metric (s + List.length pre) dims
        (unfairness_of_metric tables metric s pre acc).
Proof.
  induction pre as [|groups pre IH]; intros s acc; cbn [app unfairness_of_metric].
  - now rewrite Nat.add_0_r.
  - rewrite IH. cbn [List.length]. now rewrite Nat.add_succ_r.
Qed.

(** What [measure_unfairness] stores for a metric of the list and the
    dimension that follows [pre]. *)
Lemma reported_parity_spec (metrics : list string)
      (pre : list (list Z)) (groups : list Z) (post : list (list Z))
      (st : tester) (metric : string) :
  In metric metrics ->
  reported_parity (measure_unfairness metrics (pre ++ groups :: post) st)
                  metric (List.length pre)
  = match map (fun attr => group_value (results_user_attr st) (List.length pre)
                                       attr metric) groups with
    | [v0; v1] => Some (v0 - v1)%R
    | _ => None
    end.
Proof.
  intros Hin. unfold reported_parity. cbn [measure_unfairness binary_unfairness].
  rewrite (get_fold_set
             (fun m => unfairness_of_metric (results_user_attr st) m 0
                                            (pre ++ groups :: post) [])
             metric metrics []) by now left.
  rewrite unfairness_app. cbn [Nat.add unfairness_of_metric].
  rewrite unfairness_below by lia.
  destruct (map (fun attr => group_value (results_user_attr st) (List.length pre)
                                         attr metric) groups)
    as [|v0 [|v1 [|v2 vs]]];
    try (now rewrite unfairness_above by lia).
  apply (DictFacts.get_set_same nat R Nat.eqb Nat_eqb_spec').
Qed.

(** The value of a group after [average_user_attr], for a group and a metric
    listed once: the total divided by the user count of the group, 0 for a
    group without users. *)
Lemma group_value_averaged (metrics : list string) (user_groups : list (list Z))
      (st : tester) (k : nat) (attr : Z) (metric : string) (total : R) :
  k < List.length user_groups ->
  k < List.length (results_user_attr st) ->
  count_occ Z.eq_dec (nth k user_groups []) attr = 1 ->
  count_occ string_dec metrics metric = 1 ->
  group_entry (results_user_attr st) k attr metric = Some total ->
  group_value (results_user_attr (average_user_attr metrics user_groups st))
              k attr metric
  = average_of (group_count (num_users_per_group st) k attr) total.
Proof.
  intros Hk Hk' Hattr Hmetric Hentry. unfold group_value.
  rewrite average_user_attr_entry by assumption.
  rewrite Hattr, Hmetric, Hentry. reflexivity.
Qed.

Section PassFacts.

Variable metrics : list string.
Variable user_groups : list (list Z).
Variable K : Z.
Variable num_neg_samples : Z.
Variable user_attr : Z -> nat -> Z.
Variable get_relevances : Z -> list Z -> list score.
Variable nan_order : list (Z * score) -> Z -> nat.
Variable sample_draw : Z -> list Z -> nat -> list Z.
Variable train_item_set : list Z.
Variable train_pos : Dict.t Z (list Z).
Variable test_pos : Dict.t Z (list Z).

#[local] Set Warnings "-notation-for-abbreviation".
Local Notation generate :=
  (generate_recommendation_list_for_a_user
     K num_neg_samples get_relevances nan_order sample_draw train_item_set train_pos test_pos).
Local Notation value :=
  (user_value K num_neg_samples get_relevances nan_order sample_draw train_item_set
              train_pos test_pos).
Local Notation total :=
  (total_value K num_neg_samples get_relevances nan_order sample_draw train_item_set
               train_pos test_pos).
Local Notation loop :=
  (user_loop metrics user_groups K num_neg_samples user_attr get_relevances nan_order
             sample_draw train_item_set train_pos test_pos).
Local Notation pass :=
  (evaluation_pass metrics user_groups K num_neg_samples user_attr get_relevances nan_order
                   sample_draw train_item_set train_pos test_pos).

(** The metric loop on supported metrics ends normally; every metric name
    adds its value to its total, and the first one counts the user. *)
Lemma measure_metrics_supported
      (user : Z) (rec_list user_test : list Z) (ms : list string) :
  Dict.get Z.eqb user test_pos = Some user_test ->
  forallb Metrics.supported ms = true ->
  forall (flag : nat) (st : tester),
  exists st' : tester,
    measure_metrics user_groups user_attr test_pos user rec_list ms flag st
    = (Ok tt, st')
    /\ results st'
       = fold_left
           (fun d m =>
              Dict.adjust String.eqb m
                (fun t => (t + Metrics.value_of
                                 (Metrics.metric_value m rec_list user_test))%R) d)
           ms (results st)
    /\ num_test_users st'
       = num_test_users st
         + match ms with
           | [] => 0
           | _ :: _ => if Nat.eqb flag 0 then 1 else 0
           end.
Proof.
  intros Hget. induction ms as [|m ms IH]; intros Hs flag st.
  - exists st. repeat split. simpl. lia.
  - cbn [forallb] in Hs. apply andb_true_iff in Hs. destruct Hs as [Hm Hs].
    destruct (supported_ok m rec_list user_test Hm) as [v Hv].
    cbn [measure_metrics]. rewrite Hget.
    unfold bind at 1. unfold lift. rewrite Hv.
    unfold bind at 1. unfold modify.
    destruct (IH Hs (S flag) (accumulate user_groups user_attr user m v flag st))
      as (st' & Hrun & Hres & Hnum).
    exists st'. split; [exact Hrun|]. split.
    + rewrite Hres. cbn [fold_left accumulate results]. rewrite Hv. reflexivity.
    + rewrite Hnum. cbn [accumulate num_test_users].
      destruct ms; destruct (Nat.eqb flag 0); simpl; lia.
Qed.

Lemma eligible_users_cons (user : Z) (users : list Z) :
  eligible_users test_pos (user :: users)
  = if Dict.mem Z.eqb user test_pos
    then user :: eligible_users test_pos users
    else eligible_users test_pos users.
Proof. reflexivity. Qed.

(** The user loop on supported metrics, when every list can be generated:
    the user count grows by the number of eligible users, and the total of a
    metric by its values on them, once per occurrence of its name. *)
Lemma user_loop_totals (users : list Z) :
  forallb Metrics.supported metrics = true ->
  forallb (fun user => is_ok (snd (generate user)))
          (eligible_users test_pos users) = true ->
  forall st : tester,
  exists st' : tester,
    loop users st = (Ok tt, st')
    /\ num_test_users st'
       = num_test_users st
         + match metrics with
           | [] => 0
           | _ :: _ => List.length (eligible_users test_pos users)
           end
    /\ forall m : string,
        Dict.get String.eqb m (results st')
        = option_map
            (fun t => (t + INR (count_occ string_dec metrics m)
                           * total m (eligible_users test_pos users))%R)
            (Dict.get String.eqb m (results st)).
Proof.
  intros Hs. induction users as [|user users IH]; intros Hgen st.
  - exists st. split; [reflexivity|]. split; [destruct metrics; simpl; lia|].
    intros m. unfold total_value. simpl.
    destruct (Dict.get String.eqb m (results st)); simpl; [f_equal; ring | reflexivity].
  - rewrite eligible_users_cons in *. cbn [user_loop].
    destruct (Dict.mem Z.eqb user test_pos) eqn:Hmem.
    + cbn [forallb] in Hgen. apply andb_true_iff in Hgen.
      destruct Hgen as [Hok Hgen].
      unfold Dict.mem in Hmem.
      destruct (Dict.get Z.eqb user test_pos) as [user_test|] eqn:Hget;
        [|discriminate].
      destruct (snd (generate user)) as [[rec_list cnt]|e] eqn:Hg; [|discriminate].
      destruct (measure_metrics_supported user rec_list user_test metrics
                  Hget Hs 0 st) as (st1 & Hrun1 & Hres1 & Hnum1).
      destruct (IH Hgen st1) as (st' & Hrun & Hnum & Hres).
      exists st'. split; [|split].
      * unfold bind at 1. unfold bind at 1. unfold lift.
        unfold measure_performance_for_a_user. cbn [fst].
        rewrite Hrun1. exact Hrun.
      * rewrite Hnum, Hnum1. destruct metrics; simpl; lia.
      * intros m. rewrite Hres, Hres1, get_fold_adjust.
        unfold total_value. cbn [map Metrics.sum_R fold_right].
        unfold user_value at 2. rewrite Hget, Hg.
        destruct (Dict.get String.eqb m (results st)); simpl; [|reflexivity].
        unfold Metrics.sum_R. f_equal. ring.
    + destruct (IH Hgen st) as (st' & Hrun & Hnum & Hres).
      exists st'. split; [|split; assumption].
      unfold bind at 1. unfold ret. exact Hrun.
Qed.

(** Users without test positives leave the tester untouched. *)
Lemma user_loop_skip (skipped users : list Z) (st : tester) :
  eligible_users test_pos skipped = [] ->
  loop (skipped ++ users) st = loop users st.
Proof.
  induction skipped as [|u skipped IH]; intros H; [reflexivity|].
  rewrite eligible_users_cons in H. simpl.
  destruct (Dict.mem Z.eqb u test_pos); [discriminate|].
  unfold bind at 1. unfold ret. now apply IH.
Qed.

(** The metric loop stops at the first unsupported name, with the metrics
    listed before it already added. *)
Lemma measure_metrics_unsupported
      (user : Z) (rec_list user_test : list Z) (good : list string)
      (bad : string) (rest : list string) :
  Dict.get Z.eqb user test_pos = Some user_test ->
  forallb Metrics.supported good = true ->
  Metrics.supported bad = false ->
  forall (flag : nat) (st : tester),
  exists st' : tester,
    measure_metrics user_groups user_attr test_pos user rec_list
                    (good ++ bad :: rest) flag st
    = (Err (ValueError (Metrics.undefined_metric bad)), st')
    /\ results st'
       = fold_left
           (fun d m =>
              Dict.adjust String.eqb m
                (fun t => (t + Metrics.value_of
                                 (Metrics.metric_value m rec_list user_test))%R) d)
           good (results st)
    /\ num_test_users st'
       = num_test_users st
         + match good with
           | [] => 0
           | _ :: _ => if Nat.eqb flag 0 then 1 else 0
           end.
Proof.
  intros Hget Hgood Hbad. induction good as [|m good IH]; intros flag st.
  - exists st. simpl. rewrite Hget. unfold bind, lift.
    rewrite (unsupported_err bad rec_list user_test Hbad).
    repeat split. lia.
  - cbn [forallb] in Hgood. apply andb_true_iff in Hgood.
    destruct Hgood as [Hm Hgood].
    destruct (supported_ok m rec_list user_test Hm) as [v Hv].
    cbn [app measure_metrics]. rewrite Hget.
    unfold bind at 1. unfold lift. rewrite Hv.
    unfold bind at 1. unfold modify.
    destruct (IH Hgood (S flag) (accumulate user_groups user_attr user m v flag st))
      as (st' & Hrun & Hres & Hnum).
    exists st'. split; [exact Hrun|]. split.
    + rewrite Hres. cbn [fold_left accumulate results]. rewrite Hv. reflexivity.
    + rewrite Hnum. cbn [accumulate num_test_users].
      destruct good; destruct (Nat.eqb flag 0); simpl; lia.
Qed.

(** The whole pass on supported metrics: it ends normally, counts the
    eligible users, and reports for every metric name the sum of its values
    over the eligible users divided by their number, once per occurrence of
    the name in the metric list. *)
Lemma evaluation_pass_results (train_user_set : list Z) :
  forallb Metrics.supported metrics = true ->
  forallb (fun user => is_ok (snd (generate user)))
          (eligible_users test_pos train_user_set) = true ->
  eligible_users test_pos train_user_set <> [] ->
  exists st : tester,
    pass train_user_set = (Ok tt, st)
    /\ (metrics <> [] ->
        num_test_users st = List.length (eligible_users test_pos train_user_set))
    /\ forall m : string,
        In m metrics ->
        Dict.get String.eqb m (results st)
        = Some (INR (count_occ string_dec metrics m)
                * total m (eligible_users test_pos train_user_set)
                / INR (List.length (eligible_users test_pos train_user_set)))%R.
Proof.
  intros Hs Hgen Hne.
  destruct (user_loop_totals train_user_set Hs Hgen (init_results metrics user_groups))
    as (st1 & Hrun & Hnum & Hres).
  set (E := eligible_users test_pos train_user_set) in *.
  assert (Havg : average_items (num_test_users st1) (results st1)
                 = Ok (map (fun item =>
                              (fst item, (snd item / INR (num_test_users st1))%R))
                           (results st1))).
  { apply average_items_ok. rewrite Hnum. cbn [init_results num_test_users].
    destruct metrics as [|m0 ms] eqn:Hm.
    - right. destruct (results st1) as [|[m v] r] eqn:Hr; [reflexivity|].
      exfalso. specialize (Hres m).
      cbn in Hres. rewrite String.eqb_refl in Hres. discriminate.
    - left. destruct E; [congruence | simpl; lia]. }
  eexists. split; [|split].
  - unfold evaluation_pass. unfold bind at 1. rewrite Hrun.
    unfold bind at 1. unfold average_user at 1. rewrite Havg.
    unfold bind at 1. unfold modify. reflexivity.
  - intros Hm. cbn [measure_unfairness average_user_attr num_test_users].
    rewrite Hnum. cbn [init_results num_test_users].
    destruct metrics; [congruence | reflexivity].
  - intros m Hin. cbn [measure_unfairness average_user_attr results].
    rewrite get_map_div, Hres. cbn [init_results results].
    unfold init_metric_totals.
    rewrite (get_fold_set (fun _ => 0%R) m metrics []) by now left.
    cbn [option_map]. rewrite Hnum. cbn [init_results num_test_users].
    destruct metrics; [contradiction|]. f_equal.
    unfold Rdiv. rewrite Rplus_0_l. reflexivity.
Qed.

(** The whole pass when the metric list holds an unsupported name and some
    user is eligible: [ValueError] while the first eligible user is measured. *)
Lemma evaluation_pass_unsupported
      (good : list string) (bad : string) (rest : list string)
      (skipped : list Z) (user : Z) (later : list Z)
      (user_test rec_list : list Z) (cnt : nat) :
  metrics = good ++ bad :: rest ->
  forallb Metrics.supported good = true ->
  Metrics.supported bad = false ->
  eligible_users test_pos skipped = [] ->
  Dict.get Z.eqb user test_pos = Some user_test ->
  snd (generate user) = Ok (rec_list, cnt) ->
  exists st : tester,
    pass (skipped ++ user :: later)
    = (Err (ValueError (Metrics.undefined_metric bad)), st)
    /\ num_test_users st = Nat.min 1 (List.length good)
    /\ forall m : string,
        In m good ->
        Dict.get String.eqb m (results st)
        = Some (INR (count_occ string_dec good m) * value m user)%R.
Proof.
  intros Hm Hgood Hbad Hskip Hget Hg.
  destruct (measure_metrics_unsupported user rec_list user_test good bad rest
              Hget Hgood Hbad 0 (init_results metrics user_groups))
    as (st & Hrun & Hres & Hnum).
  exists st. split; [|split].
  - unfold evaluation_pass. unfold bind at 1.
    rewrite user_loop_skip by assumption. cbn [user_loop].
    unfold Dict.mem. rewrite Hget.
    unfold bind at 1. unfold bind at 1. unfold lift. rewrite Hg.
    unfold measure_performance_for_a_user. cbn [fst].
    rewrite <- Hm in Hrun. rewrite Hrun. reflexivity.
  - rewrite Hnum. cbn [init_results num_test_users]. destruct good; reflexivity.
  - intros m Hin. rewrite Hres, get_fold_adjust.
    cbn [init_results results]. unfold init_metric_totals.
    rewrite (get_fold_set (fun _ => 0%R) m metrics []).
    + cbn [option_map]. unfold user_value. rewrite Hget, Hg.
      f_equal. ring.
    + left. rewrite Hm. apply in_or_app. now left.
Qed.

(** The whole pass without an eligible user, for a non-empty metric list:
    the first division of [average_user] is a division by zero. *)
Lemma evaluation_pass_no_user (train_user_set : list Z) :
  metrics <> [] ->
  eligible_users test_pos train_user_set = [] ->
  pass train_user_set = (Err ZeroDivisionError, init_results metrics user_groups).
Proof.
  intros Hm Hnone. unfold evaluation_pass. unfold bind at 1.
  rewrite <- (app_nil_r train_user_set), user_loop_skip by assumption.
  cbn [user_loop]. unfold ret at 1.
  unfold bind at 1. unfold average_user at 1.
  cbn [init_results results num_test_users].
  pose proof (fold_set_not_nil 0%R metrics [] (or_intror Hm)) as Hnil.
  fold (init_metric_totals metrics) in Hnil.
  destruct (init_metric_totals metrics) as [|[m v] r] eqn:Hi; [congruence|].
  reflexivity.
Qed.

(** C3. When every metric of the list is supported, every list can be
    generated and some user is eligible, the pass ends normally and the user
    count is the number of eligible users, each counted once. For a metric
    list of distinct names, the value reported for a metric is the unweighted
    mean of its per-user values over the eligible users. The addition to
    [self.results[metric]] is not guarded by [flag] as the user count is: for
    a name listed more than once the value of each user is added once per
    occurrence, and the reported value is the mean multiplied by the number of
    occurrences. *)
Theorem overall_metric_is_mean_per_occurrence (train_user_set : list Z) :
  forallb Metrics.supported metrics = true ->
  forallb (fun user => is_ok (snd (generate user)))
          (eligible_users test_pos train_user_set) = true ->
  eligible_users test_pos train_user_set <> [] ->
  let evaluated := eligible_users test_pos train_user_set in
  exists st : tester,
    pass train_user_set = (Ok tt, st)
    /\ (metrics <> [] -> num_test_users st = List.length evaluated)
    /\ forall m : string,
        In m metrics ->
        Dict.get String.eqb m (results st)
        = Some (INR (count_occ string_dec metrics m)
                * (total m evaluated / INR (List.length evaluated)))%R
        /\ (NoDup metrics ->
            Dict.get String.eqb m (results st)
            = Some (total m evaluated / INR (List.length evaluated))%R).
Proof.
  intros Hs Hgen Hne evaluated.
  destruct (evaluation_pass_results train_user_set Hs Hgen Hne)
    as (st & Hrun & Hnum & Hres).
  exists st. split; [exact Hrun|]. split; [exact Hnum|].
  intros m Hin. fold evaluated in Hres. rewrite (Hres m Hin). split.
  - f_equal. unfold Rdiv. ring.
  - intros Hnd. rewrite (NoDup_count_occ' string_dec) in Hnd.
    rewrite (Hnd m Hin). f_equal. change (INR 1) with 1%R. unfold Rdiv. ring.
Qed.

(** C5 (as the code has it). A metric list with an unsupported name is not
    rejected before the pass: the error is raised while the first eligible
    user is measured, after that user's list has been generated and the
    supported metrics listed before the unsupported one have been added. With
    an eligible user the pass always ends in that [ValueError]; the name is
    never skipped. *)
Theorem unknown_metric_raises_at_first_user
        (good : list string) (bad : string) (rest : list string)
        (skipped : list Z) (user : Z) (later : list Z)
        (user_test rec_list : list Z) (cnt : nat) :
  metrics = good ++ bad :: rest ->
  forallb Metrics.supported good = true ->
  Metrics.supported bad = false ->
  eligible_users test_pos skipped = [] ->
  Dict.get Z.eqb user test_pos = Some user_test ->
  snd (generate user) = Ok (rec_list, cnt) ->
  let run := pass (skipped ++ user :: later) in
  fst run = Err (ValueError (Metrics.undefined_metric bad))
  /\ num_test_users (snd run) = Nat.min 1 (List.length good)
  /\ forall m : string,
      In m good ->
      Dict.get String.eqb m (results (snd run))
      = Some (INR (count_occ string_dec good m) * value m user)%R.
Proof.
  intros Hm Hgood Hbad Hskip Hget Hg run.
  destruct (evaluation_pass_unsupported good bad rest skipped user later
              user_test rec_list cnt Hm Hgood Hbad Hskip Hget Hg)
    as (st & Hrun & Hnum & Hres).
  subst run. rewrite Hrun. cbn [fst snd]. repeat split; assumption.
Qed.

(** C10. Without an eligible user and with at least one metric, the pass
    ends in a division by zero in [average_user]; [average_user_attr], in
    contrast, turns the total of every group without users into 0. *)
Theorem no_eligible_user_divides_by_zero (train_user_set : list Z) :
  metrics <> [] ->
  eligible_users test_pos train_user_set = [] ->
  fst (pass train_user_set) = Err ZeroDivisionError
  /\ forall (st : tester) (k : nat) (attr : Z) (metric : string) (v : R),
      k < List.length user_groups ->
      k < List.length (results_user_attr st) ->
      In attr (nth k user_groups []) ->
      In metric metrics ->
      group_entry (results_user_attr st) k attr metric = Some v ->
      group_count (num_users_per_group st) k attr = 0 ->
      group_entry (results_user_attr (average_user_attr metrics user_groups st))
                  k attr metric
      = Some 0%R.
Proof.
  intros Hm Hnone. split.
  - now rewrite evaluation_pass_no_user.
  - intros st k attr metric v Hk Hk' Hattr Hmetric Hentry Hcount.
    rewrite average_user_attr_entry by assumption.
    rewrite Hentry, Hcount. cbn [option_map].
    apply (count_occ_In Z.eq_dec) in Hattr.
    apply (count_occ_In string_dec) in Hmetric.
    destruct (count_occ Z.eq_dec (nth k user_groups []) attr
              * count_occ string_dec metrics metric) as [|n] eqn:Hn; [nia|].
    reflexivity.
Qed.

End PassFacts.

(** Recall of users 7 and 8 of the small catalogue, for [K = 2] and two
    negatives: both lists hold every test positive. *)
Lemma recall_of_user_7 :
  user_value 2 2 Examples.parity_scores Examples.input_order Examples.draw_first Examples.items5
             Examples.train_pos3 Examples.test_pos2 "recall" 7 = 1%R.
Proof.
  unfold user_value.
  replace (snd (generate_recommendation_list_for_a_user
                  2 2 Examples.parity_scores Examples.input_order Examples.draw_first Examples.items5
                  Examples.train_pos3 Examples.test_pos2 7))
    with (@Ok (list Z * nat) ([3; 5]%Z, 0)) by (vm_compute; reflexivity).
  cbn [Dict.get Examples.test_pos2 Z.eqb Pos.eqb].
  unfold Metrics.metric_value. cbn [String.eqb Ascii.eqb Bool.eqb].
  unfold Metrics.value_of, Metrics.measure_recall.
  replace (Metrics.hit_count [3; 5]%Z [3]%Z) with 1 by reflexivity.
  cbn [List.length]. change (INR 1) with 1%R. lra.
Qed.

Lemma recall_of_user_8 :
  user_value 2 2 Examples.parity_scores Examples.input_order Examples.draw_first Examples.items5
             Examples.train_pos3 Examples.test_pos2 "recall" 8 = 1%R.
Proof.
  unfold user_value.
  replace (snd (generate_recommendation_list_for_a_user
                  2 2 Examples.parity_scores Examples.input_order Examples.draw_first Examples.items5
                  Examples.train_pos3 Examples.test_pos2 8))
    with (@Ok (list Z * nat) ([1; 5]%Z, 0)) by (vm_compute; reflexivity).
  cbn [Dict.get Examples.test_pos2 Z.eqb Pos.eqb].
  unfold Metrics.metric_value. cbn [String.eqb Ascii.eqb Bool.eqb].
  unfold Metrics.value_of, Metrics.measure_recall.
  replace (Metrics.hit_count [1; 5]%Z [1; 5]%Z) with 2 by reflexivity.
  cbn [List.length]. change (INR 2) with 2%R. lra.
Qed.

(** Witness: the hypotheses hold on the
    small catalogue for the metrics [recall] and [hit_ratio]. *)
Lemma overall_metric_is_mean_per_occurrence_witness :
  let evaluated := eligible_users Examples.test_pos2 [7; 8; 9]%Z in
  exists st : tester,
    evaluation_pass ["recall"; "hit_ratio"] [[0; 1]%Z] 2 2 Examples.attr_of
                    Examples.parity_scores Examples.input_order Examples.draw_first Examples.items5
                    Examples.train_pos3 Examples.test_pos2 [7; 8; 9]%Z
    = (Ok tt, st)
    /\ (["recall"; "hit_ratio"] <> [] -> num_test_users st = List.length evaluated)
    /\ forall m : string,
        In m ["recall"; "hit_ratio"] ->
        Dict.get String.eqb m (results st)
        = Some (INR (count_occ string_dec ["recall"; "hit_ratio"] m)
                * (total_value 2 2 Examples.parity_scores Examples.input_order Examples.draw_first
                               Examples.items5 Examples.train_pos3
                               Examples.test_pos2 m evaluated
                   / INR (List.length evaluated)))%R
        /\ (NoDup ["recall"; "hit_ratio"] ->
            Dict.get String.eqb m (results st)
            = Some (total_value 2 2 Examples.parity_scores Examples.input_order Examples.draw_first
                                Examples.items5 Examples.train_pos3
                                Examples.test_pos2 m evaluated
                    / INR (List.length evaluated))%R).
Proof.
  apply (overall_metric_is_mean_per_occurrence
           ["recall"; "hit_ratio"] [[0; 1]%Z] 2 2 Examples.attr_of
           Examples.parity_scores Examples.input_order Examples.draw_first Examples.items5
           Examples.train_pos3 Examples.test_pos2 [7; 8; 9]%Z).
  - reflexivity.
  - vm_compute. reflexivity.
  - vm_compute. discriminate.
Defined.

(** The failing input of C3: a metric name listed twice. On the small
    catalogue the two eligible users both have recall 1, so the mean is 1,
    but with [recall] listed twice each user is counted once and its value
    added twice, and 2 is reported. *)
Lemma repeated_metric_counted_twice :
  exists st : tester,
    evaluation_pass ["recall"; "recall"] [[0; 1]%Z] 2 2 Examples.attr_of
                    Examples.parity_scores Examples.input_order Examples.draw_first Examples.items5
                    Examples.train_pos3 Examples.test_pos2 [7; 8; 9]%Z
    = (Ok tt, st)
    /\ num_test_users st = 2
    /\ Dict.get String.eqb "recall" (results st) = Some 2%R
    /\ (total_value 2 2 Examples.parity_scores Examples.input_order Examples.draw_first Examples.items5
                    Examples.train_pos3 Examples.test_pos2 "recall" [7; 8]%Z
        / INR 2 = 1)%R.
Proof.
  assert (Htotal :
            total_value 2 2 Examples.parity_scores Examples.input_order Examples.draw_first
                        Examples.items5 Examples.train_pos3 Examples.test_pos2
                        "recall" [7; 8]%Z = 2%R).
  { unfold total_value. cbn [map Metrics.sum_R fold_right].
    rewrite recall_of_user_7, recall_of_user_8. lra. }
  destruct (evaluation_pass_results
              ["recall"; "recall"] [[0; 1]%Z] 2 2 Examples.attr_of
              Examples.parity_scores Examples.input_order Examples.draw_first Examples.items5
              Examples.train_pos3 Examples.test_pos2 [7; 8; 9]%Z)
    as (st & Hrun & Hnum & Hres).
  - reflexivity.
  - vm_compute. reflexivity.
  - vm_compute. discriminate.
  - exists st. split; [exact Hrun|].
    split; [rewrite Hnum by discriminate; reflexivity|].
    split.
    + rewrite (Hres "recall") by (now left).
      replace (eligible_users Examples.test_pos2 [7; 8; 9]%Z) with [7; 8]%Z
        by reflexivity.
      rewrite Htotal. f_equal.
      replace (count_occ string_dec ["recall"; "recall"] "recall") with 2
        by reflexivity.
      cbn [List.length]. change (INR 2) with 2%R. lra.
    + rewrite Htotal. change (INR 2) with 2%R. lra.
Qed.

(** Witness: the hypotheses hold on the small
    catalogue for the list [recall, bogus]. *)
Lemma unknown_metric_raises_at_first_user_witness :
  let run :=
    evaluation_pass ["recall"; "bogus"] [[0; 1]%Z] 2 2 Examples.attr_of
                    Examples.parity_scores Examples.input_order Examples.draw_first Examples.items5
                    Examples.train_pos3 Examples.test_pos2 ([9] ++ 7 :: [8])%Z in
  fst run = Err (ValueError (Metrics.undefined_metric "bogus"))
  /\ num_test_users (snd run) = Nat.min 1 (List.length ["recall"])
  /\ forall m : string,
      In m ["recall"] ->
      Dict.get String.eqb m (results (snd run))
      = Some (INR (count_occ string_dec ["recall"] m)
              * user_value 2 2 Examples.parity_scores Examples.input_order Examples.draw_first
                           Examples.items5 Examples.train_pos3
                           Examples.test_pos2 m 7)%R.
Proof.
  apply (unknown_metric_raises_at_first_user
           ["recall"; "bogus"] [[0; 1]%Z] 2 2 Examples.attr_of
           Examples.parity_scores Examples.input_order Examples.draw_first Examples.items5
           Examples.train_pos3 Examples.test_pos2
           ["recall"] "bogus" [] [9]%Z 7%Z [8]%Z [3]%Z [3; 5]%Z 0).
  - reflexivity.
  - reflexivity.
  - reflexivity.
  - reflexivity.
  - reflexivity.
  - vm_compute. reflexivity.
Defined.

(** C5 as stated fails. With the list [recall, bogus] the error is raised
    only while the first eligible user is measured: at that point the user
    has been counted and its recall added. With the list [bogus] and no
    eligible user no configuration error is raised at all: the pass ends in
    a division by zero. *)
Lemma unknown_metric_not_rejected_upfront :
  (exists st : tester,
      evaluation_pass ["recall"; "bogus"] [[0; 1]%Z] 2 2 Examples.attr_of
                      Examples.parity_scores Examples.input_order Examples.draw_first Examples.items5
                      Examples.train_pos3 Examples.test_pos2 [7; 8; 9]%Z
      = (Err (ValueError "Undefined evaluation metric: bogus."), st)
      /\ num_test_users st = 1
      /\ Dict.get String.eqb "recall" (results st) = Some 1%R)
  /\ fst (evaluation_pass ["bogus"] [[0; 1]%Z] 2 2 Examples.attr_of
                          Examples.parity_scores Examples.input_order Examples.draw_first
                          Examples.items5 Examples.train_pos3
                          Examples.test_pos2 [9]%Z)
     = Err ZeroDivisionError.
Proof.
  split.
  - destruct (evaluation_pass_unsupported
                ["recall"; "bogus"] [[0; 1]%Z] 2 2 Examples.attr_of
                Examples.parity_scores Examples.input_order Examples.draw_first Examples.items5
                Examples.train_pos3 Examples.test_pos2
                ["recall"] "bogus" [] [] 7%Z [8; 9]%Z [3]%Z [3; 5]%Z 0)
      as (st & Hrun & Hnum & Hres);
      try reflexivity.
    exists st. split; [exact Hrun|]. split; [exact Hnum|].
    rewrite (Hres "recall") by (now left).
    rewrite recall_of_user_7.
    replace (count_occ string_dec ["recall"] "recall") with 1 by reflexivity.
    change (INR 1) with 1%R. f_equal. lra.
  - rewrite evaluation_pass_no_user; [reflexivity | discriminate | reflexivity].
Qed.

(** Witness: the hypotheses hold on the small
    catalogue when the training user set is user 9 alone. *)
Lemma no_eligible_user_divides_by_zero_witness :
  fst (evaluation_pass ["recall"] [[0; 1]%Z] 2 2 Examples.attr_of
                       Examples.parity_scores Examples.input_order Examples.draw_first Examples.items5
                       Examples.train_pos3 Examples.test_pos2 [9]%Z)
  = Err ZeroDivisionError
  /\ forall (st : tester) (k : nat) (attr : Z) (metric : string) (v : R),
      k < List.length [[0; 1]%Z] ->
      k < List.length (results_user_attr st) ->
      In attr (nth k [[0; 1]%Z] []) ->
      In metric ["recall"] ->
      group_entry (results_user_attr st) k attr metric = Some v ->
      group_count (num_users_per_group st) k attr = 0 ->
      group_entry (results_user_attr (average_user_attr ["recall"] [[0; 1]%Z] st))
                  k attr metric
      = Some 0%R.
Proof.
  apply (no_eligible_user_divides_by_zero
           ["recall"] [[0; 1]%Z] 2 2 Examples.attr_of
           Examples.parity_scores Examples.input_order Examples.draw_first Examples.items5
           Examples.train_pos3 Examples.test_pos2 [9]%Z).
  - discriminate.
  - reflexivity.
Defined.


End EvaluationFacts.

(** ** NDCG *)

Module MetricsFacts.
Import Metrics.

#[local] Open Scope R_scope.
#[local] Arguments INR : simpl never.

Lemma ln_2_pos : 0 < ln 2.
Proof. rewrite <- ln_1. apply ln_increasing; lra. Qed.

Lemma INR_ge_2 (k : nat) : (2 <= k)%nat -> 2 <= INR k.
Proof. intros H. apply le_INR in H. change (INR 2) with 2 in H. lra. Qed.

Lemma log2_pos (k : nat) : (2 <= k)%nat -> 0 < log2 (INR k).
Proof.
  intros H. apply INR_ge_2 in H. unfold log2.
  apply Rdiv_lt_0_compat; [|apply ln_2_pos].
  rewrite <- ln_1. apply ln_increasing; lra.
Qed.

Lemma log2_mono (k : nat) : (2 <= k)%nat -> log2 (INR k) < log2 (INR (S k)).
Proof.
  intros H. apply INR_ge_2 in H. unfold log2.
  apply Rmult_lt_compat_r; [apply Rinv_0_lt_compat, ln_2_pos|].
  apply ln_increasing; [lra|]. rewrite S_INR. lra.
Qed.

(** The discount of a position shrinks with the position. *)
Lemma discount_mono (x : R) (k : nat) :
  (2 <= k)%nat -> 0 <= x -> x / log2 (INR (S k)) <= x / log2 (INR k).
Proof.
  intros Hk Hx. unfold Rdiv. apply Rmult_le_compat_l; [assumption|].
  apply Rinv_le_contravar; [now apply log2_pos|].
  apply Rlt_le. now apply log2_mono.
Qed.

Lemma discount_nonneg (x : R) (k : nat) :
  (2 <= k)%nat -> 0 <= x -> 0 <= x / log2 (INR k).
Proof.
  intros Hk Hx. apply Rmult_le_pos; [assumption|].
  apply Rlt_le, Rinv_0_lt_compat. now apply log2_pos.
Qed.

Lemma hit_nonneg (b : bool) : 0 <= (if b then 1 else 0).
Proof. destruct b; lra. Qed.

Lemma dcg_nonneg (bs : list bool) :
  forall k : nat, (2 <= k)%nat -> 0 <= discounted_sum k (asfarray bs).
Proof.
  induction bs as [|b bs IH]; intros k Hk; simpl; [lra|].
  pose proof (discount_nonneg _ k Hk (hit_nonneg b)).
  pose proof (IH (S k) ltac:(lia)). lra.
Qed.

(** Moving a whole hit vector one position down cannot raise its gain. *)
Lemma dcg_shift (bs : list bool) :
  forall k : nat,
    (2 <= k)%nat ->
    discounted_sum (S k) (asfarray bs) <= discounted_sum k (asfarray bs).
Proof.
  induction bs as [|b bs IH]; intros k Hk; simpl; [lra|].
  pose proof (discount_mono _ k Hk (hit_nonneg b)).
  pose proof (IH (S k) ltac:(lia)). lra.
Qed.

Lemma insert_true (s : list bool) : insert_desc bool_ltb true s = true :: s.
Proof. destruct s; reflexivity. Qed.

(** Inserting a miss into a vector keeps at least the gain the vector has one
    position further down. *)
Lemma dcg_insert_false (s : list bool) :
  forall k : nat,
    (2 <= k)%nat ->
    discounted_sum (S k) (asfarray s)
    <= discounted_sum k (asfarray (insert_desc bool_ltb false s)).
Proof.
  induction s as [|[|] r IH]; intros k Hk; simpl.
  - lra.
  - pose proof (discount_mono 1 k Hk ltac:(lra)).
    pose proof (IH (S k) ltac:(lia)). lra.
  - unfold Rdiv. rewrite !Rmult_0_l. lra.
Qed.

(** The gain of a hit vector is at most the gain of its descending sort. *)
Lemma dcg_le_idcg (bs : list bool) :
  forall k : nat,
    (2 <= k)%nat ->
    discounted_sum k (asfarray bs)
    <= discounted_sum k (asfarray (sorted_reverse bool_ltb bs)).
Proof.
  induction bs as [|[|] bs IH]; intros k Hk; simpl.
  - lra.
  - rewrite insert_true. simpl.
    pose proof (IH (S k) ltac:(lia)). lra.
  - unfold Rdiv at 1. rewrite Rmult_0_l, Rplus_0_l.
    eapply Rle_trans; [apply IH; lia|].
    now apply dcg_insert_false.
Qed.

Lemma sorted_reverse_false (n : nat) :
  sorted_reverse bool_ltb (repeat false n) = repeat false n.
Proof.
  induction n as [|n IH]; simpl; [reflexivity|].
  rewrite IH. now destruct n.
Qed.

(** Hits followed by misses are already in descending order. *)
Lemma sorted_reverse_hits_first (a b : nat) :
  sorted_reverse bool_ltb (repeat true a ++ repeat false b)
  = repeat true a ++ repeat false b.
Proof.
  induction a as [|a IH]; simpl.
  - apply sorted_reverse_false.
  - rewrite IH. apply insert_true.
Qed.

Lemma isin_app (l1 l2 test_pos : list Z) :
  isin (l1 ++ l2) test_pos = isin l1 test_pos ++ isin l2 test_pos.
Proof. unfold isin. apply map_app. Qed.

Lemma isin_all (l test_pos : list Z) :
  (forall x, In x l -> In x test_pos) ->
  isin l test_pos = repeat true (List.length l).
Proof.
  intros H. induction l as [|x l IH]; simpl; [reflexivity|].
  rewrite IH by (intros; apply H; now right).
  replace (existsb (Z.eqb x) test_pos) with true; [reflexivity|].
  symmetry. apply TesterFacts.existsb_Zeqb. apply H. now left.
Qed.

Lemma isin_none (l test_pos : list Z) :
  (forall x, In x l -> ~ In x test_pos) ->
  isin l test_pos = repeat false (List.length l).
Proof.
  intros H. induction l as [|x l IH]; simpl; [reflexivity|].
  rewrite IH by (intros; apply H; now right).
  replace (existsb (Z.eqb x) test_pos) with false; [reflexivity|].
  symmetry. apply not_true_iff_false. rewrite TesterFacts.existsb_Zeqb.
  apply H. now left.
Qed.

(** NDCG under method 1 is a value between 0 and 1, and it is 1 when there
    is a test positive and the list starts with all the test positives, in
    any order, followed by items that are not test positives. *)
Lemma ndcg1_unit_interval (rec_list test_pos : list Z) :
  exists v : R,
    measure_ndcg rec_list test_pos 1 = Ok v
    /\ 0 <= v <= 1
    /\ (forall top rest : list Z,
           test_pos <> [] ->
           rec_list = top ++ rest ->
           (forall x, In x test_pos -> In x top) ->
           (forall x, In x top -> In x test_pos) ->
           (forall x, In x rest -> ~ In x test_pos) ->
           v = 1).
Proof.
  unfold measure_ndcg.
  change (1 =? 0)%Z with false. change (1 =? 1)%Z with true. cbv iota.
  set (r := isin rec_list test_pos).
  pose proof (dcg_nonneg r 2 ltac:(lia)) as Hd.
  pose proof (dcg_le_idcg r 2 ltac:(lia)) as Hle.
  set (dcg := discounted_sum 2 (asfarray r)) in *.
  set (idcg := discounted_sum 2 (asfarray (sorted_reverse bool_ltb r))) in *.
  assert (Hone :
            forall top rest : list Z,
              test_pos <> [] ->
              rec_list = top ++ rest ->
              (forall x, In x test_pos -> In x top) ->
              (forall x, In x top -> In x test_pos) ->
              (forall x, In x rest -> ~ In x test_pos) ->
              idcg = dcg /\ 0 < dcg).
  { intros top rest Hne Hrec Hall Htop Hrest.
    assert (Hr : r = repeat true (List.length top)
                            ++ repeat false (List.length rest)).
    { subst r. rewrite Hrec, isin_app, isin_all, isin_none; auto. }
    split.
    - subst idcg dcg. now rewrite Hr, sorted_reverse_hits_first.
    - subst dcg. rewrite Hr.
      destruct top as [|t top].
      + destruct test_pos as [|x tp]; [congruence|].
        destruct (Hall x (or_introl eq_refl)).
      + simpl.
        pose proof (dcg_nonneg (repeat true (List.length top)
                                  ++ repeat false (List.length rest)) 3
                               ltac:(lia)) as Hn.
        pose proof (log2_pos 2 ltac:(lia)) as Hl.
        assert (0 < 1 / log2 (INR 2)).
        { apply Rdiv_lt_0_compat; [lra | exact Hl]. }
        simpl in Hn. lra. }
  destruct (Req_dec_T idcg 0) as [Hz|Hnz].
  - exists 0. split; [reflexivity|]. split; [lra|].
    intros top rest H0 H1 H2 H3 H4.
    destruct (Hone top rest H0 H1 H2 H3 H4) as [He Hp]. lra.
  - exists (dcg / idcg). split; [reflexivity|].
    assert (Hpos : 0 < idcg) by lra.
    split.
    + split.
      * apply Rmult_le_pos; [lra|]. apply Rlt_le. now apply Rinv_0_lt_compat.
      * apply Rmult_le_reg_r with idcg; [assumption|].
        unfold Rdiv. rewrite Rmult_assoc, Rinv_l by assumption. lra.
    + intros top rest H0 H1 H2 H3 H4.
      destruct (Hone top rest H0 H1 H2 H3 H4) as [He Hp].
      rewrite He. apply Rdiv_diag. lra.
Qed.

End MetricsFacts.

(** ** The scheduler *)

Module MetaRunnerFacts.
Import MetaRunner.

#[local] Arguments Nat.min : simpl never.

Lemma passes_of_app (i : nat) (tr1 tr2 : list event) :
passes_of i (tr1 ++ tr2) = passes_of i tr1 + passes_of i tr2.
Proof.
unfold passes_of. now rewrite filter_app, length_app.
Qed.

Lemma only_logs_passes_other (i j : nat) (tr : list event) :
only_logs i tr -> i <> j -> passes_of j tr = 0.
Proof.
unfold only_logs, passes_of. intros H Hij.
induction H as [|ev tr Hev _ IH]; [reflexivity|].
destruct ev; simpl in *; try assumption; try contradiction.
subst. destruct (Nat.eqb_spec j i); [congruence | assumption].
Qed.

Lemma only_logs_milestones (i : nat) (tr : list event) :
only_logs i tr -> filter is_milestone tr = [] /\ saved_tags tr = [].
Proof.
unfold only_logs, saved_tags. intros H.
induction H as [|ev tr Hev _ [IH1 IH2]]; [split; reflexivity|].
destruct ev; simpl in *; try contradiction; split; assumption.
Qed.

Lemma saved_tags_app (tr1 tr2 : list event) :
saved_tags (tr1 ++ tr2) = saved_tags tr1 ++ saved_tags tr2.
Proof. unfold saved_tags. apply flat_map_app. Qed.

Lemma logs_of_app (i : nat) (tr1 tr2 : list event) :
  logs_of i (tr1 ++ tr2) = logs_of i tr1 ++ logs_of i tr2.
Proof. unfold logs_of. apply filter_app. Qed.

Lemma only_logs_logs_same (i : nat) (tr : list event) :
  only_logs i tr -> logs_of i tr = tr.
Proof.
  unfold only_logs, logs_of. intros H.
  induction H as [|ev tr Hev _ IH]; [reflexivity|].
  destruct ev; simpl in *; try contradiction; subst;
    rewrite Nat.eqb_refl; now rewrite IH.
Qed.

Lemma only_logs_logs_other (i j : nat) (tr : list event) :
  only_logs i tr -> i <> j -> logs_of j tr = [].
Proof.
  unfold only_logs, logs_of. intros H Hij.
  induction H as [|ev tr Hev _ IH]; [reflexivity|].
  destruct ev; simpl in *; try contradiction; subst;
    (destruct (Nat.eqb_spec j i); [congruence | assumption]).
Qed.

Section TrainerFacts.

Variable Model : Type.
Variable Example : Type.
Variable step : Model -> Example -> Model * list spec_float.


(** The flag and the step count of a pass, from the predictions of its
    steps. *)
Lemma pass_loop_spec (dl : list Example) :
  forall (model : Model) (flag : bool) (steps : nat),
    let out := pass_loop step model dl flag steps in
    match first_nan (step_predictions step model dl) with
    | Some k => snd (fst out) = true /\ snd out = steps + S k
    | None =>
        snd (fst out) = match dl with [] => flag | _ => false end
        /\ snd out = steps + List.length dl
    end.
Proof.
  induction dl as [|x dl IH]; intros model flag steps; simpl.
  - split; [reflexivity | lia].
  - destruct (step model x) as [model' p] eqn:Hs. simpl.
    destruct (isnan_any p) eqn:Hp; simpl.
    + split; [reflexivity | lia].
    + specialize (IH model' false (S steps)). simpl in IH.
      destruct (first_nan (step_predictions step model' dl)) as [k|]; simpl.
      * destruct IH as [H1 H2]. split; [assumption | lia].
      * destruct IH as [H1 H2]. split; [|lia].
        rewrite H1. now destruct dl.
Qed.

Lemma pass_loop_quiet (dl : list Example) :
  (quiet step) ->
  forall (model : Model) (steps : nat),
    snd (fst (pass_loop step model dl false steps)) = false.
Proof.
  intros Hq. induction dl as [|x dl IH]; intros model steps; simpl.
  - reflexivity.
  - pose proof (Hq model x) as Hx.
    destruct (step model x) as [model' p]. simpl in Hx. rewrite Hx.
    apply IH.
Qed.

(** The passes of one snapshot: only its own logs, at most [n] of them, at
    least one when [n] is positive, all [n] when no step is flagged. *)
Lemma tepoch_loop_trace (i : nat) (snapshot_data : list Example) (n : nat) :
  forall (e : nat) (model : Model) (flag : bool),
    let tr := snd (tepoch_loop step n e i model snapshot_data flag) in
    only_logs i tr
    /\ Nat.min 1 n <= passes_of i tr <= n
    /\ ((quiet step) -> flag = false -> passes_of i tr = n).
Proof.
  induction n as [|n IH]; intros e model flag; simpl.
  - repeat split; try constructor; reflexivity.
  - destruct (pass_loop step model snapshot_data flag 0) as [[model' flag'] steps] eqn:Hp.
    destruct flag'; simpl.
    + unfold passes_of. simpl. rewrite Nat.eqb_refl. simpl.
      split; [repeat constructor|]. split; [lia|].
      intros Hq Hf. subst flag.
      pose proof (pass_loop_quiet snapshot_data Hq model 0) as Hc.
      rewrite Hp in Hc. simpl in Hc. discriminate.
    + specialize (IH (S e) model' false). simpl in IH.
      destruct (tepoch_loop step n (S e) i model' snapshot_data false)
        as [[model'' flag''] tr] eqn:Ht.
      simpl in *. destruct IH as [Ho [Hb Hq]].
      split; [constructor; [reflexivity | assumption]|].
      unfold passes_of in *. simpl. rewrite Nat.eqb_refl. simpl.
      split; [lia|]. intros Hq' _. now rewrite Hq.
Qed.

Lemma tepoch_loop_flag (i : nat) (snapshot_data : list Example) (n : nat) :
  forall (e : nat) (model : Model),
    snd (fst (tepoch_loop step n e i model snapshot_data false)) = false.
Proof.
  induction n as [|n IH]; intros e model; simpl; [reflexivity|].
  pose proof (pass_loop_spec snapshot_data model false 0) as Hs. simpl in Hs.
  destruct (pass_loop step model snapshot_data false 0) as [[model' flag'] steps].
  destruct flag'; simpl; [reflexivity|].
  specialize (IH (S e) model').
  destruct (tepoch_loop step n (S e) i model' snapshot_data false) as [[m f] tr].
  exact IH.
Qed.

Lemma snapshot_loop_flag (dyn_method : string) (N : Z) (tepoch : nat)
      (snaps : list (list Example)) :
  forall (s : nat) (model : Model),
    snd (fst (snapshot_loop step dyn_method N tepoch s snaps model false)) = false.
Proof.
  induction snaps as [|d snaps IH]; intros s model; simpl; [reflexivity|].
  destruct (Nat.eqb s 0); [apply IH|].
  destruct (Z.of_nat s >? N)%Z.
  - pose proof (tepoch_loop_flag s d tepoch 0 model) as Hf.
    destruct (tepoch_loop step tepoch 0 s model d false) as [[m f] tr].
    simpl in Hf. subst f.
    specialize (IH (S s) m).
    destruct (snapshot_loop step dyn_method N tepoch (S s) snaps m false)
      as [[m2 f2] tr2].
    exact IH.
  - specialize (IH (S s) model).
    destruct (snapshot_loop step dyn_method N tepoch (S s) snaps model false)
      as [[m2 f2] tr2].
    exact IH.
Qed.

(** Passes per snapshot in the fine-tuning loop that starts at index [s]. *)
Lemma snapshot_loop_passes (dyn_method : string) (N : Z) (tepoch : nat)
      (snaps : list (list Example)) :
  forall (s : nat) (model : Model) (i : nat),
    let tr := snd (snapshot_loop step dyn_method N tepoch s snaps model false) in
    (i < s \/ s + List.length snaps <= i -> passes_of i tr = 0)
    /\ (s <= i < s + List.length snaps -> 1 <= i ->
        ((Z.of_nat i <= N)%Z -> passes_of i tr = 0)
        /\ ((N < Z.of_nat i)%Z ->
            Nat.min 1 tepoch <= passes_of i tr <= tepoch
            /\ (quiet step -> passes_of i tr = tepoch))).
Proof.
  induction snaps as [|d snaps IH]; intros s model i; simpl.
  - split; [reflexivity | lia].
  - destruct (Nat.eqb_spec s 0) as [Hs|Hs].
    + subst s. specialize (IH 1 model i). simpl in IH.
      destruct IH as [IH1 IH2]. split.
      * intros [H|H]; [lia|]. apply IH1. lia.
      * intros H1 H2. apply IH2; lia.
    + set (tr_save := if PyStr.contains "modi-fine" dyn_method
                         && (Z.of_nat s <=? N)%Z
                      then [] else [SaveModel (PyStr.snap_tag s)]).
      assert (Hsave : passes_of i tr_save = 0)
        by (subst tr_save; destruct (_ && _); reflexivity).
      destruct (Z.gtb_spec (Z.of_nat s) N) as [Hgt|Hle].
      * pose proof (tepoch_loop_trace s d tepoch 0 model false) as Ht.
        pose proof (tepoch_loop_flag s d tepoch 0 model) as Hf.
        destruct (tepoch_loop step tepoch 0 s model d false) as [[m f] tr0].
        cbn [fst snd] in Ht, Hf. subst f. destruct Ht as [Ho [Hb Hq]].
        specialize (IH (S s) m i). cbv zeta in IH.
        destruct (snapshot_loop step dyn_method N tepoch (S s) snaps m false)
          as [[m2 f2] tr2].
        cbn [fst snd] in *. destruct IH as [IH1 IH2].
        rewrite !passes_of_app, Hsave.
        assert (Hplot : passes_of i [Plot s] = 0) by reflexivity.
        rewrite Hplot.
        destruct (Nat.eq_dec s i) as [Hsi|Hsi].
        -- subst i. rewrite (IH1 (or_introl (Nat.lt_succ_diag_r s))).
           split; [lia|]. intros _ _. split; [lia|].
           intros _. split; [lia|]. intros Hquiet. rewrite Hq by auto. lia.
        -- rewrite (only_logs_passes_other s i tr0 Ho Hsi). simpl.
           split.
           ++ intros H. apply IH1. lia.
           ++ intros H1 H2. apply IH2; lia.
      * specialize (IH (S s) model i). cbv zeta in IH.
        destruct (snapshot_loop step dyn_method N tepoch (S s) snaps model false)
          as [[m2 f2] tr2].
        cbn [fst snd] in *. destruct IH as [IH1 IH2].
        rewrite !passes_of_app, Hsave. simpl.
        destruct (Nat.eq_dec s i) as [Hsi|Hsi].
        -- subst i. rewrite (IH1 (or_introl (Nat.lt_succ_diag_r s))).
           split; [lia|]. intros _ _. split; [reflexivity | lia].
        -- split.
           ++ intros H. apply IH1. lia.
           ++ intros H1 H2. apply IH2; lia.
Qed.

Lemma data_custom_from_length (boundaries : list Z) (data : nat -> list Example) :
  forall (s : nat) (start : Z),
    List.length (data_custom_from s start boundaries data) = List.length boundaries.
Proof.
  induction boundaries as [|b bs IH]; intros s start; simpl; [reflexivity|].
  now rewrite IH.
Qed.

(** Past the start of the window, the loop keeps examples up to [end_]. *)
Lemma collect_inside (dl : list Example) :
  forall (i start end_ : Z),
    (start <= i)%Z ->
    collect dl i start end_ = firstn (Z.to_nat (end_ - i)) dl.
Proof.
  induction dl as [|x dl IH]; intros i start end_ Hi; simpl.
  - now rewrite firstn_nil.
  - destruct (Z.ltb_spec i start); [lia|].
    destruct (Z.geb_spec i end_).
    + replace (Z.to_nat (end_ - i)) with 0 by lia. reflexivity.
    + rewrite IH by lia.
      replace (Z.to_nat (end_ - i)) with (S (Z.to_nat (end_ - (i + 1)))) by lia.
      reflexivity.
Qed.

(** The examples kept for a window are those at positions
    [start .. end_ - 1] of the stream. *)
Lemma collect_window (dl : list Example) :
  forall (i start end_ : Z),
    (i <= start <= end_)%Z ->
    collect dl i start end_
    = firstn (Z.to_nat (end_ - start)) (skipn (Z.to_nat (start - i)) dl).
Proof.
  induction dl as [|x dl IH]; intros i start end_ Hi; simpl.
  - now rewrite skipn_nil, firstn_nil.
  - destruct (Z.ltb_spec i start).
    + rewrite IH by lia.
      replace (Z.to_nat (start - i)) with (S (Z.to_nat (start - (i + 1)))) by lia.
      reflexivity.
    + assert (i = start) by lia. subst i.
      replace (Z.to_nat (start - start)) with 0 by lia. simpl.
      destruct (Z.geb_spec start end_).
      * replace (Z.to_nat (end_ - start)) with 0 by lia. reflexivity.
      * rewrite collect_inside by lia.
        replace (Z.to_nat (end_ - start))
          with (S (Z.to_nat (end_ - (start + 1)))) by lia.
        reflexivity.
Qed.


(** The log of the passes of one snapshot, pass by pass. *)
Lemma tepoch_loop_passes (i : nat) (d : list Example) (n : nat) :
  forall (e : nat) (model : Model),
    let tr := snd (tepoch_loop step n e i model d false) in
    let clean := fun j =>
      first_nan (step_predictions step (after_passes step j model d) d) = None in
    let full := fun n' =>
      map (fun j => EpochLog i (S (e + j)) (List.length d)) (seq 0 n') in
    ((forall j, j < n -> clean j) /\ tr = full n)
    \/ (exists k p : nat,
           k < n
           /\ (forall j, j < k -> clean j)
           /\ first_nan (step_predictions step (after_passes step k model d) d)
              = Some p
           /\ tr = full k ++ [EpochLog i (S (e + k)) (S p); NaNLog i]).
Proof.
  induction n as [|n IH]; intros e model; cbv zeta; cbn [tepoch_loop].
  - left. split; [intros j Hj; lia | reflexivity].
  - pose proof (pass_loop_spec d model false 0) as Hs. cbv zeta in Hs.
    destruct (pass_loop step model d false 0) as [[model' flag'] steps] eqn:Hp.
    cbn [fst snd] in Hs.
    destruct (first_nan (step_predictions step model d)) as [p|] eqn:Hnan.
    + destruct Hs as [Hf Hsteps]. subst flag' steps. right. exists 0, p.
      cbn [snd seq map app Nat.add]. rewrite Nat.add_0_r.
      split; [lia|]. split; [intros j Hj; lia|]. split; [exact Hnan | reflexivity].
    + destruct Hs as [Hf Hsteps].
      assert (Hf' : flag' = false) by (rewrite Hf; now destruct d).
      clear Hf. subst flag' steps. cbn [Nat.add].
      specialize (IH (S e) model'). cbv zeta in IH.
      destruct (tepoch_loop step n (S e) i model' d false) as [[m'' f''] tr'] eqn:Ht.
      cbn [snd] in *.
      assert (Hafter : forall j, after_passes step (S j) model d
                                 = after_passes step j model' d).
      { intros j. cbn [after_passes]. now rewrite Hp. }
      assert (Hfull : forall n',
                 EpochLog i (S e) (List.length d)
                 :: map (fun j => EpochLog i (S (S e + j)) (List.length d)) (seq 0 n')
                 = map (fun j => EpochLog i (S (e + j)) (List.length d))
                       (seq 0 (S n'))).
      { intros n'. cbn [seq map]. rewrite Nat.add_0_r. f_equal.
        rewrite <- seq_shift, map_map. apply map_ext. intros j.
        now rewrite Nat.add_succ_r. }
      destruct IH as [[Hclean Htr] | (k & p & Hk & Hclean & Hbad & Htr)].
      * left. split.
        -- intros [|j] Hj; [exact Hnan | rewrite Hafter; apply Hclean; lia].
        -- rewrite Htr. apply Hfull.
      * right. exists (S k), p. split; [lia|]. split; [|split].
        -- intros [|j] Hj; [exact Hnan | rewrite Hafter; apply Hclean; lia].
        -- rewrite Hafter. exact Hbad.
        -- rewrite Htr, <- Hfull, Nat.add_succ_r. reflexivity.
Qed.

(** The pass logs of snapshot [i] in the trace of the fine-tuning loop that
    starts at index [s]: those of the passes over its data, run from the model
    that the loop over the snapshots before it returns. *)
Lemma snapshot_loop_logs (dyn_method : string) (N : Z) (tepoch : nat)
      (snaps : list (list Example)) :
  forall (s : nat) (model : Model) (i : nat),
    let tr := snd (snapshot_loop step dyn_method N tepoch s snaps model false) in
    (i < s \/ s + List.length snaps <= i -> logs_of i tr = [])
    /\ (s <= i < s + List.length snaps -> 1 <= i ->
        let m := fst (fst (snapshot_loop step dyn_method N tepoch s
                                         (firstn (i - s) snaps) model false)) in
        logs_of i tr
        = if (Z.of_nat i >? N)%Z
          then snd (tepoch_loop step tepoch 0 i m (nth (i - s) snaps []) false)
          else []).
Proof.
  induction snaps as [|d snaps IH]; intros s model i; cbv zeta.
  - split; [reflexivity | simpl; lia].
  - cbn [snapshot_loop List.length]. destruct (Nat.eqb_spec s 0) as [Hs|Hs].
    + subst s. specialize (IH 1 model i). cbv zeta in IH.
      destruct IH as [IH1 IH2]. split.
      * intros [H|H]; [lia|]. apply IH1. lia.
      * intros H1 H2. destruct i as [|i]; [lia|].
        rewrite Nat.sub_0_r. cbn [firstn nth snapshot_loop Nat.eqb].
        specialize (IH2 ltac:(simpl in H1; lia) H2).
        replace (S i - 1) with i in IH2 by lia. exact IH2.
    + set (tr_save := if PyStr.contains "modi-fine" dyn_method
                         && (Z.of_nat s <=? N)%Z
                      then [] else [SaveModel (PyStr.snap_tag s)]).
      assert (Hsave : logs_of i tr_save = [])
        by (subst tr_save; destruct (_ && _); reflexivity).
      assert (Hcut : s < i -> firstn (i - s) (d :: snaps)
                              = d :: firstn (i - S s) snaps).
      { intros H. replace (i - s) with (S (i - S s)) by lia. reflexivity. }
      assert (Hnth : s < i -> nth (i - s) (d :: snaps) [] = nth (i - S s) snaps []).
      { intros H. replace (i - s) with (S (i - S s)) by lia. reflexivity. }
      destruct (Z.gtb_spec (Z.of_nat s) N) as [Hgt|Hle].
      * pose proof (tepoch_loop_trace s d tepoch 0 model false) as Ht.
        pose proof (tepoch_loop_flag s d tepoch 0 model) as Hf.
        destruct (tepoch_loop step tepoch 0 s model d false) as [[m f] tr0] eqn:Hrun.
        cbn [fst snd] in Ht, Hf. subst f. destruct Ht as [Ho _].
        specialize (IH (S s) m i). cbv zeta in IH.
        destruct (snapshot_loop step dyn_method N tepoch (S s) snaps m false)
          as [[m2 f2] tr2].
        cbn [fst snd] in *. destruct IH as [IH1 IH2].
        rewrite !logs_of_app, Hsave.
        assert (Hplot : logs_of i [Plot s] = []) by reflexivity.
        rewrite Hplot, !app_nil_r. cbn [app].
        destruct (Nat.eq_dec s i) as [Hsi|Hsi].
        -- subst i. rewrite (IH1 (or_introl (Nat.lt_succ_diag_r s))).
           rewrite app_nil_r, (only_logs_logs_same s tr0 Ho).
           split; [lia|]. intros _ _.
           rewrite Nat.sub_diag. cbn [firstn nth snapshot_loop fst].
           destruct (Z.gtb_spec (Z.of_nat s) N); [|lia].
           now rewrite Hrun.
        -- rewrite (only_logs_logs_other s i tr0 Ho Hsi). cbn [app].
           split.
           ++ intros H. apply IH1. lia.
           ++ intros H1 H2. rewrite Hcut, Hnth by lia.
              cbn [snapshot_loop]. destruct (Nat.eqb_spec s 0); [contradiction|].
              destruct (Z.gtb_spec (Z.of_nat s) N); [|lia].
              rewrite Hrun.
              destruct (snapshot_loop step dyn_method N tepoch (S s)
                                      (firstn (i - S s) snaps) m false)
                as [[m3 f3] tr3] eqn:Hrest.
              cbn [fst]. exact (IH2 ltac:(lia) H2).
      * specialize (IH (S s) model i). cbv zeta in IH.
        destruct (snapshot_loop step dyn_method N tepoch (S s) snaps model false)
          as [[m2 f2] tr2].
        cbn [fst snd] in *. destruct IH as [IH1 IH2].
        rewrite !logs_of_app, Hsave. cbn [app].
        destruct (Nat.eq_dec s i) as [Hsi|Hsi].
        -- subst i. rewrite (IH1 (or_introl (Nat.lt_succ_diag_r s))).
           split; [lia|]. intros _ _.
           destruct (Z.gtb_spec (Z.of_nat s) N); [lia | reflexivity].
        -- split.
           ++ intros H. apply IH1. lia.
           ++ intros H1 H2. rewrite Hcut, Hnth by lia.
              cbn [snapshot_loop]. destruct (Nat.eqb_spec s 0); [contradiction|].
              destruct (Z.gtb_spec (Z.of_nat s) N); [lia|].
              destruct (snapshot_loop step dyn_method N tepoch (S s)
                                      (firstn (i - S s) snaps) model false)
                as [[m3 f3] tr3] eqn:Hrest.
              cbn [fst]. exact (IH2 ltac:(lia) H2).
Qed.

Lemma data_custom_from_firstn (n : nat) (data : nat -> list Example) :
  forall (boundaries : list Z) (s : nat) (start : Z),
    data_custom_from s start (firstn n boundaries) data
    = firstn n (data_custom_from s start boundaries data).
Proof.
  induction n as [|n IH]; intros [|b bs] s start; try reflexivity.
  cbn [firstn data_custom_from]. now rewrite IH.
Qed.

(** The pass count of a snapshot above the threshold. *)
Lemma passes_above_threshold
      (dyn_method : string) (snap_boundaries : list Z) (tepoch : nat)
      (model : Model) (data : nat -> list Example) (i : nat) :
  1 <= i < List.length snap_boundaries ->
  let N := snap_thres_of dyn_method in
  let tr := snd (dynamic_prediction step dyn_method snap_boundaries tepoch model data) in
  ((Z.of_nat i <= N)%Z -> passes_of i tr = 0)
  /\ ((N < Z.of_nat i)%Z ->
      Nat.min 1 tepoch <= passes_of i tr <= tepoch
      /\ (quiet step -> passes_of i tr = tepoch)).
Proof.
  intros Hi N tr.
  pose proof (snapshot_loop_passes dyn_method N tepoch
                (data_custom snap_boundaries data) 0 model i) as H.
  cbv zeta in H. destruct H as [_ H].
  unfold data_custom in H. rewrite data_custom_from_length in H.
  destruct (H ltac:(lia) ltac:(lia)) as [H1 H2].
  split; [exact H1 | exact H2].
Qed.

(** C1 (as the code has it). For every snapshot index [i >= 1] of the
    fine-tuning loop, passes over the snapshot are run exactly when [i] is
    above the threshold [N] read from the digits of the mode string. When
    [i <= N] the trace holds no pass log of snapshot [i]. When [N < i] its pass
    logs are those of [tepoch] passes over the examples of the snapshot, run
    from the model that the loop over the snapshots before [i] returns: one
    line per pass when no step returns a NaN prediction, and otherwise the
    lines up to the first flagged pass, which ends with its first flagged
    step, the NaN notice, and no further pass; so at most [tepoch] passes, at
    least one if [tepoch] is positive, and exactly [tepoch] when no step ever
    returns a NaN prediction. Without digits in the mode string [N = -1], so
    every snapshot [i >= 1] is fine-tuned. *)
Theorem fine_tune_runs_above_threshold
        (dyn_method : string) (snap_boundaries : list Z) (tepoch : nat)
        (model : Model) (data : nat -> list Example) (i : nat) :
  1 <= i < List.length snap_boundaries ->
  let N := snap_thres_of dyn_method in
  let tr := snd (dynamic_prediction step dyn_method snap_boundaries tepoch model data) in
  let snapshot_data := nth i (data_custom snap_boundaries data) [] in
  let m := fst (fst (dynamic_prediction step dyn_method (firstn i snap_boundaries)
                                        tepoch model data)) in
  ((Z.of_nat i <= N)%Z -> logs_of i tr = [] /\ passes_of i tr = 0)
  /\ ((N < Z.of_nat i)%Z ->
      snapshot_passes step tepoch i m snapshot_data (logs_of i tr)
      /\ Nat.min 1 tepoch <= passes_of i tr <= tepoch
      /\ (quiet step -> passes_of i tr = tepoch))
  /\ (PyStr.keep_digits dyn_method = "" -> N = (-1)%Z).
Proof.
  intros Hi N tr snapshot_data m.
  destruct (passes_above_threshold dyn_method snap_boundaries tepoch model data i Hi)
    as [Hlow Hhigh].
  pose proof (snapshot_loop_logs dyn_method N tepoch
                (data_custom snap_boundaries data) 0 model i) as H.
  cbv zeta in H. destruct H as [_ H].
  unfold data_custom in H. rewrite data_custom_from_length in H.
  specialize (H ltac:(lia) ltac:(lia)).
  rewrite Nat.sub_0_r, <- data_custom_from_firstn in H.
  assert (Hlogs : logs_of i tr
                  = if (Z.of_nat i >? N)%Z
                    then snd (tepoch_loop step tepoch 0 i m snapshot_data false)
                    else []) by exact H.
  clear H. split; [|split].
  - intros Hle. split; [|now apply Hlow].
    rewrite Hlogs. destruct (Z.gtb_spec (Z.of_nat i) N); [lia | reflexivity].
  - intros Hgt. split; [|now apply Hhigh].
    rewrite Hlogs. destruct (Z.gtb_spec (Z.of_nat i) N); [|lia].
    exact (tepoch_loop_passes i snapshot_data tepoch 0 m).
  - intros Hd. subst N. unfold snap_thres_of. now rewrite Hd.
Qed.

(** C6 (as the code has it). A step is flagged exactly when its prediction
    has a NaN entry. In a pre-training pass the first flagged step is the
    last step of the pass, and the epoch loop ends after that pass, whatever
    number of epochs remains; a pass without a flagged step trains on every
    example. *)
Theorem nan_prediction_halts_pretraining
        (dyn_method : string) (snap0_exists : bool) (loader : nat -> list Example)
        (n e : nat) (model : Model) :
  PyStr.contains "finetune" dyn_method && snap0_exists = false ->
  let predictions := step_predictions step model (loader e) in
  let out := fit_offline step model (loader e) in
  (snd (fst out) = true <-> exists k, first_nan predictions = Some k)
  /\ (forall k, first_nan predictions = Some k ->
        snd out = S k
        /\ snd (epoch_loop step dyn_method snap0_exists loader (S n) e model)
           = [EpochLog 0 (S e) (S k); NaNLog 0])
  /\ (first_nan predictions = None -> snd out = List.length (loader e)).
Proof.
  intros Hmode predictions out.
  pose proof (pass_loop_spec (loader e) model false 0) as Hs.
  cbv zeta in Hs. fold (fit_offline step model (loader e)) in Hs. fold out in Hs.
  fold predictions in Hs.
  assert (Hepoch :
            epoch_loop step dyn_method snap0_exists loader (S n) e model
            = let '(model', flag, steps) := out in
              let log := EpochLog 0 (S e) steps in
              if flag then (model', [log; NaNLog 0])
              else
                let '(model'', tr) :=
                  epoch_loop step dyn_method snap0_exists loader n (S e) model' in
                (model'', log :: tr)).
  { simpl. rewrite Hmode. reflexivity. }
  destruct (first_nan predictions) as [k|] eqn:Hk.
  - destruct Hs as [Hf Hn]. split; [|split].
    + split; [intros _; now exists k | intros _; exact Hf].
    + intros k' Hk'. injection Hk' as <-. split; [exact Hn|].
      rewrite Hepoch. destruct out as [[m f] st]. simpl in *. subst f st.
      reflexivity.
    + discriminate.
  - destruct Hs as [Hf Hn]. split; [|split].
    + split.
      * intros Ht. rewrite Ht in Hf. now destruct (loader e).
      * intros [k Hk']. discriminate.
    + discriminate.
    + intros _. exact Hn.
Qed.

(** C8. With boundaries [100, 250, 400] and mode [finetune], the fine-tuning
    loop logs nothing for snapshot 0, runs the passes of snapshot 1 over the
    stream positions 100..249, plots and saves [_snap1], then runs the passes
    of snapshot 2 over the stream positions 250..399, from the model that the
    loop left after snapshot 1, plots and saves [_snap2], and saves nothing
    else. The passes of either snapshot are [tepoch] passes over all its
    examples, cut short only by a flagged pass: at least one pass each when
    [tepoch] is positive. *)
Theorem finetune_three_snapshots
        (tepoch : nat) (model : Model) (data : nat -> list Example) :
  let tr := snd (dynamic_prediction step "finetune" [100; 250; 400]%Z tepoch model data) in
  let d1 := firstn 150 (skipn 100 (data 1)) in
  let d2 := firstn 150 (skipn 250 (data 2)) in
  (exists (m1 : Model) (tr1 tr2 : list event),
      tr = tr1 ++ [Plot 1; SaveModel "_snap1"] ++ tr2 ++ [Plot 2; SaveModel "_snap2"]
      /\ only_logs 1 tr1 /\ only_logs 2 tr2
      /\ snapshot_passes step tepoch 1 model d1 tr1
      /\ dynamic_prediction step "finetune" [100; 250]%Z tepoch model data
         = (m1, false, tr1 ++ [Plot 1; SaveModel "_snap1"])
      /\ snapshot_passes step tepoch 2 m1 d2 tr2)
  /\ saved_tags tr = ["_snap1"; "_snap2"]
  /\ logs_of 0 tr = []
  /\ passes_of 0 tr = 0
  /\ Nat.min 1 tepoch <= passes_of 1 tr <= tepoch
  /\ Nat.min 1 tepoch <= passes_of 2 tr <= tepoch
  /\ nth 1 (data_custom [100; 250; 400]%Z data) [] = d1
  /\ nth 2 (data_custom [100; 250; 400]%Z data) [] = d2.
Proof.
  intros tr d1 d2.
  assert (Hd1 : collect (data 1) 0%Z 100%Z 250%Z = d1).
  { rewrite collect_window by lia. reflexivity. }
  assert (Hd2 : collect (data 2) 0%Z 250%Z 400%Z = d2).
  { rewrite collect_window by lia. reflexivity. }
  assert (Hshape :
            exists (m1 : Model) (tr1 tr2 : list event),
              tr = tr1 ++ [Plot 1; SaveModel "_snap1"]
                       ++ tr2 ++ [Plot 2; SaveModel "_snap2"]
              /\ only_logs 1 tr1 /\ only_logs 2 tr2
              /\ snapshot_passes step tepoch 1 model d1 tr1
              /\ dynamic_prediction step "finetune" [100; 250]%Z tepoch model data
                 = (m1, false, tr1 ++ [Plot 1; SaveModel "_snap1"])
              /\ snapshot_passes step tepoch 2 m1 d2 tr2).
  { subst tr. unfold dynamic_prediction.
    change (snap_thres_of "finetune") with (-1)%Z.
    unfold data_custom. cbn [data_custom_from snapshot_loop Nat.eqb].
    change (PyStr.contains "modi-fine" "finetune") with false.
    cbn [andb Z.of_nat Z.gtb Z.compare Pos.of_succ_nat Pos.succ].
    rewrite Hd1, Hd2.
    pose proof (tepoch_loop_trace 1 d1 tepoch 0 model false) as H1.
    pose proof (tepoch_loop_passes 1 d1 tepoch 0 model) as P1.
    pose proof (tepoch_loop_flag 1 d1 tepoch 0 model) as F1.
    destruct (tepoch_loop step tepoch 0 1 model d1 false) as [[m1 f1] tr1].
    cbn [fst snd] in H1, P1, F1. subst f1.
    pose proof (tepoch_loop_trace 2 d2 tepoch 0 m1 false) as H2.
    pose proof (tepoch_loop_passes 2 d2 tepoch 0 m1) as P2.
    destruct (tepoch_loop step tepoch 0 2 m1 d2 false) as [[m2 f2] tr2].
    cbn [fst snd] in *.
    exists m1, tr1, tr2.
    change (PyStr.snap_tag 1) with "_snap1".
    change (PyStr.snap_tag 2) with "_snap2".
    split; [rewrite <- !app_assoc; reflexivity|].
    split; [apply H1|]. split; [apply H2|]. split; [exact P1|].
    split; [|exact P2].
    rewrite <- !app_assoc. reflexivity. }
  split; [exact Hshape|].
  destruct Hshape as (m1 & tr1 & tr2 & Htr & Ho1 & Ho2 & _).
  pose proof (passes_above_threshold "finetune" [100; 250; 400]%Z tepoch model data 1)
    as Hp1.
  pose proof (passes_above_threshold "finetune" [100; 250; 400]%Z tepoch model data 2)
    as Hp2.
  cbv zeta in Hp1, Hp2. fold tr in Hp1, Hp2.
  change (snap_thres_of "finetune") with (-1)%Z in Hp1, Hp2.
  split; [|split; [|split; [|split; [|split; [|split]]]]].
  - rewrite Htr, !saved_tags_app.
    rewrite (proj2 (only_logs_milestones 1 tr1 Ho1)).
    rewrite (proj2 (only_logs_milestones 2 tr2 Ho2)).
    reflexivity.
  - rewrite Htr, !logs_of_app.
    rewrite (only_logs_logs_other 1 0 tr1 Ho1) by discriminate.
    rewrite (only_logs_logs_other 2 0 tr2 Ho2) by discriminate.
    reflexivity.
  - rewrite Htr, !passes_of_app.
    rewrite (only_logs_passes_other 1 0 tr1 Ho1) by discriminate.
    rewrite (only_logs_passes_other 2 0 tr2 Ho2) by discriminate.
    reflexivity.
  - apply Hp1; [simpl; lia | lia].
  - apply Hp2; [simpl; lia | lia].
  - unfold data_custom. cbn [data_custom_from nth]. exact Hd1.
  - unfold data_custom. cbn [data_custom_from nth]. exact Hd2.
Qed.

End TrainerFacts.

(** Witness: three snapshots of one example each, two passes asked for, a
    NaN prediction on the example of snapshot 2. Under [modi-fine1] snapshot
    1, at the threshold, gets no pass; under [finetune] the first pass of
    snapshot 2 is flagged at its first step and no second pass follows. *)
Lemma fine_tune_runs_above_threshold_witness :
  (logs_of 1 (snd (dynamic_prediction (Examples.nan_step 30) "modi-fine1"
                                      [1; 2; 3]%Z 2 0 Examples.stream3)) = []
   /\ passes_of 1 (snd (dynamic_prediction (Examples.nan_step 30) "modi-fine1"
                                           [1; 2; 3]%Z 2 0 Examples.stream3)) = 0)
  /\ (let tr := snd (dynamic_prediction (Examples.nan_step 30) "finetune"
                                        [1; 2; 3]%Z 2 0 Examples.stream3) in
      let snapshot_data := nth 2 (data_custom [1; 2; 3]%Z Examples.stream3) [] in
      let m := fst (fst (dynamic_prediction (Examples.nan_step 30) "finetune"
                                            (firstn 2 [1; 2; 3]%Z) 2 0
                                            Examples.stream3)) in
      snapshot_passes (Examples.nan_step 30) 2 2 m snapshot_data (logs_of 2 tr)
      /\ Nat.min 1 2 <= passes_of 2 tr <= 2
      /\ (quiet (Examples.nan_step 30) -> passes_of 2 tr = 2))
  /\ snd (dynamic_prediction (Examples.nan_step 30) "finetune"
                             [1; 2; 3]%Z 2 0 Examples.stream3)
     = [EpochLog 1 1 1; EpochLog 1 2 1; Plot 1; SaveModel "_snap1";
        EpochLog 2 1 1; NaNLog 2; Plot 2; SaveModel "_snap2"].
Proof.
  split; [|split; [|reflexivity]].
  - apply (fine_tune_runs_above_threshold nat Z (Examples.nan_step 30) "modi-fine1"
             [1; 2; 3]%Z 2 0 Examples.stream3 1).
    + simpl. lia.
    + vm_compute. discriminate.
  - apply (fine_tune_runs_above_threshold nat Z (Examples.nan_step 30) "finetune"
             [1; 2; 3]%Z 2 0 Examples.stream3 2).
    + simpl. lia.
    + vm_compute. reflexivity.
Defined.

(** C1 as stated fails: under [modi-fine1] the threshold is 1; snapshot 1,
    which is not above it, gets no pass, and snapshot 2, which is above it,
    gets all [tepoch = 2] passes. *)
Lemma fine_tune_at_threshold_counterexample :
  let tr := snd (dynamic_prediction Examples.finite_step "modi-fine1"
                                    [1; 2; 3]%Z 2 0 Examples.stream3) in
  snap_thres_of "modi-fine1" = 1%Z
  /\ passes_of 1 tr = 0
  /\ passes_of 2 tr = 2.
Proof. repeat split. Qed.

(** Witness: the hypotheses hold for mode
    [finetune] without a saved [_snap0]; the second example is flagged. *)
Lemma nan_prediction_halts_pretraining_witness :
  let predictions :=
    step_predictions (Examples.nan_step 20) 0 (Examples.stream3 0) in
  let out := fit_offline (Examples.nan_step 20) 0 (Examples.stream3 0) in
  (snd (fst out) = true <-> exists k, first_nan predictions = Some k)
  /\ (forall k, first_nan predictions = Some k ->
        snd out = S k
        /\ snd (epoch_loop (Examples.nan_step 20) "finetune" false
                           Examples.stream3 (S 4) 0 0)
           = [EpochLog 0 (S 0) (S k); NaNLog 0])
  /\ (first_nan predictions = None -> snd out = List.length (Examples.stream3 0)).
Proof.
  apply (nan_prediction_halts_pretraining nat Z (Examples.nan_step 20)
           "finetune" false Examples.stream3 4 0 0).
  reflexivity.
Defined.

(** C6 as stated fails for infinities: a prediction [+inf] is non-finite, yet
    no step is flagged, the pass trains on all three examples and both epochs
    are run. *)
Lemma infinite_prediction_not_flagged :
  existsb non_finite (snd (Examples.inf_step 0 10%Z)) = true
  /\ fit_offline Examples.inf_step 0 (Examples.stream3 0) = (3, false, 3)
  /\ snd (epoch_loop Examples.inf_step "finetune" false Examples.stream3 2 0 0)
     = [EpochLog 0 1 3; EpochLog 0 2 3].
Proof. repeat split. Qed.


End MetaRunnerFacts.


(** * Further properties of the scheduler *)

Module MetaRunnerExtras.
Import MetaRunner.

Section TrainerExtras.

Variable Model : Type.
Variable Example : Type.
Variable step : Model -> Example -> Model * list spec_float.

(** The checkpoints of the snapshot loop that starts at a positive index. *)
Lemma snapshot_loop_saved (dyn_method : string) (tepoch : nat)
      (snaps : list (list Example)) :
  forall (s : nat) (model : Model) (flag : bool),
    1 <= s ->
    saved_tags (snd (snapshot_loop step dyn_method (snap_thres_of dyn_method)
                                   tepoch s snaps model flag))
    = map PyStr.snap_tag
          (filter (checkpointed dyn_method) (seq s (List.length snaps))).
Proof.
  induction snaps as [|d snaps IH]; intros s model flag Hs; [reflexivity|].
  cbn [snapshot_loop List.length seq filter].
  destruct (Nat.eqb_spec s 0) as [->|_]; [lia|].
  assert (Hfit :
            forall out : Model * bool * list event,
              out = (if (Z.of_nat s >? snap_thres_of dyn_method)%Z
                     then
                       let '(m, f, tr) :=
                         tepoch_loop step tepoch 0 s model d flag in
                       (m, f, tr ++ [Plot s])
                     else (model, flag, [])) ->
              saved_tags (snd out) = []).
  { intros out ->. destruct (Z.of_nat s >? snap_thres_of dyn_method)%Z;
      [|reflexivity].
    pose proof (MetaRunnerFacts.tepoch_loop_trace Model Example step s d tepoch
                  0 model flag) as Ht.
    destruct (tepoch_loop step tepoch 0 s model d flag) as [[m f] tr].
    cbn [snd] in *. destruct Ht as [Ho _].
    rewrite MetaRunnerFacts.saved_tags_app.
    now rewrite (proj2 (MetaRunnerFacts.only_logs_milestones s tr Ho)). }
  destruct (if (Z.of_nat s >? snap_thres_of dyn_method)%Z
            then
              let '(m, f, tr) := tepoch_loop step tepoch 0 s model d flag in
              (m, f, tr ++ [Plot s])
            else (model, flag, [])) as [[model1 flag1] tr_fit] eqn:Hout.
  specialize (Hfit _ eq_refl). cbn [snd] in Hfit.
  specialize (IH (S s) model1 flag1 ltac:(lia)).
  destruct (snapshot_loop step dyn_method (snap_thres_of dyn_method) tepoch
                          (S s) snaps model1 flag1) as [[model2 flag2] tr_rest].
  cbn [snd] in *.
  rewrite !MetaRunnerFacts.saved_tags_app, Hfit, IH. cbn [app].
  unfold checkpointed at 2.
  destruct (PyStr.contains "modi-fine" dyn_method
            && (Z.of_nat s <=? snap_thres_of dyn_method)%Z); reflexivity.
Qed.

Lemma dynamic_prediction_saved
      (dyn_method : string) (snap_boundaries : list Z) (tepoch : nat)
      (model : Model) (data : nat -> list Example) :
  saved_tags (snd (dynamic_prediction step dyn_method snap_boundaries tepoch
                                      model data))
  = map PyStr.snap_tag
        (filter (checkpointed dyn_method)
                (seq 1 (List.length snap_boundaries - 1))).
Proof.
  unfold dynamic_prediction, data_custom.
  destruct snap_boundaries as [|b bs]; [reflexivity|].
  cbn [data_custom_from snapshot_loop Nat.eqb List.length].
  rewrite snapshot_loop_saved by lia.
  rewrite MetaRunnerFacts.data_custom_from_length.
  now rewrite Nat.sub_succ, Nat.sub_0_r.
Qed.

(** X1. The checkpoints that [dynamic_prediction] writes depend on the mode
    string and the number of boundaries only: one per snapshot 1, 2, ... in
    increasing order, leaving out, under a [modi-fine] mode, the snapshots at
    or below the threshold. The trainer, the data and a pass stopped by a NaN
    prediction change nothing. *)
Theorem dynamic_prediction_checkpoints
        (dyn_method : string) (snap_boundaries : list Z) (tepoch : nat)
        (model : Model) (data : nat -> list Example) :
  saved_tags (snd (dynamic_prediction step dyn_method snap_boundaries tepoch
                                      model data))
  = map PyStr.snap_tag
        (filter (checkpointed dyn_method)
                (seq 1 (List.length snap_boundaries - 1))).
Proof. apply dynamic_prediction_saved. Qed.

(** X2. [dynamic_prediction] never reports a divergence: the flag it returns
    is 0 for every trainer and every stream, also when a pass was stopped by
    a NaN prediction. *)
Theorem dynamic_prediction_flag_cleared
        (dyn_method : string) (snap_boundaries : list Z) (tepoch : nat)
        (model : Model) (data : nat -> list Example) :
  snd (fst (dynamic_prediction step dyn_method snap_boundaries tepoch model data))
  = false.
Proof. apply MetaRunnerFacts.snapshot_loop_flag. Qed.

Lemma firstn_app_skipn {A : Type} (a c : nat) (l : list A) :
  firstn a l ++ firstn c (skipn a l) = firstn (a + c) l.
Proof.
  revert l. induction a as [|a IH]; intros [|x l]; simpl;
    try reflexivity.
  - now rewrite firstn_nil.
  - now rewrite IH.
Qed.

Lemma skipn_add {A : Type} (a b : nat) (l : list A) :
  skipn a (skipn b l) = skipn (b + a) l.
Proof.
  revert l. induction b as [|b IH]; intros [|x l]; simpl;
    try reflexivity.
  - now rewrite skipn_nil.
  - apply IH.
Qed.

Lemma last_cons_default {A : Type} (bs : list A) :
  forall b d : A, last (b :: bs) d = last bs b.
Proof.
  induction bs as [|c bs IH]; intros b d; [reflexivity|].
  change (last (b :: c :: bs) d) with (last (c :: bs) d).
  now rewrite (IH c d), (IH c b).
Qed.

Lemma nondecreasing_last (bs : list Z) :
  forall b : Z, nondecreasing_from b bs = true -> (b <= last bs b)%Z.
Proof.
  induction bs as [|c bs IH]; intros b Hnd.
  - simpl. lia.
  - cbn [nondecreasing_from] in Hnd. apply andb_true_iff in Hnd.
    destruct Hnd as [Hc Hnd]. apply Z.leb_le in Hc.
    rewrite last_cons_default. specialize (IH c Hnd). lia.
Qed.

(** The windows that follow a non-negative start tile the stream. *)
Lemma data_custom_from_tiles (stream : list Example) (bs : list Z) :
  forall (s : nat) (start : Z),
    (0 <= start)%Z ->
    nondecreasing_from start bs = true ->
    List.concat (data_custom_from s start bs (fun _ => stream))
    = firstn (Z.to_nat (last bs start - start)) (skipn (Z.to_nat start) stream).
Proof.
  induction bs as [|b bs IH]; intros s start H0 Hnd.
  - simpl. now rewrite Z.sub_diag.
  - pose proof Hnd as Hnd'.
    cbn [nondecreasing_from] in Hnd. apply andb_true_iff in Hnd.
    destruct Hnd as [Hb Hnd]. apply Z.leb_le in Hb.
    pose proof (nondecreasing_last bs b Hnd) as Hlast.
    cbn [data_custom_from List.concat].
    rewrite MetaRunnerFacts.collect_window by lia.
    rewrite IH by (assumption || lia).
    rewrite last_cons_default, Z.sub_0_r.
    replace (Z.to_nat b) with (Z.to_nat start + Z.to_nat (b - start)) by lia.
    rewrite <- skipn_add, firstn_app_skipn.
    f_equal. lia.
Qed.

(** X3. When the boundaries are non-negative and never decrease, and the
    stream does not depend on the snapshot index, the snapshots of
    [data_custom] tile the stream: taken in order they are the stream up to
    the last boundary, every example in exactly one snapshot. *)
Theorem data_custom_tiles_stream (stream : list Example) (snap_boundaries : list Z) :
  nondecreasing_from 0 snap_boundaries = true ->
  List.concat (data_custom snap_boundaries (fun _ => stream))
  = firstn (Z.to_nat (last snap_boundaries 0%Z)) stream.
Proof.
  intros Hnd. unfold data_custom.
  destruct snap_boundaries as [|b bs]; [reflexivity|].
  cbn [nondecreasing_from] in Hnd. apply andb_true_iff in Hnd.
  destruct Hnd as [Hb Hnd]. apply Z.leb_le in Hb.
  pose proof (nondecreasing_last bs b Hnd) as Hlast.
  cbn [data_custom_from List.concat].
  rewrite MetaRunnerFacts.collect_inside by lia.
  rewrite data_custom_from_tiles by (assumption || lia).
  rewrite last_cons_default, Z.sub_0_r.
  rewrite firstn_app_skipn. f_equal. lia.
Qed.

(** The pre-training loop logs snapshot 0 only; it runs at most [n] passes,
    all of them when no step is flagged, none when the checkpoint of
    snapshot 0 is found. *)
Lemma epoch_loop_trace (dyn_method : string) (snap0_exists : bool)
      (loader : nat -> list Example) (n : nat) :
  forall (e : nat) (model : Model),
    let tr := snd (epoch_loop step dyn_method snap0_exists loader n e model) in
    Forall pretrain_event tr
    /\ passes_of 0 tr <= n
    /\ (PyStr.contains "finetune" dyn_method && snap0_exists = true ->
        passes_of 0 tr = 0)
    /\ (PyStr.contains "finetune" dyn_method && snap0_exists = false ->
        quiet step -> passes_of 0 tr = n).
Proof.
  induction n as [|n IH]; intros e model; cbn [epoch_loop].
  - repeat split; try constructor; reflexivity.
  - destruct (PyStr.contains "finetune" dyn_method && snap0_exists) eqn:Hc.
    + cbn [snd]. repeat split; try (repeat constructor); try discriminate.
      unfold passes_of. simpl. lia.
    + pose proof (MetaRunnerFacts.pass_loop_quiet Model Example step (loader e))
        as Hq.
      unfold fit_offline.
      destruct (pass_loop step model (loader e) false 0)
        as [[model' flag] steps] eqn:Hp.
      destruct flag; cbn [snd].
      * split; [repeat constructor|]. unfold passes_of. simpl.
        split; [lia|]. split; [discriminate|].
        intros _ Hquiet. specialize (Hq Hquiet model 0).
        rewrite Hp in Hq. discriminate.
      * specialize (IH (S e) model'). cbv zeta in IH.
        destruct (epoch_loop step dyn_method snap0_exists loader n (S e) model')
          as [model'' tr].
        cbn [snd] in *. destruct IH as (Hall & Hle & _ & Hall').
        split; [constructor; [reflexivity | assumption]|].
        unfold passes_of in *. simpl.
        split; [lia|]. split; [discriminate|].
        intros _ Hquiet. now rewrite Hall'.
Qed.

Lemma pretrain_trace_facts (tr : list event) :
  Forall pretrain_event tr ->
  saved_tags tr = [] /\ forall i, 1 <= i -> passes_of i tr = 0.
Proof.
  intros H. induction H as [|ev tr Hev _ [IH1 IH2]].
  - split; [reflexivity | intros; reflexivity].
  - destruct ev; simpl in Hev; try contradiction.
    + subst. split; [exact IH1|]. intros i Hi.
      unfold passes_of in *. simpl.
      destruct (Nat.eqb_spec i 0); [lia | now apply IH2].
    + split; [exact IH1 | exact IH2].
    + split; [exact IH1 | exact IH2].
Qed.

Lemma saved_tags_map_save (l : list nat) :
  saved_tags (map (fun i => SaveModel (PyStr.snap_tag i)) l) = map PyStr.snap_tag l.
Proof. induction l as [|i l IH]; simpl; [reflexivity | now rewrite <- IH]. Qed.

Lemma passes_of_map_save (i : nat) (l : list nat) :
  passes_of i (map (fun j => SaveModel (PyStr.snap_tag j)) l) = 0.
Proof. unfold passes_of. induction l as [|j l IH]; simpl; [reflexivity | exact IH]. Qed.

(** X4. In a mode that holds [fulltrain], [train] saves one checkpoint, tagged
    with the snapshot index it was called with; in a mode that holds
    [pretrain] and not [fulltrain] it saves one checkpoint per boundary,
    [_snap0], [_snap1], ... In both cases no fine-tuning pass is run. *)
Theorem train_without_fine_tuning
        (dyn_method : string) (snap_boundaries : list Z) (epochs tepoch : nat)
        (snap0_exists : bool) (loader : nat -> list Example)
        (test_data : nat -> list Example) (snap_idx : nat) (model : Model) :
  PyStr.contains "fulltrain" dyn_method || PyStr.contains "pretrain" dyn_method
  = true ->
  let tr := snd (train step dyn_method snap_boundaries epochs tepoch snap0_exists
                       loader test_data snap_idx model) in
  saved_tags tr
  = (if PyStr.contains "fulltrain" dyn_method
     then [PyStr.snap_tag snap_idx]
     else map PyStr.snap_tag (seq 0 (List.length snap_boundaries)))
  /\ forall i, 1 <= i -> passes_of i tr = 0.
Proof.
  intros Hmode tr. subst tr. unfold train.
  pose proof (epoch_loop_trace dyn_method snap0_exists loader epochs 0 model) as Ht.
  destruct (epoch_loop step dyn_method snap0_exists loader epochs 0 model)
    as [model1 tr_pre].
  cbn [snd] in Ht. destruct Ht as [Hall _].
  destruct (pretrain_trace_facts tr_pre Hall) as [Hsaved Hpass].
  destruct (PyStr.contains "fulltrain" dyn_method).
  - cbn [snd]. split.
    + now rewrite !MetaRunnerFacts.saved_tags_app, Hsaved.
    + intros i Hi. rewrite !MetaRunnerFacts.passes_of_app, Hpass by assumption.
      reflexivity.
  - cbn [orb] in Hmode. rewrite Hmode. cbn [snd]. split.
    + now rewrite !MetaRunnerFacts.saved_tags_app, Hsaved, saved_tags_map_save.
    + intros i Hi.
      rewrite !MetaRunnerFacts.passes_of_app, Hpass, passes_of_map_save
        by assumption.
      reflexivity.
Qed.

(** X5. In a fine-tuning mode (neither [fulltrain] nor [pretrain] in the mode
    string) with at least one epoch, [train] saves [_snap0] after
    pre-training and then the checkpoints of the snapshot loop; without
    [modi-fine] in the mode that is one checkpoint per snapshot, [_snap0],
    [_snap1], ... in this order, whatever the trainer does. Under [modi-fine]
    the checkpoints up to the snapshot index of the call are written first.
    (With no epoch Python fails on the loop variable that [train] reads after
    the loop; that case is outside the model.) *)
Theorem train_fine_tuning_checkpoints
        (dyn_method : string) (snap_boundaries : list Z) (epochs tepoch : nat)
        (snap0_exists : bool) (loader : nat -> list Example)
        (test_data : nat -> list Example) (snap_idx : nat) (model : Model) :
  1 <= epochs ->
  PyStr.contains "fulltrain" dyn_method = false ->
  PyStr.contains "pretrain" dyn_method = false ->
  let tr := snd (train step dyn_method snap_boundaries epochs tepoch snap0_exists
                       loader test_data snap_idx model) in
  saved_tags tr
  = (if PyStr.contains "modi-fine" dyn_method
     then map PyStr.snap_tag (seq 0 (S snap_idx))
     else [])
    ++ PyStr.snap_tag 0
    :: map PyStr.snap_tag
         (filter (checkpointed dyn_method)
                 (seq 1 (List.length snap_boundaries - 1)))
  /\ (PyStr.contains "modi-fine" dyn_method = false ->
      saved_tags tr
      = map PyStr.snap_tag (seq 0 (S (List.length snap_boundaries - 1)))).
Proof.
  intros _ Hfull Hpre tr.
  assert (Hgen :
            saved_tags tr
            = (if PyStr.contains "modi-fine" dyn_method
               then map PyStr.snap_tag (seq 0 (S snap_idx))
               else [])
              ++ PyStr.snap_tag 0
              :: map PyStr.snap_tag
                   (filter (checkpointed dyn_method)
                           (seq 1 (List.length snap_boundaries - 1)))).
  { subst tr. unfold train. rewrite Hfull, Hpre.
    pose proof (epoch_loop_trace dyn_method snap0_exists loader epochs 0 model)
      as Ht.
    destruct (epoch_loop step dyn_method snap0_exists loader epochs 0 model)
      as [model1 tr_pre].
    cbn [snd] in Ht. destruct Ht as [Hall _].
    destruct (pretrain_trace_facts tr_pre Hall) as [Hsaved _].
    pose proof (dynamic_prediction_saved dyn_method snap_boundaries tepoch
                  model1 test_data) as Hdyn.
    destruct (dynamic_prediction step dyn_method snap_boundaries tepoch model1
                                 test_data) as [[model2 flag] tr_dyn].
    cbn [snd] in *.
    rewrite !MetaRunnerFacts.saved_tags_app, Hsaved, Hdyn. cbn [app].
    destruct (PyStr.contains "modi-fine" dyn_method).
    - now rewrite saved_tags_map_save.
    - reflexivity. }
  split; [exact Hgen|].
  intros Hmodi. rewrite Hgen, Hmodi. cbn [app seq map]. f_equal. f_equal.
  apply forallb_filter_id. apply forallb_forall. intros i _.
  unfold checkpointed. now rewrite Hmodi.
Qed.

(** X6. The number of pre-training passes is at most the number of epochs;
    when the mode holds [finetune] and the checkpoint of snapshot 0 exists no
    pass is run; otherwise, when no step returns a NaN prediction, every
    epoch is run. *)
Theorem pretraining_pass_count
        (dyn_method : string) (snap0_exists : bool) (loader : nat -> list Example)
        (epochs : nat) (model : Model) :
  let tr := snd (epoch_loop step dyn_method snap0_exists loader epochs 0 model) in
  passes_of 0 tr <= epochs
  /\ (PyStr.contains "finetune" dyn_method && snap0_exists = true ->
      passes_of 0 tr = 0)
  /\ (PyStr.contains "finetune" dyn_method && snap0_exists = false ->
      quiet step -> passes_of 0 tr = epochs).
Proof.
  intros tr.
  destruct (epoch_loop_trace dyn_method snap0_exists loader epochs 0 model)
    as (_ & H1 & H2 & H3).
  repeat split; assumption.
Qed.

End TrainerExtras.

(** Witness: three boundaries that never decrease. *)
Lemma data_custom_tiles_stream_witness :
  List.concat (data_custom [1; 2; 3]%Z (fun _ => Examples.stream3 0))
  = firstn (Z.to_nat (last [1; 2; 3]%Z 0%Z)) (Examples.stream3 0).
Proof.
  apply (data_custom_tiles_stream Z (Examples.stream3 0) [1; 2; 3]%Z).
  reflexivity.
Defined.

(** Witness: the mode [pretrain] with three boundaries. *)
Lemma train_without_fine_tuning_witness :
  let tr := snd (train Examples.finite_step "pretrain" [1; 2; 3]%Z 2 2 false
                       Examples.stream3 Examples.stream3 0 0) in
  saved_tags tr
  = (if PyStr.contains "fulltrain" "pretrain"
     then [PyStr.snap_tag 0]
     else map PyStr.snap_tag (seq 0 (List.length [1; 2; 3]%Z)))
  /\ forall i, 1 <= i -> passes_of i tr = 0.
Proof.
  apply (train_without_fine_tuning nat Z Examples.finite_step "pretrain"
           [1; 2; 3]%Z 2 2 false Examples.stream3 Examples.stream3 0 0).
  reflexivity.
Defined.

(** Witness: the mode [finetune] with two epochs and three boundaries. *)
Lemma train_fine_tuning_checkpoints_witness :
  let tr := snd (train (Examples.nan_step 20) "finetune" [1; 2; 3]%Z 2 2 false
                       Examples.stream3 Examples.stream3 0 0) in
  saved_tags tr
  = (if PyStr.contains "modi-fine" "finetune"
     then map PyStr.snap_tag (seq 0 (S 0))
     else [])
    ++ PyStr.snap_tag 0
    :: map PyStr.snap_tag
         (filter (checkpointed "finetune") (seq 1 (List.length [1; 2; 3]%Z - 1)))
  /\ (PyStr.contains "modi-fine" "finetune" = false ->
      saved_tags tr
      = map PyStr.snap_tag (seq 0 (S (List.length [1; 2; 3]%Z - 1)))).
Proof.
  apply (train_fine_tuning_checkpoints nat Z (Examples.nan_step 20) "finetune"
           [1; 2; 3]%Z 2 2 false Examples.stream3 Examples.stream3 0 0).
  - lia.
  - reflexivity.
  - reflexivity.
Defined.

(** ** Early stopping *)

Section EarlyStopExtras.

Variable non_increasing : list Q -> bool.

Lemma py_max_first (x : Q) (post : list Q) :
  Forall (fun y => (y <= x)%Q) post -> EarlyStop.py_max x post = x.
Proof.
  intros H. induction H as [|y post Hy _ IH]; simpl; [reflexivity|].
  unfold Qltb. apply Qle_bool_iff in Hy. now rewrite Hy.
Qed.

Lemma py_max_later (x : Q) (post : list Q) (pre : list Q) :
  Forall (fun y => (y <= x)%Q) post ->
  forall best : Q,
    (best < x)%Q ->
    Forall (fun y => (y < x)%Q) pre ->
    EarlyStop.py_max best (pre ++ x :: post) = x.
Proof.
  intros Hpost. induction pre as [|y pre IH]; intros best Hb Hpre; simpl.
  - assert (Hlt : Qltb best x = true).
    { unfold Qltb. apply negb_true_iff. apply not_true_iff_false.
      rewrite Qle_bool_iff. now apply Qlt_not_le. }
    rewrite Hlt. now apply py_max_first.
  - inversion Hpre as [|? ? Hy Hpre']; subst.
    destruct (Qltb best y); now apply IH.
Qed.

Lemma py_index_first (x : Q) (post pre : list Q) :
  Forall (fun y => (y < x)%Q) pre ->
  EarlyStop.py_index x (pre ++ x :: post) = List.length pre.
Proof.
  intros H. induction H as [|y pre Hy _ IH]; simpl.
  - assert (Hx : Qeq_bool x x = true) by (apply Qeq_bool_iff; reflexivity).
    now rewrite Hx.
  - assert (Hne : Qeq_bool y x = false).
    { apply not_true_iff_false. rewrite Qeq_bool_iff. intros E.
      rewrite E in Hy. now apply Qlt_irrefl in Hy. }
    now rewrite Hne, IH.
Qed.

(** X7. [eval_termination] raises on an empty history; on a history of 1 to
    20 scores it answers False, whatever the patience and the scores; and it
    answers True whenever the best score was first reached more than 20
    epochs before the end. *)
Theorem eval_termination_patience (early_stop : Z) :
  (exists msg : string,
      EarlyStop.eval_termination non_increasing early_stop []
      = Err (ValueError msg))
  /\ (forall criterion : list Q,
         criterion <> [] ->
         List.length criterion <= 20 ->
         EarlyStop.eval_termination non_increasing early_stop criterion = Ok false)
  /\ (forall (pre : list Q) (x : Q) (post : list Q),
         Forall (fun y => (y < x)%Q) pre ->
         Forall (fun y => (y <= x)%Q) post ->
         20 <= List.length post ->
         EarlyStop.eval_termination non_increasing early_stop (pre ++ x :: post)
         = Ok true).
Proof.
  split; [eexists; reflexivity|]. split.
  - intros criterion Hne Hlen. unfold EarlyStop.eval_termination.
    destruct (Nat.ltb_spec 20 (List.length criterion)) as [H|_]; [lia|].
    cbn [andb]. destruct criterion as [|x rest]; [congruence|].
    destruct (Nat.ltb_spec
                20 (List.length (x :: rest)
                    - EarlyStop.py_index (EarlyStop.py_max x rest) (x :: rest)))
      as [H|_]; [lia | reflexivity].
  - intros pre x post Hpre Hpost Hlen. unfold EarlyStop.eval_termination.
    destruct ((20 <? List.length (pre ++ x :: post))%nat
              && non_increasing (EarlyStop.last_slice early_stop (pre ++ x :: post)));
      [reflexivity|].
    assert (Hmax : match pre ++ x :: post with
                   | [] => x
                   | y :: rest => EarlyStop.py_max y rest
                   end = x).
    { destruct pre as [|p pre']; simpl.
      - now apply py_max_first.
      - inversion Hpre; subst. now apply py_max_later. }
    destruct (pre ++ x :: post) as [|y rest] eqn:Hc.
    { destruct pre; discriminate. }
    rewrite Hmax, <- Hc, py_index_first by assumption.
    rewrite length_app. cbn [List.length].
    destruct (Nat.ltb_spec 20 (List.length pre + S (List.length post)
                               - List.length pre)); [reflexivity | lia].
Qed.

End EarlyStopExtras.

End MetaRunnerExtras.


(** * Further properties of the ranking metrics *)

Module MetricsExtras.
Import Metrics.

#[local] Open Scope R_scope.
#[local] Arguments INR : simpl never.

Lemma hit_count_filter (rec_list test_pos : list Z) :
  hit_count rec_list test_pos
  = List.length (filter (fun x => existsb (Z.eqb x) test_pos) rec_list).
Proof.
  unfold hit_count, isin.
  induction rec_list as [|x l IH]; simpl; [reflexivity|].
  destruct (existsb (Z.eqb x) test_pos); simpl; now rewrite IH.
Qed.

Lemma hit_count_le_length (rec_list test_pos : list Z) :
  (hit_count rec_list test_pos <= List.length rec_list)%nat.
Proof. rewrite hit_count_filter. apply filter_length_le. Qed.

(** Distinct recommended items hit at most as many items as there are test
    positives. *)
Lemma hit_count_le_test (rec_list test_pos : list Z) :
  NoDup rec_list -> (hit_count rec_list test_pos <= List.length test_pos)%nat.
Proof.
  intros Hnd. rewrite hit_count_filter.
  apply NoDup_incl_length; [now apply NoDup_filter|].
  intros x Hx. apply filter_In in Hx. destruct Hx as [_ Hx].
  now apply TesterFacts.existsb_Zeqb.
Qed.

Lemma hit_count_pos_iff (rec_list test_pos : list Z) :
  (0 < hit_count rec_list test_pos)%nat
  <-> exists x, In x rec_list /\ In x test_pos.
Proof.
  rewrite hit_count_filter. split.
  - intros H.
    destruct (filter (fun x => existsb (Z.eqb x) test_pos) rec_list)
      as [|x l] eqn:Hf; [simpl in H; lia|].
    assert (Hin : In x (filter (fun x => existsb (Z.eqb x) test_pos) rec_list))
      by (rewrite Hf; now left).
    apply filter_In in Hin. destruct Hin as [H1 H2].
    exists x. split; [assumption | now apply TesterFacts.existsb_Zeqb].
  - intros (x & H1 & H2).
    assert (Hin : In x (filter (fun x => existsb (Z.eqb x) test_pos) rec_list)).
    { apply filter_In. split; [assumption | now apply TesterFacts.existsb_Zeqb]. }
    destruct (filter (fun x => existsb (Z.eqb x) test_pos) rec_list);
      [contradiction | simpl; lia].
Qed.

Lemma INR_length_pos {A : Type} (l : list A) : l <> [] -> 0 < INR (List.length l).
Proof.
  intros H. destruct l; [congruence|]. apply lt_0_INR. simpl. lia.
Qed.

Lemma ratio_bounds (h n : nat) : (h <= n)%nat -> (0 < n)%nat -> 0 <= INR h / INR n <= 1.
Proof.
  intros Hle Hn. apply le_INR in Hle. apply lt_0_INR in Hn.
  pose proof (pos_INR h) as Hh. split.
  - apply Rmult_le_pos; [assumption|]. now apply Rlt_le, Rinv_0_lt_compat.
  - apply Rmult_le_reg_r with (INR n); [assumption|].
    unfold Rdiv. rewrite Rmult_assoc, Rinv_l by lra. lra.
Qed.

(** X8. Precision lies between 0 and 1 for a non-empty recommendation list;
    recall lies between 0 and 1 for a non-empty list of test positives when
    the recommended items are distinct. *)
Theorem precision_recall_bounds (rec_list test_pos : list Z) :
  rec_list <> [] ->
  test_pos <> [] ->
  0 <= measure_precision rec_list test_pos <= 1
  /\ (NoDup rec_list -> 0 <= measure_recall rec_list test_pos <= 1).
Proof.
  intros Hrec Htest. unfold measure_precision, measure_recall. split.
  - apply ratio_bounds; [apply hit_count_le_length|].
    destruct rec_list; [congruence | simpl; lia].
  - intros Hnd. apply ratio_bounds; [now apply hit_count_le_test|].
    destruct test_pos; [congruence | simpl; lia].
Qed.

(** X9. For non-empty lists F1 is twice the hit count over the sum of the
    two list lengths; it is 0 exactly when nothing is hit, and at most 1 when
    the recommended items are distinct. *)
Theorem f1_closed_form (rec_list test_pos : list Z) :
  rec_list <> [] ->
  test_pos <> [] ->
  measure_f1 rec_list test_pos
  = 2 * INR (hit_count rec_list test_pos)
    / (INR (List.length rec_list) + INR (List.length test_pos))
  /\ (measure_f1 rec_list test_pos = 0 <-> hit_count rec_list test_pos = 0%nat)
  /\ (NoDup rec_list -> measure_f1 rec_list test_pos <= 1).
Proof.
  intros Hrec Htest.
  pose proof (INR_length_pos rec_list Hrec) as Hn.
  pose proof (INR_length_pos test_pos Htest) as Ht.
  pose proof (pos_INR (hit_count rec_list test_pos)) as Hh.
  set (h := INR (hit_count rec_list test_pos)) in *.
  set (n := INR (List.length rec_list)) in *.
  set (t := INR (List.length test_pos)) in *.
  assert (Hform : measure_f1 rec_list test_pos = 2 * h / (n + t)).
  { unfold measure_f1, measure_recall, measure_precision. fold h n t.
    destruct (Req_dec_T (h / t + h / n) 0) as [Hz|Hnz].
    - assert (Hh0 : h = 0).
      { assert (0 <= h / t) by (apply Rmult_le_pos;
                                 [assumption | now apply Rlt_le, Rinv_0_lt_compat]).
        assert (0 <= h / n) by (apply Rmult_le_pos;
                                 [assumption | now apply Rlt_le, Rinv_0_lt_compat]).
        assert (Hq : h / t = 0) by lra.
        apply (Rmult_eq_compat_r t) in Hq.
        unfold Rdiv in Hq. rewrite Rmult_assoc, Rinv_l, Rmult_0_l in Hq by lra.
        lra. }
      rewrite Hh0. unfold Rdiv. now rewrite Rmult_0_r, Rmult_0_l.
    - assert (Hh0 : h <> 0).
      { intros E. apply Hnz. rewrite E. unfold Rdiv. now rewrite !Rmult_0_l, Rplus_0_l. }
      assert (Hhp : 0 < h) by lra.
      assert (0 < h * n) by now apply Rmult_lt_0_compat.
      assert (0 < h * t) by now apply Rmult_lt_0_compat.
      field. repeat split; lra. }
  split; [exact Hform|]. split.
  - rewrite Hform. split.
    + intros E. apply (Rmult_eq_compat_r (n + t)) in E.
      unfold Rdiv in E. rewrite Rmult_assoc, Rinv_l, Rmult_0_l in E by lra.
      assert (Hh0 : h = 0) by lra.
      subst h. now apply INR_eq.
    + intros E. subst h. rewrite E. change (INR 0) with 0.
      unfold Rdiv. now rewrite Rmult_0_r, Rmult_0_l.
  - intros Hnd. rewrite Hform.
    pose proof (le_INR _ _ (hit_count_le_length rec_list test_pos)) as H1.
    pose proof (le_INR _ _ (hit_count_le_test rec_list test_pos Hnd)) as H2.
    fold h n in H1. fold h t in H2.
    apply Rmult_le_reg_r with (n + t); [lra|].
    unfold Rdiv. rewrite Rmult_assoc, Rinv_l by lra. lra.
Qed.

(** X10. The hit ratio is 1 exactly when some recommended item is a test
    positive, and 0 otherwise; for a non-empty list of test positives that is
    exactly when recall is positive. *)
Theorem hit_ratio_iff (rec_list test_pos : list Z) :
  test_pos <> [] ->
  (measure_hit_ratio rec_list test_pos = 1
   <-> exists x, In x rec_list /\ In x test_pos)
  /\ (measure_hit_ratio rec_list test_pos = 0
      <-> ~ exists x, In x rec_list /\ In x test_pos)
  /\ (measure_hit_ratio rec_list test_pos = 1
      <-> 0 < measure_recall rec_list test_pos).
Proof.
  intros Htest. pose proof (hit_count_pos_iff rec_list test_pos) as Hiff.
  pose proof (INR_length_pos test_pos Htest) as Ht.
  unfold measure_hit_ratio, measure_recall.
  destruct (Nat.ltb_spec 0 (hit_count rec_list test_pos)) as [Hpos|Hzero].
  - split; [|split].
    + split; [intros _; now apply Hiff | reflexivity].
    + split; [lra | intros H; exfalso; apply H; now apply Hiff].
    + split; [|reflexivity].
      intros _. apply Rdiv_lt_0_compat; [now apply lt_0_INR | assumption].
  - assert (Hc : hit_count rec_list test_pos = 0%nat) by lia.
    split; [|split].
    + split; [lra | intros H; apply Hiff in H; lia].
    + split; [intros _ H; apply Hiff in H; lia | reflexivity].
    + rewrite Hc. change (INR 0) with 0. unfold Rdiv. rewrite Rmult_0_l.
      split; lra.
Qed.

(** *** Reciprocal rank *)

Lemma reciprocal_sum_nonneg (r : list bool) :
  forall k : nat, (1 <= k)%nat -> 0 <= reciprocal_sum k (asfarray r).
Proof.
  induction r as [|b r IH]; intros k Hk; simpl; [lra|].
  specialize (IH (S k) ltac:(lia)).
  assert (0 < INR k) by (apply lt_0_INR; lia).
  assert (0 <= (if b then 1 else 0) / INR k).
  { apply Rmult_le_pos; [destruct b; lra|]. now apply Rlt_le, Rinv_0_lt_compat. }
  lra.
Qed.

Lemma first_hit_rank_zero (r : list bool) :
  forall k : nat,
    first_hit_rank k r = 0%nat <-> List.length (filter (fun b : bool => b) r) = 0%nat.
Proof.
  induction r as [|[|] r IH]; intros k; simpl.
  - tauto.
  - split; discriminate.
  - apply IH.
Qed.

(** The reciprocal rank of the first hit is one of the terms of the sum over
    all hits. *)
Lemma first_hit_le_sum (r : list bool) :
  forall k : nat,
    (if Nat.eqb (first_hit_rank k r) 0 then 0 else 1 / INR (first_hit_rank k r))
    <= reciprocal_sum (S k) (asfarray r)
    /\ (first_hit_rank k r = 0%nat \/ (S k <= first_hit_rank k r)%nat).
Proof.
  induction r as [|[|] r IH]; intros k; simpl.
  - split; [lra | now left].
  - split; [|right; lia].
    pose proof (reciprocal_sum_nonneg r (S (S k)) ltac:(lia)). lra.
  - destruct (IH (S k)) as [H1 H2]. split.
    + unfold Rdiv at 2. rewrite Rmult_0_l. lra.
    + destruct H2; [now left | right; lia].
Qed.

(** X11. Both reciprocal-rank conventions return a value; the first-hit
    convention (method 1) is at most the all-hits convention (method 0), lies
    between 0 and 1, and is 0 exactly when nothing is hit. *)
Theorem mrr_first_hit_below_all_hits (rec_list test_pos : list Z) :
  exists v0 v1 : R,
    measure_mrr rec_list test_pos 0 = Ok v0
    /\ measure_mrr rec_list test_pos 1 = Ok v1
    /\ 0 <= v1 <= v0
    /\ v1 <= 1
    /\ (v1 = 0 <-> hit_count rec_list test_pos = 0%nat).
Proof.
  unfold measure_mrr. cbn [Z.eqb Pos.eqb].
  set (r := isin rec_list test_pos).
  destruct (first_hit_le_sum r 0) as [Hle Hrank].
  pose proof (first_hit_rank_zero r 0) as Hzero.
  fold (hit_count rec_list test_pos) in Hzero.
  exists (reciprocal_sum 1 (asfarray r)).
  destruct (Nat.eqb_spec (first_hit_rank 0 r) 0) as [E|E].
  - exists 0. repeat split; try lra; try tauto.
  - exists (1 / INR (first_hit_rank 0 r)).
    assert (Hr : (1 <= first_hit_rank 0 r)%nat) by lia.
    assert (Hpos : 1 <= INR (first_hit_rank 0 r)).
    { apply le_INR in Hr. exact Hr. }
    assert (Hinv : 0 < 1 / INR (first_hit_rank 0 r)).
    { apply Rdiv_lt_0_compat; lra. }
    repeat split; try lra.
    + apply Rmult_le_reg_r with (INR (first_hit_rank 0 r)); [lra|].
      unfold Rdiv. rewrite Rmult_assoc, Rinv_l by lra. lra.
    + intros Hc. apply Hzero in Hc. contradiction.
Qed.

(** *** Average precision *)

Lemma sum_R_bounds (l : list R) :
  Forall (fun p => 0 <= p <= 1) l -> 0 <= sum_R l <= INR (List.length l).
Proof.
  intros H. induction H as [|p l Hp _ IH]; unfold sum_R in *.
  - simpl. change (INR 0) with 0. lra.
  - cbn [fold_right List.length]. rewrite S_INR. lra.
Qed.

Lemma precisions_in_unit (rec_list test_pos : list Z) :
  Forall (fun p => 0 <= p <= 1) (precisions_at_hits rec_list test_pos).
Proof.
  apply Forall_forall. intros p Hp. unfold precisions_at_hits in Hp.
  apply in_flat_map in Hp. destruct Hp as (k & Hk & Hp).
  apply in_seq in Hk.
  destruct (nth k (isin rec_list test_pos) false); [|contradiction].
  destruct Hp as [<-|[]]. unfold measure_precision.
  apply ratio_bounds; [apply hit_count_le_length|].
  rewrite length_firstn. lia.
Qed.

(** One precision value per hit. *)
Lemma precisions_length_from (F : nat -> R) (bs : list bool) :
  forall pre : list bool,
    List.length
      (flat_map (fun k => if nth k (pre ++ bs) false then [F k] else [])
                (seq (List.length pre) (List.length bs)))
    = List.length (filter (fun b : bool => b) bs).
Proof.
  induction bs as [|b bs IH]; intros pre; [reflexivity|].
  cbn [List.length seq flat_map]. rewrite length_app.
  rewrite nth_middle.
  specialize (IH (pre ++ [b])).
  rewrite <- app_assoc, length_app in IH. cbn [app List.length] in IH.
  rewrite Nat.add_1_r in IH. rewrite IH.
  destruct b; reflexivity.
Qed.

Lemma precisions_length (rec_list test_pos : list Z) :
  List.length (precisions_at_hits rec_list test_pos) = hit_count rec_list test_pos.
Proof.
  unfold precisions_at_hits, hit_count.
  pose proof (precisions_length_from
                (fun k => measure_precision (firstn (S k) rec_list) test_pos)
                (isin rec_list test_pos) []) as H.
  cbn [app List.length] in H. unfold isin in H at 2. rewrite length_map in H.
  exact H.
Qed.

(** X12. For non-empty lists the three average-precision conventions return
    values; convention 0 (mean over the hits) lies between 0 and 1,
    convention 2 (over the number of test positives) is at most convention 1
    (over the shorter of the two lists), which is at most 1 when the
    recommended items are distinct; all three are 0 when nothing is hit. *)
Theorem average_precision_bounds (rec_list test_pos : list Z) :
  rec_list <> [] ->
  test_pos <> [] ->
  exists a0 a1 a2 : R,
    measure_average_precision rec_list test_pos 0 = Ok a0
    /\ measure_average_precision rec_list test_pos 1 = Ok a1
    /\ measure_average_precision rec_list test_pos 2 = Ok a2
    /\ 0 <= a0 <= 1
    /\ 0 <= a2 <= a1
    /\ (NoDup rec_list -> a1 <= 1)
    /\ (hit_count rec_list test_pos = 0%nat -> a0 = 0 /\ a1 = 0 /\ a2 = 0).
Proof.
  intros Hrec Htest. unfold measure_average_precision. cbn [Z.eqb Pos.eqb].
  pose proof (precisions_in_unit rec_list test_pos) as Hunit.
  pose proof (precisions_length rec_list test_pos) as Hlen.
  pose proof (sum_R_bounds _ Hunit) as Hsum.
  destruct (precisions_at_hits rec_list test_pos) as [|p out] eqn:Hout.
  - exists 0, 0, 0. repeat split; lra.
  - set (l := p :: out) in *.
    assert (Hl : 0 < INR (List.length l)) by (apply INR_length_pos; discriminate).
    assert (Hm : 0 < INR (Nat.min (List.length rec_list) (List.length test_pos))).
    { apply lt_0_INR. destruct rec_list; [congruence|].
      destruct test_pos; [congruence | simpl; lia]. }
    pose proof (INR_length_pos test_pos Htest) as Ht.
    assert (Hmt : INR (Nat.min (List.length rec_list) (List.length test_pos))
                  <= INR (List.length test_pos)) by (apply le_INR; lia).
    do 3 eexists. split; [reflexivity|]. split; [reflexivity|].
    split; [reflexivity|].
    split; [|split; [|split]].
    + split.
      * apply Rmult_le_pos; [lra | now apply Rlt_le, Rinv_0_lt_compat].
      * apply Rmult_le_reg_r with (INR (List.length l)); [assumption|].
        unfold Rdiv. rewrite Rmult_assoc, Rinv_l by lra. lra.
    + split.
      * apply Rmult_le_pos; [lra | now apply Rlt_le, Rinv_0_lt_compat].
      * unfold Rdiv. apply Rmult_le_compat_l; [lra|].
        now apply Rinv_le_contravar.
    + intros Hnd.
      assert (Hh : INR (List.length l)
                   <= INR (Nat.min (List.length rec_list) (List.length test_pos))).
      { apply le_INR. rewrite Hlen.
        pose proof (hit_count_le_length rec_list test_pos).
        pose proof (hit_count_le_test rec_list test_pos Hnd). lia. }
      apply Rmult_le_reg_r
        with (INR (Nat.min (List.length rec_list) (List.length test_pos)));
        [assumption|].
      unfold Rdiv. rewrite Rmult_assoc, Rinv_l by lra. lra.
    + intros Hc. rewrite <- Hlen in Hc. discriminate.
Qed.

(** *** The two NDCG normalisations *)

Lemma insert_false_block (a b : nat) :
  insert_desc bool_ltb false (repeat true a ++ repeat false b)
  = repeat true a ++ repeat false (S b).
Proof.
  induction a as [|a IH]; simpl.
  - now destruct b.
  - now rewrite IH.
Qed.

(** The descending sort of a hit vector: the hits, then the misses. *)
Lemma sorted_reverse_bools (r : list bool) :
  sorted_reverse bool_ltb r
  = repeat true (List.length (filter (fun b : bool => b) r))
    ++ repeat false (List.length (filter negb r)).
Proof.
  induction r as [|[|] r IH]; simpl; [reflexivity| |].
  - rewrite IH. apply MetricsFacts.insert_true.
  - rewrite IH. apply insert_false_block.
Qed.

Lemma asfarray_app (l1 l2 : list bool) :
  asfarray (l1 ++ l2) = asfarray l1 ++ asfarray l2.
Proof. unfold asfarray. apply map_app. Qed.

Lemma discounted_sum_app (l1 l2 : list R) :
  forall k : nat,
    discounted_sum k (l1 ++ l2)
    = discounted_sum k l1 + discounted_sum (k + List.length l1) l2.
Proof.
  induction l1 as [|x l1 IH]; intros k; simpl.
  - rewrite Nat.add_0_r. lra.
  - rewrite IH. replace (S k + List.length l1)%nat with (k + S (List.length l1))%nat
      by lia. lra.
Qed.

Lemma discounted_sum_misses (b : nat) :
  forall k : nat, discounted_sum k (asfarray (repeat false b)) = 0.
Proof.
  induction b as [|b IH]; intros k; simpl; [reflexivity|].
  rewrite IH. unfold Rdiv. rewrite Rmult_0_l. lra.
Qed.

Lemma asfarray_hits (a : nat) : asfarray (repeat true a) = repeat 1 a.
Proof. unfold asfarray. apply map_repeat. Qed.

(** The gain of [a] leading hits grows with [a]. *)
Lemma leading_hits_mono (a c : nat) :
  (a <= c)%nat ->
  discounted_sum 2 (repeat 1 a) <= discounted_sum 2 (repeat 1 c).
Proof.
  intros H. replace c with (a + (c - a))%nat by lia.
  rewrite repeat_app, discounted_sum_app, <- (asfarray_hits (c - a)).
  pose proof (MetricsFacts.dcg_nonneg (repeat true (c - a))
                (2 + List.length (repeat 1 a)) ltac:(lia)).
  lra.
Qed.

(** X13. For a non-empty list of distinct recommended items and a non-empty
    list of test positives, the deprecated NDCG ([ndcg0], normalised by the
    gain of as many leading hits as the shorter list has entries) lies
    between 0 and NDCG method 1 ([ndcg1], normalised by the gain of the hits
    the list has, moved to the top). *)
Theorem ndcg_deprecated_below_ndcg1 (rec_list test_pos : list Z) :
  rec_list <> [] ->
  test_pos <> [] ->
  NoDup rec_list ->
  exists v1 : R,
    measure_ndcg rec_list test_pos 1 = Ok v1
    /\ 0 <= measure_ndcg_deprecated rec_list test_pos <= v1.
Proof.
  intros Hrec Htest Hnd.
  unfold measure_ndcg, measure_ndcg_deprecated. cbn [Z.eqb Pos.eqb].
  set (r := isin rec_list test_pos).
  set (k := Nat.min (List.length rec_list) (List.length test_pos)).
  pose proof (MetricsFacts.dcg_nonneg r 2 ltac:(lia)) as Hd.
  pose proof (MetricsFacts.dcg_le_idcg r 2 ltac:(lia)) as Hle.
  assert (Hideal : discounted_sum 2 (asfarray (sorted_reverse bool_ltb r))
                   = discounted_sum 2 (repeat 1 (hit_count rec_list test_pos))).
  { rewrite sorted_reverse_bools, asfarray_app, discounted_sum_app.
    rewrite discounted_sum_misses, asfarray_hits. unfold hit_count. fold r. lra. }
  assert (Hk : (hit_count rec_list test_pos <= k)%nat).
  { pose proof (hit_count_le_length rec_list test_pos).
    pose proof (hit_count_le_test rec_list test_pos Hnd). subst k. lia. }
  pose proof (leading_hits_mono _ _ Hk) as Hmono.
  assert (Hkpos : 0 < discounted_sum 2 (repeat 1 k)).
  { assert (H1 : (1 <= k)%nat).
    { subst k. destruct rec_list; [congruence|].
      destruct test_pos; [congruence | simpl; lia]. }
    pose proof (leading_hits_mono 1 k H1) as Hm. simpl in Hm.
    pose proof (MetricsFacts.log2_pos 2 ltac:(lia)) as Hl.
    assert (0 < 1 / Metrics.log2 (INR 2))
      by (apply Rdiv_lt_0_compat; lra).
    lra. }
  set (dcg := discounted_sum 2 (asfarray r)) in *.
  set (idcg1 := discounted_sum 2 (asfarray (sorted_reverse bool_ltb r))) in *.
  set (idcg0 := discounted_sum 2 (repeat 1 k)) in *.
  assert (Hlow : 0 <= dcg / idcg0).
  { apply Rmult_le_pos; [assumption | now apply Rlt_le, Rinv_0_lt_compat]. }
  destruct (Req_dec_T idcg1 0) as [Hz|Hnz].
  - exists 0. split; [reflexivity|].
    assert (dcg = 0) by lra.
    replace dcg with 0 in * by lra. unfold Rdiv. rewrite Rmult_0_l. lra.
  - exists (dcg / idcg1). split; [reflexivity|]. split; [assumption|].
    unfold Rdiv. apply Rmult_le_compat_l; [assumption|].
    apply Rinv_le_contravar; lra.
Qed.

(** ** Witnesses for the metric bounds *)

(** Witness: three distinct items against two test positives. *)
Lemma precision_recall_bounds_witness :
  0 <= measure_precision [5; 1; 2]%Z [1; 5]%Z <= 1
  /\ (NoDup [5; 1; 2]%Z -> 0 <= measure_recall [5; 1; 2]%Z [1; 5]%Z <= 1).
Proof.
  apply (precision_recall_bounds [5; 1; 2]%Z [1; 5]%Z); discriminate.
Defined.

(** Witness: a list with one hit among three items. *)
Lemma f1_closed_form_witness :
  measure_f1 [4; 1; 2]%Z [1; 5]%Z
  = 2 * INR (hit_count [4; 1; 2]%Z [1; 5]%Z)
    / (INR (List.length [4; 1; 2]%Z) + INR (List.length [1; 5]%Z))
  /\ (measure_f1 [4; 1; 2]%Z [1; 5]%Z = 0
      <-> hit_count [4; 1; 2]%Z [1; 5]%Z = 0%nat)
  /\ (NoDup [4; 1; 2]%Z -> measure_f1 [4; 1; 2]%Z [1; 5]%Z <= 1).
Proof.
  apply (f1_closed_form [4; 1; 2]%Z [1; 5]%Z); discriminate.
Defined.

(** Witness: an empty recommendation list against one test positive. *)
Lemma hit_ratio_iff_witness :
  (measure_hit_ratio [] [3]%Z = 1 <-> exists x, In x [] /\ In x [3]%Z)
  /\ (measure_hit_ratio [] [3]%Z = 0 <-> ~ exists x, In x [] /\ In x [3]%Z)
  /\ (measure_hit_ratio [] [3]%Z = 1 <-> 0 < measure_recall [] [3]%Z).
Proof.
  apply (hit_ratio_iff [] [3]%Z); discriminate.
Defined.

(** Witness: two hits at ranks 1 and 3 against three test positives. *)
Lemma average_precision_bounds_witness :
  exists a0 a1 a2 : R,
    measure_average_precision [5; 4; 1]%Z [1; 5; 9]%Z 0 = Ok a0
    /\ measure_average_precision [5; 4; 1]%Z [1; 5; 9]%Z 1 = Ok a1
    /\ measure_average_precision [5; 4; 1]%Z [1; 5; 9]%Z 2 = Ok a2
    /\ 0 <= a0 <= 1
    /\ 0 <= a2 <= a1
    /\ (NoDup [5; 4; 1]%Z -> a1 <= 1)
    /\ (hit_count [5; 4; 1]%Z [1; 5; 9]%Z = 0%nat -> a0 = 0 /\ a1 = 0 /\ a2 = 0).
Proof.
  apply (average_precision_bounds [5; 4; 1]%Z [1; 5; 9]%Z); discriminate.
Defined.

(** Witness: a miss at rank 1 followed by a hit, against two test
    positives. *)
Lemma ndcg_deprecated_below_ndcg1_witness :
  exists v1 : R,
    measure_ndcg [4; 1; 2]%Z [1; 5]%Z 1 = Ok v1
    /\ 0 <= measure_ndcg_deprecated [4; 1; 2]%Z [1; 5]%Z <= v1.
Proof.
  apply (ndcg_deprecated_below_ndcg1 [4; 1; 2]%Z [1; 5]%Z);
    [discriminate | discriminate |].
  repeat constructor; simpl; intuition discriminate.
Defined.

End MetricsExtras.


(** * NDCG under method 1 *)

Module NdcgFacts.
Import Metrics.

#[local] Open Scope R_scope.
#[local] Arguments INR : simpl never.

(** The gain of a hit vector that starts at rank [k + 1]: the weights of the
    ranks whose item is a test positive. *)
Lemma dcg_by_rank (test_pos : list Z) (l : list Z) :
  forall k : nat,
    discounted_sum (S k) (asfarray (isin l test_pos))
    = sum_R (map (fun p : nat * Z =>
                    if existsb (Z.eqb (snd p)) test_pos
                    then 1 / log2 (INR (fst p + 1)) else 0)
                 (combine (seq k (List.length l)) l)).
Proof.
  induction l as [|x l IH]; intros k; [reflexivity|].
  cbn [isin map asfarray discounted_sum List.length seq combine sum_R fold_right
       fst snd].
  unfold isin, asfarray, sum_R in IH. rewrite IH, Nat.add_1_r.
  destruct (existsb (Z.eqb x) test_pos); [reflexivity|].
  unfold Rdiv. now rewrite Rmult_0_l.
Qed.

(** The gain of [h] hits at the ranks [k + 1 .. k + h]. *)
Lemma ideal_by_rank (h : nat) :
  forall k : nat,
    discounted_sum (S k) (repeat 1 h)
    = sum_R (map (fun r : nat => 1 / log2 (INR (r + 1))) (seq k h)).
Proof.
  induction h as [|h IH]; intros k; [reflexivity|].
  cbn [repeat discounted_sum seq map sum_R fold_right].
  unfold sum_R in IH. now rewrite IH, Nat.add_1_r.
Qed.

Lemma leading_hits_pos (h : nat) : (0 < h)%nat -> 0 < discounted_sum 2 (repeat 1 h).
Proof.
  intros H. pose proof (MetricsExtras.leading_hits_mono 1 h H) as Hm.
  simpl in Hm.
  pose proof (MetricsFacts.log2_pos 2 ltac:(lia)) as Hl.
  assert (0 < 1 / log2 (INR 2)) by (apply Rdiv_lt_0_compat; lra).
  lra.
Qed.

(** C2. NDCG under method 1, for every recommendation list and every list of
    test positives. With the 1-based rank [r] weighted [1 / log2 (r + 1)], the
    gain of the list is the sum of the weights of the ranks whose item is a
    test positive, and the gain of the ideal ordering is the sum of the
    weights of the ranks 1 to the number of hits. The value is 0 when the list
    has no hit (the ideal gain is then 0), and otherwise the gain of the list
    divided by the positive gain of the ideal ordering. It lies between 0 and
    1, and it is 1 when there is a test positive and the list starts with all
    the test positives, in any order, followed by items that are not test
    positives. *)
Theorem ndcg1_bounds (rec_list test_pos : list Z) :
  let weight := fun r : nat => 1 / log2 (INR (r + 1)) in
  let gain :=
    sum_R (map (fun p : nat * Z =>
                  if existsb (Z.eqb (snd p)) test_pos then weight (fst p) else 0)
               (combine (seq 1 (List.length rec_list)) rec_list)) in
  let hits := hit_count rec_list test_pos in
  let ideal := sum_R (map weight (seq 1 hits)) in
  exists v : R,
    measure_ndcg rec_list test_pos 1 = Ok v
    /\ (hits = 0%nat -> ideal = 0 /\ v = 0)
    /\ ((0 < hits)%nat -> 0 < ideal /\ v = gain / ideal)
    /\ 0 <= v <= 1
    /\ (forall top rest : list Z,
           test_pos <> [] ->
           rec_list = top ++ rest ->
           (forall x, In x test_pos -> In x top) ->
           (forall x, In x top -> In x test_pos) ->
           (forall x, In x rest -> ~ In x test_pos) ->
           v = 1).
Proof.
  intros weight gain hits ideal.
  destruct (MetricsFacts.ndcg1_unit_interval rec_list test_pos)
    as (v & Hv & Hbounds & Hone).
  exists v. split; [exact Hv|].
  assert (Hgain : discounted_sum 2 (asfarray (isin rec_list test_pos)) = gain).
  { apply dcg_by_rank. }
  assert (Hideal : discounted_sum 2
                     (asfarray (sorted_reverse bool_ltb (isin rec_list test_pos)))
                   = discounted_sum 2 (repeat 1 hits)).
  { rewrite MetricsExtras.sorted_reverse_bools, MetricsExtras.asfarray_app,
      MetricsExtras.discounted_sum_app.
    rewrite MetricsExtras.discounted_sum_misses, MetricsExtras.asfarray_hits.
    unfold hits, hit_count. lra. }
  assert (Hsum : discounted_sum 2 (repeat 1 hits) = ideal).
  { apply ideal_by_rank. }
  unfold measure_ndcg in Hv. cbn [Z.eqb Pos.eqb] in Hv.
  rewrite Hgain, Hideal, Hsum in Hv.
  split; [|split; [|split; [exact Hbounds | exact Hone]]].
  - intros H0. assert (Hz : ideal = 0) by (unfold ideal; now rewrite H0).
    split; [exact Hz|].
    destruct (Req_dec_T ideal 0) as [_|Hnz]; [|contradiction].
    now injection Hv as <-.
  - intros Hpos. assert (Hp : 0 < ideal).
    { rewrite <- Hsum. now apply leading_hits_pos. }
    split; [exact Hp|].
    destruct (Req_dec_T ideal 0) as [Hz|_]; [lra|].
    now injection Hv as <-.
Qed.

(** Witness: against the test positives 1 and 5, the list 5, 1, 2 has both
    at the top and the value 1; the list 2, 3 has no hit and the value 0; the
    list 2, 1 has its one hit at rank 2, and its value is the weight of rank
    2 divided by the weight of rank 1. *)
Lemma ndcg1_bounds_witness :
  measure_ndcg [5; 1; 2]%Z [1; 5]%Z 1 = Ok 1
  /\ measure_ndcg [2; 3]%Z [1; 5]%Z 1 = Ok 0
  /\ measure_ndcg [2; 1]%Z [1; 5]%Z 1
     = Ok ((0 + (1 / log2 (INR (2 + 1)) + 0)) / (1 / log2 (INR (1 + 1)) + 0)).
Proof.
  split; [|split].
  - destruct (ndcg1_bounds [5; 1; 2]%Z [1; 5]%Z) as (v & Hv & _ & _ & _ & Hone).
    rewrite Hv. f_equal. apply (Hone [5; 1]%Z [2]%Z).
    + discriminate.
    + reflexivity.
    + simpl. intuition.
    + simpl. intuition.
    + simpl. intros x [<-|[]] [H|[H|[]]]; discriminate.
  - destruct (ndcg1_bounds [2; 3]%Z [1; 5]%Z) as (v & Hv & Hzero & _).
    rewrite Hv. f_equal. apply Hzero. reflexivity.
  - destruct (ndcg1_bounds [2; 1]%Z [1; 5]%Z) as (v & Hv & _ & Hpos & _).
    rewrite Hv. f_equal. apply Hpos. vm_compute. constructor.
Defined.

End NdcgFacts.


(** * Further properties of the tester *)

Module TesterExtras.
Import Tester.

(** ** The user attribute table *)

Lemma read_rows_spec (rows : list (list Z)) :
  UserAttr.well_formed rows = true ->
  forall d : Dict.t Z (list Z),
  exists d' : Dict.t Z (list Z),
    UserAttr.read_rows rows d = Ok d'
    /\ forall (u : Z) (acc : option Z),
        option_map (fun a => [a]) acc = Dict.get Z.eqb u d ->
        Dict.get Z.eqb u d'
        = option_map (fun a => [a]) (UserAttr.last_attr u rows acc).
Proof.
  induction rows as [|row rows IH]; intros Hwf d.
  - exists d. split; [reflexivity|]. intros u acc H. simpl. now rewrite H.
  - cbn [UserAttr.well_formed forallb] in Hwf. apply andb_true_iff in Hwf.
    destruct Hwf as [Hrow Hwf].
    destruct row as [|u' [|a tl]]; try discriminate.
    cbn [UserAttr.read_rows UserAttr.last_attr].
    destruct (IH Hwf (Dict.set Z.eqb u' [a] d)) as (d' & Hrun & Hget).
    exists d'. split; [exact Hrun|]. intros u acc Hacc.
    destruct (Z.eqb_spec u' u) as [->|Hne].
    + apply Hget.
      now rewrite (DictFacts.get_set_same Z _ Z.eqb TesterFacts.Z_eqb_spec').
    + apply Hget.
      rewrite (DictFacts.get_set_other Z _ Z.eqb TesterFacts.Z_eqb_spec')
        by congruence.
      exact Hacc.
Qed.

Lemma fill_ok (d : Dict.t Z (list Z)) (users : list Z) :
  (forall u, In u users -> exists a, Dict.get Z.eqb u d = Some [a]) ->
  forall table : Dict.t Z (list Z),
  exists table' : Dict.t Z (list Z),
    UserAttr.fill d users table = Ok table'
    /\ forall u : Z,
        Dict.get Z.eqb u table'
        = if existsb (Z.eqb u) users then Dict.get Z.eqb u d
          else Dict.get Z.eqb u table.
Proof.
  induction users as [|v users IH]; intros Hall table.
  - exists table. split; [reflexivity | intros; reflexivity].
  - destruct (Hall v (or_introl eq_refl)) as [a Ha].
    cbn [UserAttr.fill]. rewrite Ha.
    destruct (IH (fun u Hu => Hall u (or_intror Hu)) (Dict.set Z.eqb v [a] table))
      as (table' & Hrun & Hget).
    exists table'. split; [exact Hrun|]. intros u. rewrite Hget.
    cbn [existsb]. destruct (existsb (Z.eqb u) users); [now rewrite orb_true_r|].
    rewrite orb_false_r. destruct (Z.eqb_spec u v) as [->|Hne].
    + now rewrite (DictFacts.get_set_same Z _ Z.eqb TesterFacts.Z_eqb_spec').
    + now rewrite (DictFacts.get_set_other Z _ Z.eqb TesterFacts.Z_eqb_spec').
Qed.

Lemma fill_missing (d : Dict.t Z (list Z)) (ok : list Z) (u : Z) (later : list Z) :
  (forall v, In v ok -> exists a, Dict.get Z.eqb v d = Some [a]) ->
  Dict.get Z.eqb u d = None ->
  forall table : Dict.t Z (list Z),
    UserAttr.fill d (ok ++ u :: later) table = Err (KeyError u).
Proof.
  induction ok as [|v ok IH]; intros Hall Hu table; cbn [app UserAttr.fill].
  - now rewrite Hu.
  - destruct (Hall v (or_introl eq_refl)) as [a Ha]. rewrite Ha.
    apply IH; [|assumption]. intros w Hw. apply Hall. now right.
Qed.

(** X14. On an attribute file whose rows all have a user and an attribute,
    [set_user_attr] succeeds exactly when every user of the training user set
    has a row: the table then holds the training users and nobody else, each
    with the first attribute of the last row of that user; otherwise it
    raises [KeyError] for the first training user without a row. *)
Theorem set_user_attr_table (rows : list (list Z)) (train_user_set : list Z) :
  UserAttr.well_formed rows = true ->
  ((forall u, In u train_user_set -> UserAttr.last_attr u rows None <> None) ->
   exists user_attr : Dict.t Z (list Z),
     UserAttr.set_user_attr rows train_user_set = Ok user_attr
     /\ forall u : Z,
         Dict.get Z.eqb u user_attr
         = if existsb (Z.eqb u) train_user_set
           then option_map (fun a => [a]) (UserAttr.last_attr u rows None)
           else None)
  /\ (forall (ok : list Z) (u : Z) (later : list Z),
         train_user_set = ok ++ u :: later ->
         (forall v, In v ok -> UserAttr.last_attr v rows None <> None) ->
         UserAttr.last_attr u rows None = None ->
         UserAttr.set_user_attr rows train_user_set = Err (KeyError u)).
Proof.
  intros Hwf. unfold UserAttr.set_user_attr.
  destruct (read_rows_spec rows Hwf []) as (d & Hrun & Hget).
  rewrite Hrun.
  assert (Hd : forall u, Dict.get Z.eqb u d
                         = option_map (fun a => [a]) (UserAttr.last_attr u rows None)).
  { intros u. now apply Hget. }
  split.
  - intros Hall.
    destruct (fill_ok d train_user_set) with (table := @nil (Z * list Z))
      as (table & Hfill & Htable).
    { intros u Hu. specialize (Hall u Hu). rewrite Hd.
      destruct (UserAttr.last_attr u rows None) as [a|]; [now exists a | congruence]. }
    exists table. split; [exact Hfill|]. intros u. rewrite Htable, Hd. reflexivity.
  - intros ok u later -> Hok Hu.
    apply fill_missing.
    + intros v Hv. specialize (Hok v Hv). rewrite Hd.
      destruct (UserAttr.last_attr v rows None) as [a|]; [now exists a | congruence].
    + now rewrite Hd, Hu.
Qed.

(** Witness: the attribute file of the small catalogue is well formed. *)
Lemma set_user_attr_table_witness :
  ((forall u, In u [7; 8; 9]%Z ->
              UserAttr.last_attr u Examples.attr_rows None <> None) ->
   exists user_attr : Dict.t Z (list Z),
     UserAttr.set_user_attr Examples.attr_rows [7; 8; 9]%Z = Ok user_attr
     /\ forall u : Z,
         Dict.get Z.eqb u user_attr
         = if existsb (Z.eqb u) [7; 8; 9]%Z
           then option_map (fun a => [a])
                           (UserAttr.last_attr u Examples.attr_rows None)
           else None)
  /\ (forall (ok : list Z) (u : Z) (later : list Z),
         [7; 8; 9]%Z = ok ++ u :: later ->
         (forall v, In v ok ->
                    UserAttr.last_attr v Examples.attr_rows None <> None) ->
         UserAttr.last_attr u Examples.attr_rows None = None ->
         UserAttr.set_user_attr Examples.attr_rows [7; 8; 9]%Z = Err (KeyError u)).
Proof.
  apply (set_user_attr_table Examples.attr_rows [7; 8; 9]%Z).
  reflexivity.
Defined.

(** ** The candidates of a recommendation list *)

Lemma first_occurrences_In (l : list Z) :
  forall (seen : list Z) (x : Z),
    In x (first_occurrences seen l) <-> In x l /\ ~ In x seen.
Proof.
  induction l as [|y l IH]; intros seen x; cbn [first_occurrences].
  - simpl. tauto.
  - destruct (existsb (Z.eqb y) seen) eqn:E.
    + apply TesterFacts.existsb_Zeqb in E. rewrite IH. simpl. split.
      * tauto.
      * intros [[->|H] Hs]; [contradiction | tauto].
    + assert (Hy : ~ In y seen).
      { intros H. apply TesterFacts.existsb_Zeqb in H. congruence. }
      simpl. rewrite IH, in_app_iff. simpl.
      destruct (Z.eq_dec y x) as [->|Hne]; tauto.
Qed.

Lemma filter_none {A : Type} (f : A -> bool) (l : list A) :
  (forall x, In x l -> f x = false) -> filter f l = [].
Proof.
  induction l as [|x l IH]; intros H; simpl; [reflexivity|].
  rewrite (H x (or_introl eq_refl)). apply IH. intros y Hy. apply H. now right.
Qed.

Section GenerateExtras.

Variable K : Z.
Variable num_neg_samples : Z.
Variable get_relevances : Z -> list Z -> list score.
Variable nan_order : list (Z * score) -> Z -> nat.
Variable sample_draw : Z -> list Z -> nat -> list Z.
Variable train_item_set : list Z.
Variable train_pos : Dict.t Z (list Z).
Variable test_pos : Dict.t Z (list Z).

Lemma fill_relevances_cnt (pairs : list (Z * score)) :
  forall (d : Dict.t Z score) (cnt : nat),
    snd (fill_relevances train_item_set pairs d cnt)
    = cnt + List.length (filter (unseen train_item_set) (map fst pairs)).
Proof.
  induction pairs as [|[item q] pairs IH]; intros d cnt; simpl.
  - lia.
  - unfold unseen at 1.
    destruct (existsb (Z.eqb item) train_item_set); rewrite IH; simpl; lia.
Qed.

Lemma negative_samples_incl (user : Z) (population neg_samples : list Z) :
  (forall (l : list Z) (k : nat), incl (sample_draw user l k) l) ->
  negative_samples num_neg_samples sample_draw user population = Ok neg_samples ->
  incl neg_samples population.
Proof.
  intros Hdraw. unfold negative_samples, random_sample.
  destruct (num_neg_samples =? -1)%Z.
  - intros [= <-]. apply incl_refl.
  - destruct ((0 <=? num_neg_samples)%Z
              && (num_neg_samples <=? Z.of_nat (List.length population))%Z);
      [|discriminate].
    intros [= <-]. apply Hdraw.
Qed.

(** X15. When the sampler returns members of the population it is given and
    the negatives of a user can be drawn, every recommended item is a test
    positive of the user or an item of the training item set that is in
    neither the train nor the test positives of the user; the count returned
    beside the list is the number of scored test positives outside the
    training item set, repeated entries counted each time; and with [K <= 0]
    and a score for every candidate every test positive is recommended. *)
Theorem recommendation_candidates
        (user : Z) (user_train user_test neg_samples : list Z) :
  (forall (l : list Z) (k : nat), incl (sample_draw user l k) l) ->
  Dict.get Z.eqb user train_pos = Some user_train ->
  Dict.get Z.eqb user test_pos = Some user_test ->
  negative_samples num_neg_samples sample_draw user
                   (set_difference train_item_set user_train user_test)
  = Ok neg_samples ->
  let candidate_items := user_test ++ neg_samples in
  let scored := List.length (get_relevances user candidate_items) in
  exists (recommendation_list : list Z) (cnt : nat),
    snd (generate_recommendation_list_for_a_user
           K num_neg_samples get_relevances nan_order sample_draw train_item_set
           train_pos test_pos user)
    = Ok (recommendation_list, cnt)
    /\ (forall x, In x recommendation_list ->
                  In x user_test
                  \/ (In x train_item_set /\ ~ In x user_train /\ ~ In x user_test))
    /\ cnt = List.length (filter (unseen train_item_set) (firstn scored user_test))
    /\ ((K <= 0)%Z -> List.length candidate_items <= scored ->
        forall x, In x user_test -> In x recommendation_list).
Proof.
  intros Hdraw Htrain Htest Hneg candidate_items scored.
  pose proof (negative_samples_incl user _ _ Hdraw Hneg) as Hincl.
  pose proof (proj2 (TesterFacts.set_difference_spec train_item_set user_train
                                                     user_test)) as Hpool.
  unfold generate_recommendation_list_for_a_user, lookup.
  rewrite Htrain, Htest, Hneg. fold candidate_items.
  pose proof (TesterFacts.fill_relevances_keys
                train_item_set
                (combine candidate_items (get_relevances user candidate_items))
                [] 0) as Hkeys.
  pose proof (fill_relevances_cnt
                (combine candidate_items (get_relevances user candidate_items))
                [] 0) as Hcnt.
  destruct (fill_relevances train_item_set
              (combine candidate_items (get_relevances user candidate_items)) [] 0)
    as [rel cnt] eqn:Hfill.
  cbn [fst snd] in Hkeys, Hcnt.
  rewrite TesterFacts.map_fst_combine in Hkeys, Hcnt. fold scored in Hkeys, Hcnt.
  cbn [Dict.keys map app] in Hkeys.
  set (ranked := map fst (sorted_relevances nan_order rel)).
  pose proof (TesterFacts.sorted_relevances_perm nan_order rel) as Hperm.
  fold ranked in Hperm.
  exists (if (K >? 0)%Z then firstn (Z.to_nat K) ranked else ranked), cnt.
  split; [reflexivity|]. split; [|split].
  - intros x Hx.
    assert (Hr : In x ranked).
    { destruct (K >? 0)%Z; [now apply In_firstn in Hx | exact Hx]. }
    apply (Permutation_in _ Hperm) in Hr. rewrite Hkeys in Hr.
    apply first_occurrences_In in Hr. destruct Hr as [Hr _].
    apply In_firstn in Hr. unfold candidate_items in Hr.
    apply in_app_or in Hr. destruct Hr as [Hr|Hr]; [now left|].
    right. apply Hpool. now apply Hincl.
  - rewrite Hcnt. cbn [Nat.add]. unfold candidate_items.
    rewrite firstn_app, filter_app, length_app.
    rewrite (filter_none (unseen train_item_set) (firstn (scored - List.length user_test) neg_samples)).
    + simpl. lia.
    + intros x Hx. apply In_firstn in Hx. apply Hincl, Hpool in Hx.
      unfold unseen. destruct Hx as [Hx _].
      apply TesterFacts.existsb_Zeqb in Hx. now rewrite Hx.
  - intros HK Hall x Hx.
    destruct (Z.gtb_spec K 0) as [|_]; [lia|].
    apply (Permutation_in _ (Permutation_sym Hperm)). rewrite Hkeys.
    apply first_occurrences_In. split; [|intros []].
    rewrite firstn_all2 by exact Hall. unfold candidate_items.
    apply in_or_app. now left.
Qed.

End GenerateExtras.

(** Witness: user 8 of the small catalogue with two negatives and [K = 2];
    the sampler draws the first items of the population. *)
Lemma recommendation_candidates_witness :
  let candidate_items := ([1; 5] ++ [2; 3])%Z in
  let scored := List.length (Examples.parity_scores 8 candidate_items) in
  exists (recommendation_list : list Z) (cnt : nat),
    snd (generate_recommendation_list_for_a_user
           2 2 Examples.parity_scores Examples.input_order Examples.draw_first Examples.items5
           Examples.train_pos3 Examples.test_pos2 8)
    = Ok (recommendation_list, cnt)
    /\ (forall x, In x recommendation_list ->
                  In x [1; 5]%Z
                  \/ (In x Examples.items5 /\ ~ In x [4]%Z /\ ~ In x [1; 5]%Z))
    /\ cnt = List.length (filter (unseen Examples.items5) (firstn scored [1; 5]%Z))
    /\ ((2 <= 0)%Z -> List.length candidate_items <= scored ->
        forall x, In x [1; 5]%Z -> In x recommendation_list).
Proof.
  apply (recommendation_candidates
           2 2 Examples.parity_scores Examples.input_order Examples.draw_first Examples.items5
           Examples.train_pos3 Examples.test_pos2 8 [4]%Z [1; 5]%Z [2; 3]%Z).
  - intros l k x Hx. unfold Examples.draw_first in Hx.
    exact (In_firstn _ _ _ Hx).
  - reflexivity.
  - reflexivity.
  - reflexivity.
Defined.

(** ** The evaluation pass, group by group *)

Lemma per_dim_length {A : Type} (f : nat -> list Z -> A -> A)
      (user_groups : list (list Z)) :
  forall (s : nat) (tables : list A),
    List.length (per_dim f s user_groups tables) = List.length tables.
Proof.
  induction user_groups as [|g gs IH]; intros s [|t ts]; simpl;
    try reflexivity.
  now rewrite IH.
Qed.

Lemma get_fold_set_attr {V : Type} (v : V) (attr : Z) (groups : list Z) :
  forall d : Dict.t Z V,
    In attr groups \/ Dict.get Z.eqb attr d = Some v ->
    Dict.get Z.eqb attr (fold_left (fun d' a => Dict.set Z.eqb a v d') groups d)
    = Some v.
Proof.
  induction groups as [|a groups IH]; intros d H; simpl.
  - destruct H as [[]|H]. exact H.
  - apply IH. destruct (Z.eq_dec a attr) as [->|Hne].
    + right. apply (DictFacts.get_set_same Z V Z.eqb).
      exact TesterFacts.Z_eqb_spec'.
    + destruct H as [[H|H]|H]; [congruence | now left | right].
      rewrite (DictFacts.get_set_other Z V Z.eqb TesterFacts.Z_eqb_spec')
        by congruence.
      exact H.
Qed.

(** The group loop of [measure_performance_for_a_user] on one table, for a
    user whose attribute is [c]. *)
Lemma accumulate_table_entry (c : Z) (m : string) (v : R)
      (attr : Z) (metric : string) (groups : list Z) :
  forall tb : Dict.t Z (Dict.t string R),
    match Dict.get Z.eqb attr
            (fold_left
               (fun tb' a =>
                  if (c =? a)%Z
                  then Dict.adjust Z.eqb a
                         (Dict.adjust String.eqb m (fun total => (total + v)%R)) tb'
                  else tb')
               groups tb) with
    | Some totals => Dict.get String.eqb metric totals
    | None => None
    end
    = option_map
        (fun t => (t + (if (c =? attr)%Z && String.eqb m metric
                        then INR (count_occ Z.eq_dec groups attr) * v
                        else 0))%R)
        match Dict.get Z.eqb attr tb with
        | Some totals => Dict.get String.eqb metric totals
        | None => None
        end.
Proof.
  induction groups as [|a groups IH]; intros tb; cbn [fold_left].
  - cbn [count_occ]. change (INR 0) with 0%R.
    destruct (Dict.get Z.eqb attr tb) as [t|]; [|reflexivity].
    destruct (Dict.get String.eqb metric t) as [x|]; [|reflexivity].
    cbn [option_map]. f_equal.
    destruct ((c =? attr)%Z && String.eqb m metric); ring.
  - rewrite IH. destruct (Z.eqb_spec c a) as [->|Hca].
    + destruct (Z.eq_dec a attr) as [->|Hne].
      * rewrite count_occ_cons_eq by reflexivity. rewrite Z.eqb_refl.
        cbn [andb]. destruct (String.eqb_spec m metric) as [->|Hm].
        -- rewrite EvaluationFacts.entry_adjust_same.
           destruct (Dict.get Z.eqb attr tb) as [t|]; [|reflexivity].
           destruct (Dict.get String.eqb metric t) as [x|]; [|reflexivity].
           cbn [option_map]. f_equal. rewrite S_INR. ring.
        -- now rewrite EvaluationFacts.entry_adjust_other by (right; assumption).
      * rewrite count_occ_cons_neq by assumption.
        now rewrite EvaluationFacts.entry_adjust_other by (left; assumption).
    + destruct (Z.eq_dec a attr) as [->|Hne].
      * destruct (Z.eqb_spec c attr) as [->|_]; [congruence | reflexivity].
      * now rewrite count_occ_cons_neq by assumption.
Qed.

Lemma accumulate_table_count (c : Z) (flag : nat) (attr : Z) (groups : list Z) :
  forall tb : Dict.t Z nat,
    Dict.get Z.eqb attr
      (fold_left
         (fun tb' a =>
            if (c =? a)%Z && Nat.eqb flag 0 then Dict.adjust Z.eqb a S tb' else tb')
         groups tb)
    = option_map
        (fun n => n + (if (c =? attr)%Z && Nat.eqb flag 0
                       then count_occ Z.eq_dec groups attr else 0))
        (Dict.get Z.eqb attr tb).
Proof.
  induction groups as [|a groups IH]; intros tb; cbn [fold_left].
  - cbn [count_occ]. destruct (Dict.get Z.eqb attr tb) as [n|]; [|reflexivity].
    cbn [option_map]. f_equal.
    destruct ((c =? attr)%Z && Nat.eqb flag 0); lia.
  - rewrite IH. destruct (Z.eq_dec a attr) as [->|Hne].
    + rewrite count_occ_cons_eq by reflexivity.
      destruct ((c =? attr)%Z && Nat.eqb flag 0).
      * rewrite (DictFacts.get_adjust_same Z nat Z.eqb).
        destruct (Dict.get Z.eqb attr tb) as [n|]; [|reflexivity].
        cbn [option_map]. f_equal. lia.
      * reflexivity.
    + rewrite count_occ_cons_neq by assumption.
      destruct ((c =? a)%Z && Nat.eqb flag 0); [|reflexivity].
      now rewrite (DictFacts.get_adjust_other
                     Z nat Z.eqb TesterFacts.Z_eqb_spec') by congruence.
Qed.

Section PassExtras.

Variable metrics : list string.
Variable user_groups : list (list Z).
Variable K : Z.
Variable num_neg_samples : Z.
Variable user_attr : Z -> nat -> Z.
Variable get_relevances : Z -> list Z -> list score.
Variable nan_order : list (Z * score) -> Z -> nat.
Variable sample_draw : Z -> list Z -> nat -> list Z.
Variable train_item_set : list Z.
Variable train_pos : Dict.t Z (list Z).
Variable test_pos : Dict.t Z (list Z).

#[local] Set Warnings "-notation-for-abbreviation".
Local Notation generate :=
  (generate_recommendation_list_for_a_user
     K num_neg_samples get_relevances nan_order sample_draw train_item_set train_pos test_pos).
Local Notation value :=
  (user_value K num_neg_samples get_relevances nan_order sample_draw train_item_set
              train_pos test_pos).
Local Notation total :=
  (total_value K num_neg_samples get_relevances nan_order sample_draw train_item_set
               train_pos test_pos).
Local Notation loop :=
  (user_loop metrics user_groups K num_neg_samples user_attr get_relevances nan_order
             sample_draw train_item_set train_pos test_pos).
Local Notation pass :=
  (evaluation_pass metrics user_groups K num_neg_samples user_attr get_relevances nan_order
                   sample_draw train_item_set train_pos test_pos).
Local Notation init := (init_results metrics user_groups).
#[local] Set Warnings "notation-for-abbreviation".

Lemma measure_metrics_absent (user : Z) (rec_list : list Z) (ms : list string) :
  Dict.get Z.eqb user test_pos = None ->
  forall (flag : nat) (st : tester),
    measure_metrics user_groups user_attr test_pos user rec_list ms flag st
    = (Ok tt, st).
Proof.
  intros Hget. induction ms as [|m ms IH]; intros flag st; cbn [measure_metrics].
  - reflexivity.
  - rewrite Hget. apply IH.
Qed.

Lemma user_loop_eligible (users : list Z) :
  forall st : tester, loop users st = loop (eligible_users test_pos users) st.
Proof.
  induction users as [|user users IH]; intros st; [reflexivity|].
  rewrite EvaluationFacts.eligible_users_cons. cbn [user_loop].
  destruct (Dict.mem Z.eqb user test_pos) eqn:Hmem.
  - cbn [user_loop]. rewrite Hmem. unfold bind at 1 3.
    match goal with
    | |- match ?X with _ => _ end = _ => destruct X as [[[]|e] st1]
    end; [apply IH | reflexivity].
  - unfold bind at 1. unfold ret. apply IH.
Qed.

(** X16. Users of the training user set without test positives take no
    part in the metric results of [recommendation]: the pass over the
    training user set ends in the same result, and in the same values of
    [results], [num_test_users], [results_user_attr], [num_users_per_group]
    and [binary_unfairness], as the pass over its eligible users alone, and
    [measure_performance_for_a_user] for a user without test positives leaves
    these five attributes as they are and raises nothing, whatever the metric
    list holds. (The per-group counters that [count_info_per_group] and
    [get_average_out_degree_per_groups] fill are no part of [tester]: they
    count every user of the training user set, see [GroupInfoExtras].) *)
Theorem users_without_test_positives_ignored (train_user_set : list Z) :
  pass train_user_set = pass (eligible_users test_pos train_user_set)
  /\ forall (user : Z) (recommendation_list : list Z) (st : tester),
      Dict.get Z.eqb user test_pos = None ->
      measure_performance_for_a_user metrics user_groups user_attr test_pos
                                     user recommendation_list st
      = (Ok tt, st).
Proof.
  split.
  - unfold evaluation_pass. unfold bind at 1 4.
    now rewrite user_loop_eligible.
  - intros user rec_list st Hget. now apply measure_metrics_absent.
Qed.

(** What one user adds to a group: the entry of [attr] and [metric] in
    dimension [k], and the user count of the group. *)
Lemma accumulate_groups (user : Z) (m : string) (v : R) (flag : nat) (st : tester)
      (k : nat) (attr : Z) :
  k < List.length user_groups ->
  k < List.length (results_user_attr st) ->
  k < List.length (num_users_per_group st) ->
  (forall metric : string,
      group_entry (results_user_attr (accumulate user_groups user_attr user m v flag st))
                  k attr metric
      = option_map
          (fun t => (t + (if (user_attr user k =? attr)%Z && String.eqb m metric
                          then INR (count_occ Z.eq_dec (nth k user_groups []) attr) * v
                          else 0))%R)
          (group_entry (results_user_attr st) k attr metric))
  /\ Dict.get Z.eqb attr
       (nth k (num_users_per_group (accumulate user_groups user_attr user m v flag st))
            [])
     = option_map
         (fun n => n + (if (user_attr user k =? attr)%Z && Nat.eqb flag 0
                        then count_occ Z.eq_dec (nth k user_groups []) attr else 0))
         (Dict.get Z.eqb attr (nth k (num_users_per_group st) [])).
Proof.
  intros Hk Hk1 Hk2. split.
  - intros metric. unfold group_entry. cbn [accumulate results_user_attr].
    rewrite EvaluationFacts.nth_per_dim by assumption. cbn [Nat.add].
    apply accumulate_table_entry.
  - cbn [accumulate num_users_per_group].
    rewrite EvaluationFacts.nth_per_dim by assumption. cbn [Nat.add].
    apply accumulate_table_count.
Qed.

Lemma measure_metrics_groups (user : Z) (rec_list user_test : list Z)
      (k : nat) (attr : Z) (ms : list string) :
  Dict.get Z.eqb user test_pos = Some user_test ->
  k < List.length user_groups ->
  forall (flag : nat) (st st' : tester),
    measure_metrics user_groups user_attr test_pos user rec_list ms flag st
    = (Ok tt, st') ->
    k < List.length (results_user_attr st) ->
    k < List.length (num_users_per_group st) ->
    List.length (results_user_attr st') = List.length (results_user_attr st)
    /\ List.length (num_users_per_group st') = List.length (num_users_per_group st)
    /\ (forall metric : string,
           group_entry (results_user_attr st') k attr metric
           = option_map
               (fun t =>
                  (t + (if (user_attr user k =? attr)%Z
                        then INR (count_occ Z.eq_dec (nth k user_groups []) attr)
                             * INR (count_occ string_dec ms metric)
                             * Metrics.value_of
                                 (Metrics.metric_value metric rec_list user_test)
                        else 0))%R)
               (group_entry (results_user_attr st) k attr metric))
    /\ Dict.get Z.eqb attr (nth k (num_users_per_group st') [])
       = option_map
           (fun n =>
              n + (if (user_attr user k =? attr)%Z
                   then count_occ Z.eq_dec (nth k user_groups []) attr
                        * match ms with
                          | [] => 0
                          | _ :: _ => if Nat.eqb flag 0 then 1 else 0
                          end
                   else 0))
           (Dict.get Z.eqb attr (nth k (num_users_per_group st) [])).
Proof.
  intros Hget Hk. induction ms as [|m ms IH]; intros flag st st' Hrun Hk1 Hk2.
  - cbn [measure_metrics] in Hrun. unfold ret in Hrun.
    injection Hrun as <-. split; [reflexivity|]. split; [reflexivity|]. split.
    + intros metric. cbn [count_occ]. change (INR 0) with 0%R.
      destruct (group_entry (results_user_attr st) k attr metric) as [t|];
        [|reflexivity].
      cbn [option_map]. f_equal. destruct (user_attr user k =? attr)%Z; ring.
    + destruct (Dict.get Z.eqb attr (nth k (num_users_per_group st) [])) as [n|];
        [|reflexivity].
      cbn [option_map]. f_equal. destruct (user_attr user k =? attr)%Z; lia.
  - cbn [measure_metrics] in Hrun. rewrite Hget in Hrun.
    unfold bind at 1 in Hrun. unfold lift in Hrun.
    destruct (Metrics.metric_value m rec_list user_test) as [v|e] eqn:Hv;
      [|discriminate].
    unfold bind at 1 in Hrun. unfold modify in Hrun.
    set (st1 := accumulate user_groups user_attr user m v flag st) in *.
    assert (Hl1 : List.length (results_user_attr st1)
                  = List.length (results_user_attr st))
      by apply per_dim_length.
    assert (Hl2 : List.length (num_users_per_group st1)
                  = List.length (num_users_per_group st))
      by apply per_dim_length.
    destruct (IH (S flag) st1 st' Hrun) as (Hr1 & Hr2 & Hentry & Hcount);
      [lia | lia |].
    destruct (accumulate_groups user m v flag st k attr Hk Hk1 Hk2)
      as [Hacc Hcnt].
    fold st1 in Hacc, Hcnt.
    split; [congruence|]. split; [congruence|]. split.
    + intros metric. rewrite Hentry, Hacc.
      destruct (group_entry (results_user_attr st) k attr metric) as [t|];
        [|reflexivity].
      cbn [option_map]. f_equal.
      destruct (user_attr user k =? attr)%Z; cbn [andb]; [|ring].
      destruct (String.eqb_spec m metric) as [->|Hm].
      * rewrite count_occ_cons_eq by reflexivity. rewrite S_INR, Hv.
        cbn [Metrics.value_of]. ring.
      * rewrite count_occ_cons_neq by assumption. ring.
    + rewrite Hcount, Hcnt.
      destruct (Dict.get Z.eqb attr (nth k (num_users_per_group st) [])) as [n|];
        [|reflexivity].
      cbn [option_map]. f_equal.
      destruct (user_attr user k =? attr)%Z; cbn [andb]; [|lia].
      destruct ms; destruct flag; cbn [Nat.eqb]; lia.
Qed.

(** The users of a group among the eligible users. *)
Lemma members_cons (k : nat) (attr : Z) (user : Z) (users : list Z) :
  filter (fun u => (user_attr u k =? attr)%Z) (user :: users)
  = if (user_attr user k =? attr)%Z
    then user :: filter (fun u => (user_attr u k =? attr)%Z) users
    else filter (fun u => (user_attr u k =? attr)%Z) users.
Proof. reflexivity. Qed.

Lemma user_loop_groups (k : nat) (attr : Z) (users : list Z) :
  k < List.length user_groups ->
  forall st st' : tester,
    loop users st = (Ok tt, st') ->
    k < List.length (results_user_attr st) ->
    k < List.length (num_users_per_group st) ->
    let members :=
      filter (fun u => (user_attr u k =? attr)%Z) (eligible_users test_pos users) in
    List.length (results_user_attr st') = List.length (results_user_attr st)
    /\ List.length (num_users_per_group st') = List.length (num_users_per_group st)
    /\ (forall metric : string,
        group_entry (results_user_attr st') k attr metric
        = option_map
            (fun t =>
               (t + INR (count_occ Z.eq_dec (nth k user_groups []) attr)
                    * INR (count_occ string_dec metrics metric)
                    * total metric members)%R)
            (group_entry (results_user_attr st) k attr metric))
    /\ Dict.get Z.eqb attr (nth k (num_users_per_group st') [])
       = option_map
           (fun n =>
              n + count_occ Z.eq_dec (nth k user_groups []) attr
                  * match metrics with
                    | [] => 0
                    | _ :: _ => List.length members
                    end)
           (Dict.get Z.eqb attr (nth k (num_users_per_group st) [])).
Proof.
  intros Hk. induction users as [|user users IH]; intros st st' Hrun Hk1 Hk2.
  - cbn [user_loop] in Hrun. unfold ret in Hrun. injection Hrun as <-.
    cbn [eligible_users filter List.length].
    split; [reflexivity|]. split; [reflexivity|]. split.
    + intros metric. unfold total_value. cbn [map Metrics.sum_R fold_right].
      destruct (group_entry (results_user_attr st) k attr metric) as [t|];
        [|reflexivity].
      cbn [option_map]. f_equal. unfold Metrics.sum_R. cbn [fold_right]. ring.
    + destruct (Dict.get Z.eqb attr (nth k (num_users_per_group st) [])) as [n|];
        [|reflexivity].
      cbn [option_map]. f_equal. destruct metrics; lia.
  - rewrite EvaluationFacts.eligible_users_cons. cbn [user_loop] in Hrun.
    destruct (Dict.mem Z.eqb user test_pos) eqn:Hmem.
    + unfold Dict.mem in Hmem.
      destruct (Dict.get Z.eqb user test_pos) as [user_test|] eqn:Hget;
        [|discriminate].
      unfold bind at 1 in Hrun. unfold bind at 1 in Hrun. unfold lift in Hrun.
      destruct (snd (generate user)) as [[rec_list cnt]|e] eqn:Hg; [|discriminate].
      unfold measure_performance_for_a_user in Hrun. cbn [fst] in Hrun.
      destruct (measure_metrics user_groups user_attr test_pos user rec_list
                                metrics 0 st) as [[[]|e] st1] eqn:Hm;
        [|discriminate].
      destruct (measure_metrics_groups user rec_list user_test k attr metrics
                  Hget Hk 0 st st1 Hm Hk1 Hk2) as (Hl1 & Hl2 & Hentry & Hcount).
      destruct (IH st1 st' Hrun) as (Hl1' & Hl2' & Hentry' & Hcount');
        [lia | lia |].
      rewrite members_cons. split; [congruence|]. split; [congruence|]. split.
      * intros metric. rewrite Hentry', Hentry.
        destruct (group_entry (results_user_attr st) k attr metric) as [t|];
          [|reflexivity].
        cbn [option_map]. f_equal.
        destruct (user_attr user k =? attr)%Z; [|ring].
        assert (Hval : value metric user
                       = Metrics.value_of
                           (Metrics.metric_value metric rec_list user_test))
          by (unfold user_value; now rewrite Hget, Hg).
        unfold total_value. cbn [map]. unfold Metrics.sum_R. cbn [fold_right].
        rewrite Hval. ring.
      * rewrite Hcount', Hcount.
        destruct (Dict.get Z.eqb attr (nth k (num_users_per_group st) [])) as [n|];
          [|reflexivity].
        cbn [option_map]. f_equal.
        destruct (user_attr user k =? attr)%Z; destruct metrics;
          cbn [List.length Nat.eqb]; lia.
    + unfold bind at 1 in Hrun. unfold ret in Hrun.
      exact (IH st st' Hrun Hk1 Hk2).
Qed.

Lemma init_results_groups (k : nat) (attr : Z) (metric : string) :
  k < List.length user_groups ->
  In attr (nth k user_groups []) ->
  In metric metrics ->
  List.length (results_user_attr init) = List.length user_groups
  /\ List.length (num_users_per_group init) = List.length user_groups
  /\ group_entry (results_user_attr init) k attr metric = Some 0%R
  /\ Dict.get Z.eqb attr (nth k (num_users_per_group init) []) = Some 0.
Proof.
  intros Hk Hattr Hmetric. cbn [init_results results_user_attr num_users_per_group].
  rewrite !length_map. split; [reflexivity|]. split; [reflexivity|]. split.
  - unfold group_entry.
    set (f := fun groups : list Z =>
                fold_left (fun d a => Dict.set Z.eqb a (init_metric_totals metrics) d)
                          groups []).
    change (@nil (Z * Dict.t string R)) with (f []) at 1.
    rewrite map_nth. unfold f.
    rewrite (get_fold_set_attr (init_metric_totals metrics)) by now left.
    unfold init_metric_totals.
    apply (EvaluationFacts.get_fold_set (fun _ => 0%R)). now left.
  - set (f := fun groups : list Z =>
                fold_left (fun d a => Dict.set Z.eqb a 0 d) groups []).
    change (@nil (Z * nat)) with (f []) at 1.
    rewrite map_nth. unfold f.
    apply get_fold_set_attr. now left.
Qed.

(** The pass up to [measure_unfairness], with the groups of the state that
    [measure_unfairness] reads. *)
Lemma pass_group_means (train_user_set : list Z) :
  forallb Metrics.supported metrics = true ->
  forallb (fun user => is_ok (snd (generate user)))
          (eligible_users test_pos train_user_set) = true ->
  eligible_users test_pos train_user_set <> [] ->
  exists st : tester,
    pass train_user_set = (Ok tt, measure_unfairness metrics user_groups st)
    /\ forall (k : nat) (attr : Z) (metric : string),
        k < List.length user_groups ->
        count_occ Z.eq_dec (nth k user_groups []) attr = 1 ->
        count_occ string_dec metrics metric = 1 ->
        let members :=
          filter (fun u => (user_attr u k =? attr)%Z)
                 (eligible_users test_pos train_user_set) in
        group_count (num_users_per_group st) k attr = List.length members
        /\ group_value (results_user_attr st) k attr metric
           = average_of (List.length members) (total metric members).
Proof.
  intros Hs Hgen Hne.
  destruct (EvaluationFacts.user_loop_totals
              metrics user_groups K num_neg_samples user_attr get_relevances nan_order
              sample_draw train_item_set train_pos test_pos
              train_user_set Hs Hgen init)
    as (st1 & Hrun & Hnum & Hres).
  assert (Havg : average_items (num_test_users st1) (results st1)
                 = Ok (map (fun item =>
                              (fst item, (snd item / INR (num_test_users st1))%R))
                           (results st1))).
  { apply EvaluationFacts.average_items_ok. rewrite Hnum.
    cbn [init_results num_test_users].
    destruct metrics as [|m0 ms] eqn:Hm.
    - right. destruct (results st1) as [|[m v] r] eqn:Hr; [reflexivity|].
      exfalso. specialize (Hres m).
      cbn in Hres. rewrite String.eqb_refl in Hres. discriminate.
    - left. destruct (eligible_users test_pos train_user_set);
        [congruence | simpl; lia]. }
  eexists. split.
  - unfold evaluation_pass. unfold bind at 1. rewrite Hrun.
    unfold bind at 1. unfold average_user at 1. rewrite Havg.
    unfold bind at 1. unfold modify. reflexivity.
  - intros k attr metric Hk Hattr Hmetric members.
    assert (Hin_attr : In attr (nth k user_groups [])).
    { apply (count_occ_In Z.eq_dec). lia. }
    assert (Hin_metric : In metric metrics).
    { apply (count_occ_In string_dec). lia. }
    destruct (init_results_groups k attr metric Hk Hin_attr Hin_metric)
      as (Hl1 & Hl2 & Hentry0 & Hcount0).
    destruct (user_loop_groups k attr train_user_set Hk init st1 Hrun)
      as (Hl1' & Hl2' & Hentry & Hcount); [lia | lia |].
    fold members in Hentry, Hcount.
    assert (Hmembers : group_count (num_users_per_group st1) k attr
                       = List.length members).
    { unfold group_count. rewrite Hcount, Hcount0. cbn [option_map].
      rewrite Hattr. destruct metrics; [contradiction | lia]. }
    split.
    + cbn [average_user_attr num_users_per_group]. exact Hmembers.
    + rewrite (EvaluationFacts.group_value_averaged
                 metrics user_groups _ k attr metric
                 (0 + INR 1 * INR 1 * total metric members)%R).
      * cbn [num_users_per_group]. rewrite Hmembers. f_equal.
        change (INR 1) with 1%R. ring.
      * exact Hk.
      * cbn [results_user_attr]. lia.
      * exact Hattr.
      * exact Hmetric.
      * cbn [results_user_attr]. rewrite Hentry, Hentry0, Hattr, Hmetric.
        reflexivity.
Qed.

(** X17. After a pass that completes, for an attribute dimension, a group
    listed once in it and a metric listed once: the user count of the group
    is the number of eligible users whose attribute is that group, and the
    value kept for the group is the mean of the metric over those users, 0
    for a group without eligible users. *)
Theorem group_means_after_pass
        (train_user_set : list Z) (k : nat) (attr : Z) (metric : string) :
  forallb Metrics.supported metrics = true ->
  forallb (fun user => is_ok (snd (generate user)))
          (eligible_users test_pos train_user_set) = true ->
  eligible_users test_pos train_user_set <> [] ->
  k < List.length user_groups ->
  count_occ Z.eq_dec (nth k user_groups []) attr = 1 ->
  count_occ string_dec metrics metric = 1 ->
  let members :=
    filter (fun u => (user_attr u k =? attr)%Z)
           (eligible_users test_pos train_user_set) in
  exists st : tester,
    pass train_user_set = (Ok tt, st)
    /\ group_count (num_users_per_group st) k attr = List.length members
    /\ group_value (results_user_attr st) k attr metric
       = if Nat.eqb (List.length members) 0 then 0%R
         else (total metric members / INR (List.length members))%R.
Proof.
  intros Hs Hgen Hne Hk Hattr Hmetric members.
  destruct (pass_group_means train_user_set Hs Hgen Hne) as (st & Hrun & Hgroups).
  destruct (Hgroups k attr metric Hk Hattr Hmetric) as [Hcount Hvalue].
  exists (measure_unfairness metrics user_groups st). split; [exact Hrun|].
  split; [exact Hcount | exact Hvalue].
Qed.

(** The metric loop that fills [pd_dict], when every metric of interest has
    a parity difference for the dimension. *)
Lemma pd_metric_loop_spec (st : tester) (k : nat) (ms : list string) :
  (forall m, In m ms ->
             existsb (String.eqb m) QuickPd.pd_metrics = true ->
             exists v, reported_parity st m k = Some v) ->
  forall d : Dict.t string R,
  exists d' : Dict.t string R,
    QuickPd.pd_metric_loop (binary_unfairness st) k ms d = inl d'
    /\ forall m : string,
        Dict.get String.eqb m d'
        = if existsb (String.eqb m) ms && existsb (String.eqb m) QuickPd.pd_metrics
          then reported_parity st m k
          else Dict.get String.eqb m d.
Proof.
  induction ms as [|metric ms IH]; intros Hall d.
  - exists d. split; [reflexivity | intros m; reflexivity].
  - cbn [QuickPd.pd_metric_loop].
    destruct (existsb (String.eqb metric) QuickPd.pd_metrics) eqn:Hpd.
    + destruct (Hall metric (or_introl eq_refl) Hpd) as [v Hv].
      pose proof Hv as Hv'. unfold reported_parity in Hv'.
      destruct (Dict.get String.eqb metric (binary_unfairness st)) as [per_dim|];
        [|discriminate].
      rewrite Hv'.
      destruct (IH (fun m Hm => Hall m (or_intror Hm))
                   (Dict.set String.eqb metric v d)) as (d' & Hrun & Hget).
      exists d'. split; [exact Hrun|]. intros m. rewrite Hget. cbn [existsb].
      destruct (String.eqb_spec m metric) as [->|Hne]; cbn [orb].
      * rewrite Hpd, andb_true_r.
        destruct (existsb (String.eqb metric) ms); [reflexivity|].
        rewrite Hv.
        apply (DictFacts.get_set_same string R String.eqb
                                      EvaluationFacts.String_eqb_spec').
      * destruct (existsb (String.eqb m) ms && existsb (String.eqb m) QuickPd.pd_metrics);
          [reflexivity|].
        now rewrite (DictFacts.get_set_other
                       string R String.eqb EvaluationFacts.String_eqb_spec')
          by congruence.
    + destruct (IH (fun m Hm => Hall m (or_intror Hm)) d) as (d' & Hrun & Hget).
      exists d'. split; [exact Hrun|]. intros m. rewrite Hget. cbn [existsb].
      destruct (String.eqb_spec m metric) as [->|Hne]; cbn [orb]; [|reflexivity].
      now rewrite Hpd, !andb_false_r.
Qed.

(** The [pd_dict] that the loop of [quick_recommendation] builds from the
    state after a pass that completes, with two distinct groups in the one
    attribute dimension and distinct metric names. *)
Lemma pd_dict_after_pass
      (train_user_set : list Z) (attr_name : string) (other_names : list string)
      (g0 g1 : Z) :
  user_groups = [[g0; g1]] ->
  g0 <> g1 ->
  String.eqb attr_name "ages" || String.eqb attr_name "occupations" = false ->
  forallb Metrics.supported metrics = true ->
  forallb (fun user => is_ok (snd (generate user)))
          (eligible_users test_pos train_user_set) = true ->
  eligible_users test_pos train_user_set <> [] ->
  NoDup metrics ->
  let mean := fun (metric : string) (attr : Z) =>
                let members :=
                  filter (fun u => (user_attr u 0 =? attr)%Z)
                         (eligible_users test_pos train_user_set) in
                average_of (List.length members) (total metric members) in
  exists (st : tester) (pd_dict : Dict.t string R),
    pass train_user_set = (Ok tt, st)
    /\ QuickPd.pd_dict_of (attr_name :: other_names) 1 metrics st = inl pd_dict
    /\ forall metric : string,
        Dict.get String.eqb metric pd_dict
        = if existsb (String.eqb metric) metrics
             && existsb (String.eqb metric) QuickPd.pd_metrics
          then Some (mean metric g0 - mean metric g1)%R
          else None.
Proof.
  intros Hgroups Hne01 Hname Hs Hgen Hne Hnd mean.
  destruct (pass_group_means train_user_set Hs Hgen Hne) as (st & Hrun & Hmeans).
  assert (Hparity : forall m, In m metrics ->
                              reported_parity
                                (measure_unfairness metrics user_groups st) m 0
                              = Some (mean m g0 - mean m g1)%R).
  { intros m Hin.
    assert (Hm : count_occ string_dec metrics m = 1).
    { rewrite (NoDup_count_occ' string_dec) in Hnd. now apply Hnd. }
    pose proof (EvaluationFacts.reported_parity_spec
                  metrics [] [g0; g1] [] st m Hin) as Hspec.
    cbn [app List.length map] in Hspec. rewrite <- Hgroups in Hspec.
    rewrite Hspec. f_equal.
    destruct (Hmeans 0 g0 m) as [_ H0];
      [rewrite Hgroups; simpl; lia | | exact Hm |].
    { rewrite Hgroups. simpl.
      destruct (Z.eq_dec g0 g0); [|contradiction].
      destruct (Z.eq_dec g1 g0); [congruence | reflexivity]. }
    destruct (Hmeans 0 g1 m) as [_ H1];
      [rewrite Hgroups; simpl; lia | | exact Hm |].
    { rewrite Hgroups. simpl.
      destruct (Z.eq_dec g0 g1); [contradiction|].
      destruct (Z.eq_dec g1 g1); [reflexivity | contradiction]. }
    rewrite H0, H1. reflexivity. }
  destruct (pd_metric_loop_spec (measure_unfairness metrics user_groups st) 0 metrics)
    with (d := @nil (string * R)) as (pd_dict & Hloop & Hget).
  { intros m Hin _. rewrite (Hparity m Hin). eauto. }
  exists (measure_unfairness metrics user_groups st), pd_dict.
  split; [exact Hrun|]. split.
  - unfold QuickPd.pd_dict_of. cbn [QuickPd.pd_dim_loop nth_error].
    rewrite Hname, Hloop. reflexivity.
  - intros metric. rewrite Hget. cbn [Dict.get].
    destruct (existsb (String.eqb metric) metrics) eqn:Hin; cbn [andb];
      [|reflexivity].
    destruct (existsb (String.eqb metric) QuickPd.pd_metrics); [|reflexivity].
    apply Hparity. apply existsb_exists in Hin. destruct Hin as (m & Hm & E).
    apply String.eqb_eq in E. now subst.
Qed.

End PassExtras.

(** Witness: the small catalogue with the groups 0 and 1 of one attribute
    dimension; user 8 is the only eligible user of group 1. *)
Lemma group_means_after_pass_witness :
  let members :=
    filter (fun u => (Examples.attr_of u 0 =? 1)%Z)
           (eligible_users Examples.test_pos2 [7; 8; 9]%Z) in
  exists st : tester,
    evaluation_pass ["recall"; "hit_ratio"] [[0; 1]%Z] 2 2 Examples.attr_of
                    Examples.parity_scores Examples.input_order Examples.draw_first Examples.items5
                    Examples.train_pos3 Examples.test_pos2 [7; 8; 9]%Z
    = (Ok tt, st)
    /\ group_count (num_users_per_group st) 0 1 = List.length members
    /\ group_value (results_user_attr st) 0 1 "recall"
       = if Nat.eqb (List.length members) 0 then 0%R
         else (total_value 2 2 Examples.parity_scores Examples.input_order Examples.draw_first
                           Examples.items5 Examples.train_pos3
                           Examples.test_pos2 "recall" members
               / INR (List.length members))%R.
Proof.
  apply (group_means_after_pass
           ["recall"; "hit_ratio"] [[0; 1]%Z] 2 2 Examples.attr_of
           Examples.parity_scores Examples.input_order Examples.draw_first Examples.items5
           Examples.train_pos3 Examples.test_pos2 [7; 8; 9]%Z 0 1%Z "recall").
  - reflexivity.
  - vm_compute. reflexivity.
  - vm_compute. discriminate.
  - simpl. lia.
  - reflexivity.
  - reflexivity.
Defined.

End TesterExtras.


(** * The parity difference of a dimension with two groups *)

Module ParityFacts.
Import Tester.

(** C4. For a metric of the list and an attribute dimension. In every state,
    [measure_unfairness] stores a parity difference exactly when the
    dimension has two groups; it is the value of the first group minus the
    value of the second in the group table, and listing the two groups in the
    other order negates it. After a pass that completes, for a metric listed
    once, the stored difference is the mean of the metric over the eligible
    users whose attribute is the first group minus its mean over those whose
    attribute is the second group (the mean of a group without eligible users
    being 0), and the pass with the two groups listed in the other order
    stores the negated difference. *)
Theorem parity_difference_two_groups
        (metrics : list string) (pre : list (list Z)) (groups : list Z)
        (post : list (list Z)) (K num_neg_samples : Z)
        (user_attr : Z -> nat -> Z)
        (get_relevances : Z -> list Z -> list score)
        (nan_order : list (Z * score) -> Z -> nat)
        (sample_draw : Z -> list Z -> nat -> list Z)
        (train_item_set : list Z) (train_pos test_pos : Dict.t Z (list Z))
        (train_user_set : list Z) (metric : string) :
  In metric metrics ->
  let k := List.length pre in
  let reported := fun dims st' =>
                    reported_parity (measure_unfairness metrics dims st') metric k in
  (forall st : tester,
      let value := fun attr => group_value (results_user_attr st) k attr metric in
      ((exists v, reported (pre ++ groups :: post) st = Some v)
       <-> List.length groups = 2)
      /\ (forall g0 g1 : Z,
             groups = [g0; g1] ->
             reported (pre ++ [g0; g1] :: post) st = Some (value g0 - value g1)%R
             /\ reported (pre ++ [g1; g0] :: post) st
                = Some (- (value g0 - value g1))%R))
  /\ (forall g0 g1 : Z,
         groups = [g0; g1] ->
         count_occ string_dec metrics metric = 1 ->
         forallb Metrics.supported metrics = true ->
         forallb (fun user =>
                    is_ok (snd (generate_recommendation_list_for_a_user
                                  K num_neg_samples get_relevances nan_order
                                  sample_draw train_item_set train_pos test_pos user)))
                 (eligible_users test_pos train_user_set) = true ->
         eligible_users test_pos train_user_set <> [] ->
         let mean := fun attr : Z =>
                       let members :=
                         filter (fun u => (user_attr u k =? attr)%Z)
                                (eligible_users test_pos train_user_set) in
                       average_of (List.length members)
                                  (total_value K num_neg_samples get_relevances
                                               nan_order sample_draw train_item_set
                                               train_pos test_pos metric members) in
         let pass := fun dims =>
                       evaluation_pass metrics dims K num_neg_samples user_attr
                                       get_relevances nan_order sample_draw
                                       train_item_set train_pos test_pos
                                       train_user_set in
         exists st st' : tester,
           pass (pre ++ [g0; g1] :: post) = (Ok tt, st)
           /\ reported_parity st metric k = Some (mean g0 - mean g1)%R
           /\ pass (pre ++ [g1; g0] :: post) = (Ok tt, st')
           /\ reported_parity st' metric k = Some (- (mean g0 - mean g1))%R).
Proof.
  intros Hin k reported. subst reported. cbv beta. split.
  - intros st value. split.
    + subst k. rewrite EvaluationFacts.reported_parity_spec by assumption.
      destruct groups as [|g0 [|g1 [|g2 gs]]]; cbn [map List.length]; split;
        try (intros [v Hv]; discriminate); try discriminate.
      * reflexivity.
      * eauto.
    + intros g0 g1 _. subst k value.
      rewrite !EvaluationFacts.reported_parity_spec by assumption. cbn [map]. split.
      * reflexivity.
      * f_equal. ring.
  - intros g0 g1 _ Hm Hs Hgen Hne mean pass.
    assert (Hpass : forall a b : Z,
               exists st : tester,
                 pass (pre ++ [a; b] :: post) = (Ok tt, st)
                 /\ reported_parity st metric k = Some (mean a - mean b)%R).
    { intros a b.
      destruct (TesterExtras.pass_group_means
                  metrics (pre ++ [a; b] :: post) K num_neg_samples user_attr
                  get_relevances nan_order sample_draw train_item_set train_pos
                  test_pos train_user_set Hs Hgen Hne)
        as (st0 & Hrun & Hmeans).
      exists (measure_unfairness metrics (pre ++ [a; b] :: post) st0).
      split; [exact Hrun|]. subst k.
      rewrite EvaluationFacts.reported_parity_spec by assumption. cbn [map].
      destruct (Z.eq_dec a b) as [->|Hab].
      - f_equal. ring.
      - assert (Hlen : List.length pre < List.length (pre ++ [a; b] :: post)).
        { rewrite length_app. simpl. lia. }
        assert (Hnth : nth (List.length pre) (pre ++ [a; b] :: post) [] = [a; b]).
        { now rewrite nth_middle. }
        destruct (Hmeans (List.length pre) a metric Hlen) as [_ Ha]; [|exact Hm|].
        { rewrite Hnth. simpl.
          destruct (Z.eq_dec a a); [|contradiction].
          destruct (Z.eq_dec b a); [congruence | reflexivity]. }
        destruct (Hmeans (List.length pre) b metric Hlen) as [_ Hb]; [|exact Hm|].
        { rewrite Hnth. simpl.
          destruct (Z.eq_dec a b); [contradiction|].
          destruct (Z.eq_dec b b); [reflexivity | contradiction]. }
        rewrite Ha, Hb. reflexivity. }
    destruct (Hpass g0 g1) as (st & Hrun & Hrep).
    destruct (Hpass g1 g0) as (st' & Hrun' & Hrep').
    exists st, st'. repeat split; try assumption.
    rewrite Hrep'. f_equal. ring.
Qed.

(** Witness: a pass over the users 7, 8 and 9 of the small catalogue, with
    the groups 0 and 1 of one attribute dimension and the metrics [precision]
    and [recall]. User 7, of group 0, has one of its two recommended items
    among its test positives and user 8, of group 1, has both: the stored
    parity difference of [precision] is the mean of group 0 minus the mean of
    group 1, and with the groups listed as 1 and 0 it is negated. *)
Lemma parity_difference_two_groups_witness :
  let mean := fun attr : Z =>
                let members :=
                  filter (fun u => (Examples.attr_of u 0 =? attr)%Z)
                         (eligible_users Examples.test_pos2 [7; 8; 9]%Z) in
                average_of (List.length members)
                           (total_value 2 2 Examples.parity_scores
                                        Examples.input_order Examples.draw_first
                                        Examples.items5 Examples.train_pos3
                                        Examples.test_pos2 "precision" members) in
  let pass := fun dims =>
                evaluation_pass ["precision"; "recall"] dims 2 2 Examples.attr_of
                                Examples.parity_scores Examples.input_order
                                Examples.draw_first Examples.items5
                                Examples.train_pos3 Examples.test_pos2
                                [7; 8; 9]%Z in
  exists st st' : tester,
    pass ([] ++ [0; 1]%Z :: []) = (Ok tt, st)
    /\ reported_parity st "precision" 0 = Some (mean 0%Z - mean 1%Z)%R
    /\ pass ([] ++ [1; 0]%Z :: []) = (Ok tt, st')
    /\ reported_parity st' "precision" 0 = Some (- (mean 0%Z - mean 1%Z))%R.
Proof.
  apply (proj2 (parity_difference_two_groups
                  ["precision"; "recall"] [] [0; 1]%Z [] 2 2 Examples.attr_of
                  Examples.parity_scores Examples.input_order Examples.draw_first
                  Examples.items5 Examples.train_pos3 Examples.test_pos2
                  [7; 8; 9]%Z "precision" (or_introl eq_refl))
               0%Z 1%Z).
  - reflexivity.
  - reflexivity.
  - reflexivity.
  - vm_compute. reflexivity.
  - vm_compute. discriminate.
Defined.

End ParityFacts.


(** * Further properties of the history of parity differences *)

Module PdHistoryExtras.
Import PdHistory.

Lemma get_absent {V : Type} (k : string) (d : Dict.t string V) :
  ~ In k (Dict.keys d) -> Dict.get String.eqb k d = None.
Proof.
  intros H.
  now apply (DictFacts.get_None string V String.eqb EvaluationFacts.String_eqb_spec').
Qed.

(** One step of either loop: the key is created when absent, then its value
    is rewritten. *)
Lemma get_upsert {V : Type} (k k' : string) (v0 : V) (f : V -> V)
      (d : Dict.t string V) :
  Dict.get String.eqb k'
    (Dict.adjust String.eqb k f
       (if Dict.mem String.eqb k d then d else Dict.set String.eqb k v0 d))
  = if String.eqb k' k
    then Some (f match Dict.get String.eqb k d with
                 | Some v => v
                 | None => v0
                 end)
    else Dict.get String.eqb k' d.
Proof.
  destruct (String.eqb_spec k' k) as [->|Hne].
  - rewrite (DictFacts.get_adjust_same string V String.eqb).
    unfold Dict.mem. destruct (Dict.get String.eqb k d) as [v|] eqn:E.
    + now rewrite E.
    + now rewrite (DictFacts.get_set_same
                     string V String.eqb EvaluationFacts.String_eqb_spec').
  - rewrite (DictFacts.get_adjust_other
               string V String.eqb EvaluationFacts.String_eqb_spec')
      by assumption.
    destruct (Dict.mem String.eqb k d); [reflexivity|].
    now rewrite (DictFacts.get_set_other
                   string V String.eqb EvaluationFacts.String_eqb_spec')
      by assumption.
Qed.

Lemma append_metrics_history (pd_per_metric : Dict.t string R) :
  NoDup (Dict.keys pd_per_metric) ->
  forall (history : Dict.t string (list R)) (metric : string),
    metric_history (append_metrics pd_per_metric history) metric
    = metric_history history metric
      ++ match Dict.get String.eqb metric pd_per_metric with
         | Some pd => [pd]
         | None => []
         end.
Proof.
  induction pd_per_metric as [|[m pd] rest IH]; intros Hnd history metric.
  - simpl. now rewrite app_nil_r.
  - cbn [Dict.keys map fst] in Hnd. inversion Hnd as [|? ? Hm Hrest]; subst.
    cbn [append_metrics]. rewrite (IH Hrest). unfold metric_history at 1.
    rewrite get_upsert. cbn [Dict.get].
    destruct (String.eqb_spec metric m) as [->|Hne].
    + rewrite (get_absent m rest Hm). rewrite app_nil_r. reflexivity.
    + reflexivity.
Qed.

Lemma append_settings_history (pd_per_test_setting : Dict.t string (Dict.t string R)) :
  NoDup (Dict.keys pd_per_test_setting) ->
  (forall test_setting pd_per_metric,
      In (test_setting, pd_per_metric) pd_per_test_setting ->
      NoDup (Dict.keys pd_per_metric)) ->
  forall (global_pd : Dict.t string (Dict.t string (list R)))
         (test_setting metric : string),
    pd_history (append_settings pd_per_test_setting global_pd) test_setting metric
    = pd_history global_pd test_setting metric
      ++ pd_entry pd_per_test_setting test_setting metric.
Proof.
  induction pd_per_test_setting as [|[s per] rest IH];
    intros Hnd Hinner global_pd test_setting metric.
  - unfold pd_entry. simpl. now rewrite app_nil_r.
  - cbn [Dict.keys map fst] in Hnd. inversion Hnd as [|? ? Hs Hrest]; subst.
    cbn [append_settings].
    rewrite (IH Hrest (fun s' per' H => Hinner s' per' (or_intror H))).
    unfold pd_history at 1. rewrite get_upsert.
    unfold pd_entry. cbn [Dict.get].
    destruct (String.eqb_spec test_setting s) as [->|Hne].
    + rewrite (get_absent s rest Hs). rewrite app_nil_r.
      rewrite (append_metrics_history per (Hinner s per (or_introl eq_refl))).
      unfold pd_history.
      destruct (Dict.get String.eqb s global_pd); reflexivity.
    + reflexivity.
Qed.

(** X19. [get_pd] appends and never drops: for every test setting and
    metric, the values recorded after the call are the values recorded before
    it followed by the value the call brings for that setting and metric, if
    it brings one. *)
Theorem get_pd_appends
        (global_pd : Dict.t string (Dict.t string (list R)))
        (pd_per_test_setting : Dict.t string (Dict.t string R))
        (test_setting metric : string) :
  NoDup (Dict.keys pd_per_test_setting) ->
  (forall s pd_per_metric,
      In (s, pd_per_metric) pd_per_test_setting ->
      NoDup (Dict.keys pd_per_metric)) ->
  pd_history (get_pd global_pd pd_per_test_setting) test_setting metric
  = pd_history global_pd test_setting metric
    ++ pd_entry pd_per_test_setting test_setting metric
  /\ List.length (pd_history (get_pd (get_pd global_pd pd_per_test_setting)
                                     pd_per_test_setting)
                             test_setting metric)
     = List.length (pd_history global_pd test_setting metric)
       + 2 * List.length (pd_entry pd_per_test_setting test_setting metric).
Proof.
  intros Hnd Hinner. unfold get_pd. split.
  - now apply append_settings_history.
  - rewrite !append_settings_history by assumption.
    rewrite !length_app. lia.
Qed.

(** Witness: a call that brings values for two test settings, on an empty
    history. *)
Lemma get_pd_appends_witness :
  pd_history (get_pd [] Examples.pd_call) "current" "recall"
  = pd_history [] "current" "recall"
    ++ pd_entry Examples.pd_call "current" "recall"
  /\ List.length (pd_history (get_pd (get_pd [] Examples.pd_call) Examples.pd_call)
                             "current" "recall")
     = List.length (pd_history [] "current" "recall")
       + 2 * List.length (pd_entry Examples.pd_call "current" "recall").
Proof.
  apply (get_pd_appends [] Examples.pd_call "current" "recall").
  - repeat constructor; simpl; intuition discriminate.
  - intros s per [H|[H|[]]]; injection H as <- <-;
      repeat constructor; simpl; intuition discriminate.
Defined.

End PdHistoryExtras.


(** * Further properties of the group counters *)

Module GroupInfoExtras.
Import GroupInfo.

Lemma nth_error_replace {A : Type} (x : A) (l : list A) :
  forall k k' : nat,
    k < List.length l ->
    nth_error (firstn k l ++ x :: skipn (S k) l) k'
    = if Nat.eqb k' k then Some x else nth_error l k'.
Proof.
  induction l as [|y l IH]; intros k k' Hk; simpl in Hk; [lia|].
  destruct k as [|k]; destruct k' as [|k']; try reflexivity.
  cbn [firstn app nth_error Nat.eqb]. rewrite <- (IH k k') by lia. reflexivity.
Qed.

Lemma increment_cell (info : list (Dict.t Z Z)) (k : nat) (attr n : Z) :
  cell info k attr = Some n ->
  exists info' : list (Dict.t Z Z),
    increment info k attr = Ok info'
    /\ forall (k' : nat) (attr' : Z),
        cell info' k' attr'
        = if Nat.eqb k' k && (attr' =? attr)%Z then Some (n + 1)%Z
          else cell info k' attr'.
Proof.
  unfold cell, increment. intros Hc.
  destruct (nth_error info k) as [d|] eqn:Hd; [|discriminate].
  rewrite Hc. eexists. split; [reflexivity|]. intros k' attr'.
  rewrite nth_error_replace by (apply nth_error_Some; congruence).
  destruct (Nat.eqb_spec k' k) as [->|Hk]; cbn [andb]; [|reflexivity].
  rewrite Hd. destruct (Z.eqb_spec attr' attr) as [->|Hne].
  - apply (DictFacts.get_set_same Z Z Z.eqb TesterFacts.Z_eqb_spec').
  - now apply (DictFacts.get_set_other Z Z Z.eqb TesterFacts.Z_eqb_spec').
Qed.

Section CountExtras.

Variable user_attr : Dict.t Z (list Z).

Lemma attr_loop_spec (i : Z) (k : nat) (a : Z) (groups : list Z) :
  attr_at user_attr i k = Ok a ->
  forall info : list (Dict.t Z Z),
    (forall attr, In attr groups -> cell info k attr <> None) ->
    exists info' : list (Dict.t Z Z),
      attr_loop user_attr i k groups info = Ok info'
      /\ forall (k' : nat) (attr' : Z),
          cell info' k' attr'
          = option_map
              (fun n => (n + (if Nat.eqb k' k && (attr' =? a)%Z
                              then Z.of_nat (count_occ Z.eq_dec groups attr')
                              else 0))%Z)
              (cell info k' attr').
Proof.
  intros Ha. induction groups as [|attr rest IH]; intros info Hready.
  - exists info. split; [reflexivity|]. intros k' attr'. cbn [count_occ].
    destruct (cell info k' attr') as [n|]; [|reflexivity].
    cbn [option_map]. f_equal. destruct (Nat.eqb k' k && (attr' =? a)%Z); lia.
  - cbn [attr_loop]. rewrite Ha. destruct (Z.eqb_spec a attr) as [->|Hne].
    + destruct (cell info k attr) as [n|] eqn:Hc;
        [|exfalso; apply (Hready attr); [now left | assumption]].
      destruct (increment_cell info k attr n Hc) as (info1 & Hinc & Hcell1).
      rewrite Hinc.
      destruct (IH info1) as (info' & Hrun & Hcell').
      { intros attr'' Hin. rewrite Hcell1.
        destruct (Nat.eqb k k && (attr'' =? attr)%Z); [discriminate|].
        apply Hready. now right. }
      exists info'. split; [exact Hrun|]. intros k' attr'.
      rewrite Hcell', Hcell1.
      destruct (Nat.eqb_spec k' k) as [->|Hk]; cbn [andb]; [|reflexivity].
      destruct (Z.eqb_spec attr' attr) as [->|Hat].
      * rewrite Hc. cbn [option_map]. f_equal.
        rewrite count_occ_cons_eq by reflexivity. lia.
      * reflexivity.
    + destruct (IH info) as (info' & Hrun & Hcell').
      { intros attr'' Hin. apply Hready. now right. }
      exists info'. split; [exact Hrun|]. intros k' attr'. rewrite Hcell'.
      destruct (cell info k' attr') as [n|]; [|reflexivity].
      cbn [option_map]. f_equal.
      destruct (Nat.eqb k' k); cbn [andb]; [|reflexivity].
      destruct (Z.eqb_spec attr' a) as [->|Hat]; [|reflexivity].
      now rewrite count_occ_cons_neq by congruence.
Qed.

Lemma dim_loop_spec (i : Z) (attrs : list Z) (dims : list (list Z)) :
  Dict.get Z.eqb i user_attr = Some attrs ->
  forall (k : nat) (info : list (Dict.t Z Z)),
    k + List.length dims <= List.length attrs ->
    (forall j attr, j < List.length dims -> In attr (nth j dims []) ->
                    cell info (k + j) attr <> None) ->
    exists info' : list (Dict.t Z Z),
      dim_loop user_attr i k dims info = Ok info'
      /\ forall (k' : nat) (attr' : Z),
          cell info' k' attr'
          = option_map
              (fun n => (n + (if Nat.leb k k' && Nat.ltb k' (k + List.length dims)
                                 && has_attr user_attr k' attr' i
                              then Z.of_nat (count_occ Z.eq_dec (nth (k' - k) dims [])
                                                       attr')
                              else 0))%Z)
              (cell info k' attr').
Proof.
  intros Hget. induction dims as [|groups dims IH]; intros k info Hlen Hready.
  - exists info. split; [reflexivity|]. intros k' attr'.
    destruct (cell info k' attr') as [n|]; [|reflexivity].
    cbn [option_map List.length]. f_equal. rewrite Nat.add_0_r.
    destruct (Nat.leb_spec k k'); destruct (Nat.ltb_spec k' k); cbn [andb]; lia.
  - cbn [List.length] in Hlen. cbn [dim_loop].
    destruct (nth_error attrs k) as [a|] eqn:Hk;
      [|apply nth_error_None in Hk; lia].
    assert (Ha : attr_at user_attr i k = Ok a).
    { unfold attr_at. now rewrite Hget, Hk. }
    destruct (attr_loop_spec i k a groups Ha info) as (info1 & Hrun1 & Hcell1).
    { intros attr Hin. specialize (Hready 0 attr). rewrite Nat.add_0_r in Hready.
      apply Hready; [simpl; lia | exact Hin]. }
    rewrite Hrun1.
    destruct (IH (S k) info1) as (info' & Hrun & Hcell'); [lia | |].
    { intros j attr Hj Hin. rewrite Hcell1.
      specialize (Hready (S j) attr). cbn [nth List.length] in Hready.
      replace (k + S j) with (S k + j) in Hready by lia.
      destruct (cell info (S k + j) attr) as [n|]; [discriminate|].
      apply Hready; [lia | exact Hin]. }
    exists info'. split; [exact Hrun|]. intros k' attr'.
    rewrite Hcell', Hcell1.
    destruct (cell info k' attr') as [n|]; [|reflexivity].
    cbn [option_map List.length]. f_equal.
    destruct (Nat.eqb_spec k' k) as [->|Hne].
    + replace (Nat.leb (S k) k) with false by (symmetry; apply Nat.leb_gt; lia).
      replace (Nat.leb k k) with true by (symmetry; apply Nat.leb_refl).
      replace (Nat.ltb k (k + S (List.length dims))) with true
        by (symmetry; apply Nat.ltb_lt; lia).
      cbn [andb]. unfold has_attr. rewrite Ha, Nat.sub_diag. cbn [nth].
      destruct (attr' =? a)%Z eqn:E.
      * apply Z.eqb_eq in E. subst. rewrite Z.eqb_refl. lia.
      * rewrite Z.eqb_sym, E. lia.
    + cbn [andb].
      destruct (Nat.leb_spec (S k) k') as [Hle|Hgt].
      * replace (Nat.leb k k') with true by (symmetry; apply Nat.leb_le; lia).
        replace (Nat.ltb k' (k + S (List.length dims)))
          with (Nat.ltb k' (S k + List.length dims))
          by (f_equal; lia).
        replace (k' - k) with (S (k' - S k)) by lia. cbn [nth]. lia.
      * replace (Nat.leb k k') with false by (symmetry; apply Nat.leb_gt; lia).
        cbn [andb]. lia.
Qed.

Lemma dim_loop_missing (i : Z) (dims : list (list Z)) :
  Dict.get Z.eqb i user_attr = None ->
  (exists groups, In groups dims /\ groups <> []) ->
  forall (k : nat) (info : list (Dict.t Z Z)),
    dim_loop user_attr i k dims info = Err (KeyError i).
Proof.
  intros Hget. induction dims as [|groups dims IH]; intros (g & Hin & Hg) k info.
  - contradiction.
  - cbn [dim_loop]. destruct groups as [|attr rest].
    + cbn [attr_loop]. apply IH. exists g. split; [|exact Hg].
      destruct Hin as [<-|Hin]; [congruence | exact Hin].
    + cbn [attr_loop]. unfold attr_at. now rewrite Hget.
Qed.

Variable user_groups : list (list Z).

Lemma count_app (users later : list Z) :
  forall info : list (Dict.t Z Z),
    count_info_per_group user_attr user_groups (users ++ later) info
    = match count_info_per_group user_attr user_groups users info with
      | Ok info' => count_info_per_group user_attr user_groups later info'
      | Err e => Err e
      end.
Proof.
  induction users as [|i users IH]; intros info; cbn [app count_info_per_group].
  - reflexivity.
  - destruct (dim_loop user_attr i 0 user_groups info); [apply IH | reflexivity].
Qed.

Lemma count_spec (users : list Z) :
  (forall i, In i users ->
             exists attrs, Dict.get Z.eqb i user_attr = Some attrs
                           /\ List.length user_groups <= List.length attrs) ->
  forall info : list (Dict.t Z Z),
    (forall k attr, k < List.length user_groups ->
                    In attr (nth k user_groups []) -> cell info k attr <> None) ->
    exists info' : list (Dict.t Z Z),
      count_info_per_group user_attr user_groups users info = Ok info'
      /\ forall (k : nat) (attr : Z),
          k < List.length user_groups ->
          cell info' k attr
          = option_map
              (fun n => (n + Z.of_nat (count_occ Z.eq_dec (nth k user_groups []) attr
                                       * List.length
                                           (filter (has_attr user_attr k attr) users)))%Z)
              (cell info k attr).
Proof.
  induction users as [|i users IH]; intros Hall info Hready.
  - exists info. split; [reflexivity|]. intros k attr Hk.
    destruct (cell info k attr) as [n|]; [|reflexivity].
    cbn [option_map filter List.length]. f_equal. lia.
  - destruct (Hall i (or_introl eq_refl)) as (attrs & Hget & Hlen).
    cbn [count_info_per_group].
    destruct (dim_loop_spec i attrs user_groups Hget 0 info)
      as (info1 & Hrun1 & Hcell1); [exact Hlen | exact Hready |].
    rewrite Hrun1.
    destruct (IH (fun u Hu => Hall u (or_intror Hu)) info1)
      as (info' & Hrun & Hcell').
    { intros k attr Hk Hin. rewrite Hcell1. specialize (Hready k attr Hk Hin).
      destruct (cell info k attr); [discriminate | congruence]. }
    exists info'. split; [exact Hrun|]. intros k attr Hk.
    rewrite (Hcell' k attr Hk), Hcell1.
    destruct (cell info k attr) as [n|]; [|reflexivity].
    cbn [option_map filter Nat.leb Nat.add]. f_equal.
    replace (Nat.ltb k (List.length user_groups)) with true
      by (symmetry; apply Nat.ltb_lt; exact Hk).
    cbn [andb]. rewrite Nat.sub_0_r.
    destruct (has_attr user_attr k attr i); cbn [List.length].
    + rewrite Nat.mul_succ_r. lia.
    + lia.
Qed.

(** X20. On counters that hold every group of every dimension,
    [count_info_per_group] adds to the counter of a group the number of users
    of the set whose attribute is that group (once per time the group is
    listed) when the attribute table knows every user of the set, with an
    attribute per dimension; and it raises [KeyError] for the first user of
    the set that the table does not know, as soon as some dimension has a
    group. *)
Theorem count_info_per_group_counts
        (train_user_set : list Z) (info : list (Dict.t Z Z)) :
  (forall k attr, k < List.length user_groups ->
                  In attr (nth k user_groups []) -> cell info k attr <> None) ->
  ((forall i, In i train_user_set ->
              exists attrs, Dict.get Z.eqb i user_attr = Some attrs
                            /\ List.length user_groups <= List.length attrs) ->
   exists info' : list (Dict.t Z Z),
     count_info_per_group user_attr user_groups train_user_set info = Ok info'
     /\ forall (k : nat) (attr : Z),
         k < List.length user_groups ->
         cell info' k attr
         = option_map
             (fun n => (n + Z.of_nat
                              (count_occ Z.eq_dec (nth k user_groups []) attr
                               * List.length
                                   (filter (has_attr user_attr k attr)
                                           train_user_set)))%Z)
             (cell info k attr))
  /\ (forall (known : list Z) (i : Z) (later : list Z),
         train_user_set = known ++ i :: later ->
         (forall u, In u known ->
                    exists attrs, Dict.get Z.eqb u user_attr = Some attrs
                                  /\ List.length user_groups <= List.length attrs) ->
         Dict.get Z.eqb i user_attr = None ->
         (exists groups, In groups user_groups /\ groups <> []) ->
         count_info_per_group user_attr user_groups train_user_set info
         = Err (KeyError i)).
Proof.
  intros Hready. split.
  - intros Hall. now apply count_spec.
  - intros known i later -> Hknown Hi Hgroups.
    rewrite count_app.
    destruct (count_spec known Hknown info Hready) as (info1 & Hrun & _).
    rewrite Hrun. cbn [count_info_per_group].
    now rewrite dim_loop_missing.
Qed.

End CountExtras.

(** Witness: counters at 0 for the groups 0 and 1 of one dimension. *)
Lemma count_info_per_group_counts_witness :
  ((forall i, In i [7; 8; 9]%Z ->
              exists attrs, Dict.get Z.eqb i Examples.attr_table = Some attrs
                            /\ List.length [[0; 1]%Z] <= List.length attrs) ->
   exists info' : list (Dict.t Z Z),
     count_info_per_group Examples.attr_table [[0; 1]%Z] [7; 8; 9]%Z Examples.info0
     = Ok info'
     /\ forall (k : nat) (attr : Z),
         k < List.length [[0; 1]%Z] ->
         cell info' k attr
         = option_map
             (fun n => (n + Z.of_nat
                              (count_occ Z.eq_dec (nth k [[0; 1]%Z] []) attr
                               * List.length
                                   (filter (has_attr Examples.attr_table k attr)
                                           [7; 8; 9]%Z)))%Z)
             (cell Examples.info0 k attr))
  /\ (forall (known : list Z) (i : Z) (later : list Z),
         [7; 8; 9]%Z = known ++ i :: later ->
         (forall u, In u known ->
                    exists attrs, Dict.get Z.eqb u Examples.attr_table = Some attrs
                                  /\ List.length [[0; 1]%Z] <= List.length attrs) ->
         Dict.get Z.eqb i Examples.attr_table = None ->
         (exists groups, In groups [[0; 1]%Z] /\ groups <> []) ->
         count_info_per_group Examples.attr_table [[0; 1]%Z] [7; 8; 9]%Z
                              Examples.info0
         = Err (KeyError i)).
Proof.
  apply (count_info_per_group_counts
           Examples.attr_table [[0; 1]%Z] [7; 8; 9]%Z Examples.info0).
  intros k attr Hk Hin.
  destruct k as [|k]; [|simpl in Hk; lia].
  simpl in Hin. destruct Hin as [<-|[<-|[]]]; discriminate.
Defined.

(** ** Counting on the table of [set_user_attr] *)

Lemma fill_shape (d : Dict.t Z (list Z)) (users : list Z) :
  forall table0 table : Dict.t Z (list Z),
    UserAttr.fill d users table0 = Ok table ->
    forall u : Z,
      if existsb (Z.eqb u) users
      then exists a, Dict.get Z.eqb u table = Some [a]
      else Dict.get Z.eqb u table = Dict.get Z.eqb u table0.
Proof.
  induction users as [|v users IH]; intros table0 table Hrun u.
  - cbn [UserAttr.fill] in Hrun. injection Hrun as <-. reflexivity.
  - cbn [UserAttr.fill] in Hrun.
    destruct (Dict.get Z.eqb v d) as [[|a attrs]|]; try discriminate.
    specialize (IH _ _ Hrun u). cbn [existsb].
    destruct (existsb (Z.eqb u) users); [now rewrite orb_true_r|].
    rewrite orb_false_r. destruct (Z.eqb_spec u v) as [->|Hne].
    + exists a. rewrite IH.
      apply (DictFacts.get_set_same Z _ Z.eqb TesterFacts.Z_eqb_spec').
    + rewrite IH.
      now apply (DictFacts.get_set_other Z _ Z.eqb TesterFacts.Z_eqb_spec').
Qed.

Lemma set_user_attr_shape (rows : list (list Z)) (train_user_set : list Z)
      (table : Dict.t Z (list Z)) :
  UserAttr.set_user_attr rows train_user_set = Ok table ->
  (forall u, In u train_user_set -> exists a, Dict.get Z.eqb u table = Some [a])
  /\ (forall u, ~ In u train_user_set -> Dict.get Z.eqb u table = None).
Proof.
  unfold UserAttr.set_user_attr.
  destruct (UserAttr.read_rows rows []) as [d|e]; [|discriminate].
  intros Hrun. split; intros u Hu; pose proof (fill_shape d _ _ _ Hrun u) as H.
  - apply TesterFacts.existsb_Zeqb in Hu. now rewrite Hu in H.
  - destruct (existsb (Z.eqb u) train_user_set) eqn:E.
    + apply TesterFacts.existsb_Zeqb in E. contradiction.
    + exact H.
Qed.

(** X21. On the table that [set_user_attr] built for a training user set,
    with one attribute dimension and counters that hold every group,
    [count_info_per_group] succeeds for every user set within the training
    user set, adding to each group the number of users with that attribute;
    for a user set that leaves the training user set it raises [KeyError] for
    the first user outside it, when the dimension has a group. *)
Theorem count_on_training_table
        (rows : list (list Z)) (train_user_set : list Z)
        (table : Dict.t Z (list Z)) (groups : list Z)
        (users : list Z) (info : list (Dict.t Z Z)) :
  UserAttr.set_user_attr rows train_user_set = Ok table ->
  (forall attr, In attr groups -> cell info 0 attr <> None) ->
  (incl users train_user_set ->
   exists info' : list (Dict.t Z Z),
     count_info_per_group table [groups] users info = Ok info'
     /\ forall attr : Z,
         cell info' 0 attr
         = option_map
             (fun n => (n + Z.of_nat
                              (count_occ Z.eq_dec groups attr
                               * List.length (filter (has_attr table 0 attr) users)))%Z)
             (cell info 0 attr))
  /\ (forall (known : list Z) (i : Z) (later : list Z),
         users = known ++ i :: later ->
         incl known train_user_set ->
         ~ In i train_user_set ->
         groups <> [] ->
         count_info_per_group table [groups] users info = Err (KeyError i)).
Proof.
  intros Htable Hready.
  destruct (set_user_attr_shape rows train_user_set table Htable) as [Hin Hout].
  assert (Hready' : forall k attr, k < List.length [groups] ->
                                   In attr (nth k [groups] []) ->
                                   cell info k attr <> None).
  { intros k attr Hk Hattr. destruct k as [|k]; [|simpl in Hk; lia].
    now apply Hready. }
  assert (Hknown : forall l, incl l train_user_set ->
                             forall u, In u l ->
                                       exists attrs,
                                         Dict.get Z.eqb u table = Some attrs
                                         /\ List.length [groups] <= List.length attrs).
  { intros l Hl u Hu. destruct (Hin u (Hl u Hu)) as [a Ha].
    exists [a]. split; [exact Ha | simpl; lia]. }
  split.
  - intros Hincl.
    destruct (count_spec table [groups] users (Hknown users Hincl) info Hready')
      as (info' & Hrun & Hcell).
    exists info'. split; [exact Hrun|]. intros attr.
    apply (Hcell 0 attr). simpl. lia.
  - intros known i later -> Hincl Hi Hgroups.
    rewrite count_app.
    destruct (count_spec table [groups] known (Hknown known Hincl) info Hready')
      as (info1 & Hrun & _).
    rewrite Hrun. cbn [count_info_per_group].
    rewrite dim_loop_missing; [reflexivity | now apply Hout |].
    exists groups. split; [now left | exact Hgroups].
Qed.

(** Witness: the attribute file of the small catalogue, the training users
    7, 8 and 9, and the users 7 and 8 counted. *)
Lemma count_on_training_table_witness :
  (incl [7; 8]%Z [7; 8; 9]%Z ->
   exists info' : list (Dict.t Z Z),
     count_info_per_group [(7, [0]); (8, [1]); (9, [1])]%Z [[0; 1]%Z] [7; 8]%Z
                          Examples.info0
     = Ok info'
     /\ forall attr : Z,
         cell info' 0 attr
         = option_map
             (fun n => (n + Z.of_nat
                              (count_occ Z.eq_dec [0; 1]%Z attr
                               * List.length
                                   (filter (has_attr [(7, [0]); (8, [1]); (9, [1])]%Z
                                                     0 attr)
                                           [7; 8]%Z)))%Z)
             (cell Examples.info0 0 attr))
  /\ (forall (known : list Z) (i : Z) (later : list Z),
         [7; 8]%Z = known ++ i :: later ->
         incl known [7; 8; 9]%Z ->
         ~ In i [7; 8; 9]%Z ->
         [0; 1]%Z <> [] ->
         count_info_per_group [(7, [0]); (8, [1]); (9, [1])]%Z [[0; 1]%Z] [7; 8]%Z
                              Examples.info0
         = Err (KeyError i)).
Proof.
  apply (count_on_training_table
           Examples.attr_rows [7; 8; 9]%Z [(7, [0]); (8, [1]); (9, [1])]%Z
           [0; 1]%Z [7; 8]%Z Examples.info0).
  - reflexivity.
  - intros attr Hin. simpl in Hin. destruct Hin as [<-|[<-|[]]]; discriminate.
Defined.

End GroupInfoExtras.


(** * Further properties of [quick_recommendation] *)

Module QuickRecommendationExtras.
Import Tester QuickRecommendation.

(** X18. [quick_recommendation], once [set_user_attr] has built the
    attribute table of the training user set, with two groups in attribute
    dimension 0. When user 0 is no training user, the lookup
    [self.user_attr[0]] of line 605 raises [KeyError: 0] before any user is
    evaluated. When user 0 is a training user, every user of [train_pos] is
    a training user, the two groups are distinct, the name of the dimension
    is neither [ages] nor [occupations] and the metric names are distinct, a
    pass that completes returns a [pd_dict] that
    holds exactly the metrics [recall], [f1], [ndcg1] and [precision] that
    the metric list has, each with the mean of the metric over the eligible
    users of the first group minus its mean over those of the second group
    (the mean of a group without eligible users being 0). *)
Theorem quick_pd_group_mean_difference
        (metrics : list string) (user_groups : list (list Z))
        (attr_type : list string) (K num_neg_samples : Z)
        (get_relevances : Z -> list Z -> list score)
        (nan_order : list (Z * score) -> Z -> nat)
        (sample_draw : Z -> list Z -> nat -> list Z)
        (train_item_set : list Z) (train_pos test_pos : Dict.t Z (list Z))
        (rows : list (list Z)) (train_user_set : list Z)
        (user_attr : Dict.t Z (list Z))
        (attr_name : string) (other_names : list string)
        (g0 g1 : Z) (other_groups : list (list Z)) :
  user_groups = [g0; g1] :: other_groups ->
  attr_type = attr_name :: other_names ->
  UserAttr.set_user_attr rows train_user_set = Ok user_attr ->
  let quick :=
    quick_recommendation metrics user_groups attr_type K num_neg_samples
                         get_relevances nan_order sample_draw train_item_set
                         train_pos test_pos rows train_user_set in
  (~ In 0%Z train_user_set -> quick = Raised (KeyError 0))
  /\ (In 0%Z train_user_set ->
      (forall user, In user (Dict.keys train_pos) -> In user train_user_set) ->
      g0 <> g1 ->
      String.eqb attr_name "ages" || String.eqb attr_name "occupations" = false ->
      forallb Metrics.supported metrics = true ->
      forallb (fun user =>
                 is_ok (snd (generate_recommendation_list_for_a_user
                               K num_neg_samples get_relevances nan_order
                               sample_draw train_item_set train_pos test_pos user)))
              (eligible_users test_pos train_user_set) = true ->
      eligible_users test_pos train_user_set <> [] ->
      NoDup metrics ->
      let mean := fun (metric : string) (attr : Z) =>
                    let members :=
                      filter (fun u => (attr_of user_attr u 0 =? attr)%Z)
                             (eligible_users test_pos train_user_set) in
                    average_of (List.length members)
                               (total_value K num_neg_samples get_relevances
                                            nan_order sample_draw train_item_set
                                            train_pos test_pos metric members) in
      exists pd_dict : Dict.t string R,
        quick = Returned pd_dict
        /\ forall metric : string,
            Dict.get String.eqb metric pd_dict
            = if existsb (String.eqb metric) metrics
                 && existsb (String.eqb metric) QuickPd.pd_metrics
              then Some (mean metric g0 - mean metric g1)%R
              else None).
Proof.
  intros Hgroups Htype Htable quick.
  destruct (GroupInfoExtras.set_user_attr_shape rows train_user_set user_attr Htable)
    as [Hin Hout].
  split.
  - intros H0. unfold quick, quick_recommendation.
    rewrite Hgroups, Htable, (Hout 0%Z H0). reflexivity.
  - intros H0 Hknown Hne01 Hname Hs Hgen Hne Hnd mean.
    destruct (Hin 0%Z H0) as [a Ha].
    assert (Hnone : first_unknown_user user_attr [g0; g1] train_pos = None).
    { unfold first_unknown_user.
      destruct (find (fun user => negb (Dict.mem Z.eqb user user_attr))
                     (Dict.keys train_pos)) as [user|] eqn:Hfind; [|reflexivity].
      apply find_some in Hfind. destruct Hfind as [Huser Hmem].
      destruct (Hin user (Hknown user Huser)) as [b Hb].
      unfold Dict.mem in Hmem. rewrite Hb in Hmem. discriminate. }
    destruct (TesterExtras.pd_dict_after_pass
                metrics [[g0; g1]] K num_neg_samples (attr_of user_attr)
                get_relevances nan_order sample_draw train_item_set train_pos
                test_pos train_user_set attr_name other_names g0 g1
                eq_refl Hne01 Hname Hs Hgen Hne Hnd)
      as (st & pd_dict & Hrun & Hpd & Hget).
    exists pd_dict. split; [|exact Hget].
    unfold quick, quick_recommendation.
    rewrite Hgroups, Htable, Ha, Hrun, Hnone. cbn [List.length].
    rewrite Htype, Hpd. reflexivity.
Qed.

(** Witness. With the training users 7, 8 and 9 the call raises
    [KeyError: 0]. With the training users 0, 7 and 8, the attribute
    dimension [genders] of the groups 0 and 1 and the metrics [recall] and
    [hit_ratio], it returns the difference of the group means of [recall]. *)
Lemma quick_pd_group_mean_difference_witness :
  quick_recommendation ["recall"; "hit_ratio"] [[0; 1]%Z] ["genders"] 2 2
                       Examples.parity_scores Examples.input_order
                       Examples.draw_first Examples.items5
                       Examples.train_pos3 Examples.test_pos2
                       Examples.attr_rows [7; 8; 9]%Z
  = Raised (KeyError 0)
  /\ let mean := fun (metric : string) (attr : Z) =>
                   let members :=
                     filter (fun u =>
                               (attr_of [(0, [0]); (7, [0]); (8, [1])]%Z u 0 =? attr)%Z)
                            (eligible_users Examples.test_pos2 [0; 7; 8]%Z) in
                   average_of (List.length members)
                              (total_value 2 2 Examples.parity_scores
                                           Examples.input_order Examples.draw_first
                                           Examples.items5 Examples.train_pos0
                                           Examples.test_pos2 metric members) in
     exists pd_dict : Dict.t string R,
       quick_recommendation ["recall"; "hit_ratio"] [[0; 1]%Z] ["genders"] 2 2
                            Examples.parity_scores Examples.input_order
                            Examples.draw_first Examples.items5
                            Examples.train_pos0 Examples.test_pos2
                            Examples.attr_rows0 [0; 7; 8]%Z
       = Returned pd_dict
       /\ forall metric : string,
           Dict.get String.eqb metric pd_dict
           = if existsb (String.eqb metric) ["recall"; "hit_ratio"]
                && existsb (String.eqb metric) QuickPd.pd_metrics
             then Some (mean metric 0%Z - mean metric 1%Z)%R
             else None.
Proof.
  split.
  - apply (quick_pd_group_mean_difference
             ["recall"; "hit_ratio"] [[0; 1]%Z] ["genders"] 2 2
             Examples.parity_scores Examples.input_order Examples.draw_first
             Examples.items5 Examples.train_pos3 Examples.test_pos2
             Examples.attr_rows [7; 8; 9]%Z [(7, [0]); (8, [1]); (9, [1])]%Z
             "genders" [] 0%Z 1%Z []).
    + reflexivity.
    + reflexivity.
    + reflexivity.
    + simpl. intuition discriminate.
  - apply (quick_pd_group_mean_difference
             ["recall"; "hit_ratio"] [[0; 1]%Z] ["genders"] 2 2
             Examples.parity_scores Examples.input_order Examples.draw_first
             Examples.items5 Examples.train_pos0 Examples.test_pos2
             Examples.attr_rows0 [0; 7; 8]%Z [(0, [0]); (7, [0]); (8, [1])]%Z
             "genders" [] 0%Z 1%Z []).
    + reflexivity.
    + reflexivity.
    + reflexivity.
    + simpl. now left.
    + simpl. intuition.
    + discriminate.
    + reflexivity.
    + reflexivity.
    + vm_compute. reflexivity.
    + vm_compute. discriminate.
    + repeat constructor; simpl; intuition discriminate.
Defined.

End QuickRecommendationExtras.


(** * Further properties of the result string *)

Module ResultsStrExtras.
Import Tester ResultsStr.

Lemma group_lines_spec (tables : list (Dict.t Z (Dict.t string R))) (k : nat)
      (metric : string) (groups : list Z) :
  (forall attr, In attr groups -> group_entry tables k attr metric <> None) ->
  group_lines tables k metric groups
  = Some (map (fun attr => (label metric (str_int attr),
                            group_value tables k attr metric)) groups).
Proof.
  induction groups as [|attr rest IH]; intros Hall; [reflexivity|].
  cbn [group_lines map]. rewrite IH by (intros a Ha; apply Hall; now right).
  unfold group_value.
  destruct (group_entry tables k attr metric) eqn:E; [reflexivity|].
  exfalso. apply (Hall attr); [now left | exact E].
Qed.

Lemma dims_present_single (tables : list (Dict.t Z (Dict.t string R)))
      (metric : string) (groups : list Z) :
  (forall attr, In attr groups -> group_entry tables 0 attr metric <> None) ->
  dims_present tables metric 0 [groups] = true.
Proof.
  intros Hall. cbn [dims_present]. rewrite andb_true_r.
  apply forallb_forall. intros attr Hin.
  destruct (group_entry tables 0 attr metric) eqn:E; [reflexivity|].
  exfalso. now apply (Hall attr).
Qed.

(** The lines of one metric: the overall value, the parity difference when
    there are two groups, and one line per group. *)
Lemma metric_lines_spec (metrics : list string) (groups : list Z) (name : string)
      (st : tester) (ms : list string) :
  incl ms metrics ->
  (forall metric, In metric metrics ->
                  Dict.get String.eqb metric (results st) <> None) ->
  (forall metric attr, In metric metrics -> In attr groups ->
                       group_entry (results_user_attr st) 0 attr metric <> None) ->
  let value := fun metric attr =>
                 group_value (results_user_attr st) 0 attr metric in
  metric_lines (measure_unfairness metrics [groups] st) name 0 groups ms
  = Some (flat_map
            (fun metric =>
               (label metric "overall", result_of st metric)
               :: match groups with
                  | [g0; g1] =>
                      [(label metric name, (value metric g0 - value metric g1)%R)]
                  | _ => []
                  end
               ++ map (fun attr => (label metric (str_int attr), value metric attr))
                      groups)
            ms).
Proof.
  intros Hincl Hres Hentries value.
  induction ms as [|metric ms IH]; [reflexivity|].
  assert (Hin : In metric metrics) by (apply Hincl; now left).
  cbn [metric_lines flat_map].
  rewrite IH by (intros m Hm; apply Hincl; now right).
  pose proof (EvaluationFacts.reported_parity_spec
                metrics [] groups [] st metric Hin) as Hspec.
  cbn [app List.length] in Hspec. unfold reported_parity in Hspec.
  change (results (measure_unfairness metrics [groups] st)) with (results st).
  change (results_user_attr (measure_unfairness metrics [groups] st))
    with (results_user_attr st).
  rewrite group_lines_spec by (intros attr Ha; now apply Hentries).
  unfold result_of.
  destruct (Dict.get String.eqb metric (results st)) as [overall|] eqn:Ho;
    [|exfalso; now apply (Hres metric Hin)].
  assert (Hbu : Dict.get String.eqb metric
                         (binary_unfairness (measure_unfairness metrics [groups] st))
                <> None).
  { cbn [measure_unfairness binary_unfairness].
    rewrite (EvaluationFacts.get_fold_set
               (fun m => unfairness_of_metric (results_user_attr st) m 0 [groups] [])
               metric metrics []) by now left.
    discriminate. }
  destruct (Dict.get String.eqb metric
                     (binary_unfairness (measure_unfairness metrics [groups] st)))
    as [per_dim|]; [|contradiction].
  rewrite Hspec. f_equal. rewrite <- app_comm_cons. f_equal.
  rewrite <- app_assoc. f_equal.
  destruct groups as [|g0 [|g1 [|g2 gs]]]; reflexivity.
Qed.

Lemma flat_map_length_const {A B : Type} (f : A -> list B) (n : nat) (l : list A) :
  (forall x, List.length (f x) = n) ->
  List.length (flat_map f l) = List.length l * n.
Proof.
  intros Hf. induction l as [|x l IH]; [reflexivity|].
  cbn [flat_map List.length]. rewrite length_app, Hf, IH. lia.
Qed.

(** X22. With one attribute dimension, whose name is neither [ages] nor
    [occupations], and a tester that holds the total of every metric and the
    entry of every group, [get_results_str_] returns, metric by metric in the
    order of the metric list: the overall line, then (for two groups only)
    the parity line, whose value is the value of the first group line minus
    that of the second, then one line per group. That is
    [1 + len(groups)] lines per metric, one more for two groups. *)
Theorem results_lines_single_dimension
        (metrics : list string) (groups : list Z) (name : string) (st : tester) :
  String.eqb name "ages" || String.eqb name "occupations" = false ->
  (forall metric, In metric metrics ->
                  Dict.get String.eqb metric (results st) <> None) ->
  (forall metric attr, In metric metrics -> In attr groups ->
                       group_entry (results_user_attr st) 0 attr metric <> None) ->
  let value := fun metric attr =>
                 group_value (results_user_attr st) 0 attr metric in
  let lines :=
    flat_map
      (fun metric =>
         (label metric "overall", result_of st metric)
         :: match groups with
            | [g0; g1] =>
                [(label metric name, (value metric g0 - value metric g1)%R)]
            | _ => []
            end
         ++ map (fun attr => (label metric (str_int attr), value metric attr))
                groups)
      metrics in
  get_results_str_ metrics [groups] [name] st
  = Some (lines, measure_unfairness metrics [groups] st)
  /\ List.length lines
     = List.length metrics
       * (1 + List.length groups + if Nat.eqb (List.length groups) 2 then 1 else 0).
Proof.
  intros Hname Hres Hentries value lines. split.
  - unfold get_results_str_.
    replace (forallb (fun metric =>
                        dims_present (results_user_attr st) metric 0 [groups])
                     metrics) with true.
    + cbn [dim_lines nth_error]. rewrite Hname.
      rewrite (metric_lines_spec metrics groups name st metrics
                                 (incl_refl _) Hres Hentries).
      rewrite app_nil_r. reflexivity.
    + symmetry. apply forallb_forall. intros metric Hin.
      apply dims_present_single. intros attr Ha. now apply Hentries.
  - unfold lines. apply flat_map_length_const. intros metric.
    cbn [List.length]. rewrite length_app, length_map.
    destruct groups as [|g0 [|g1 [|g2 gs]]]; cbn [List.length Nat.eqb]; lia.
Qed.

(** Witness: a tester fresh from [init_results] for two metrics and the
    groups 0 and 1. *)
Lemma results_lines_single_dimension_witness :
  let st := init_results ["recall"; "f1"] [[0; 1]%Z] in
  let value := fun metric attr =>
                 group_value (results_user_attr st) 0 attr metric in
  let lines :=
    flat_map
      (fun metric =>
         (label metric "overall", result_of st metric)
         :: [(label metric "genders", (value metric 0%Z - value metric 1%Z)%R)]
         ++ map (fun attr => (label metric (str_int attr), value metric attr))
                [0; 1]%Z)
      ["recall"; "f1"] in
  get_results_str_ ["recall"; "f1"] [[0; 1]%Z] ["genders"] st
  = Some (lines, measure_unfairness ["recall"; "f1"] [[0; 1]%Z] st)
  /\ List.length lines
     = List.length ["recall"; "f1"]
       * (1 + List.length [0; 1]%Z
          + if Nat.eqb (List.length [0; 1]%Z) 2 then 1 else 0).
Proof.
  apply (results_lines_single_dimension
           ["recall"; "f1"] [0; 1]%Z "genders"
           (init_results ["recall"; "f1"] [[0; 1]%Z])).
  - reflexivity.
  - intros metric [<-|[<-|[]]]; simpl; discriminate.
  - intros metric attr [<-|[<-|[]]] [<-|[<-|[]]]; simpl; discriminate.
Defined.

End ResultsStrExtras.


(** * Further properties of the cold-start statistics *)

Module ColdStartExtras.
Import ColdStart.

Lemma existsb_set_difference (x : Z) (a b : list Z) :
  existsb (Z.eqb x) (Tester.set_difference a b [])
  = existsb (Z.eqb x) a && negb (existsb (Z.eqb x) b).
Proof.
  apply eq_true_iff_eq.
  rewrite andb_true_iff, negb_true_iff, <- not_true_iff_false.
  rewrite !TesterFacts.existsb_Zeqb.
  rewrite (proj2 (TesterFacts.set_difference_spec a b [])). simpl. tauto.
Qed.

Lemma split_train_pos_get (items : list (Z * list Z)) (cold not_cold : list Z) :
  NoDup (Dict.keys items) ->
  forall (c n : Dict.t Z (list Z)) (i : Z),
    let pick := fun (users : list Z) (d : Dict.t Z (list Z)) =>
                  if existsb (Z.eqb i) users
                  then match Dict.get Z.eqb i items with
                       | Some v => Some v
                       | None => Dict.get Z.eqb i d
                       end
                  else Dict.get Z.eqb i d in
    Dict.get Z.eqb i (fst (split_train_pos items cold not_cold c n)) = pick cold c
    /\ Dict.get Z.eqb i (snd (split_train_pos items cold not_cold c n))
       = pick not_cold n.
Proof.
  induction items as [|[j v] rest IH]; intros Hnd c n i pick; subst pick.
  - cbn [split_train_pos fst snd Dict.get].
    split; [destruct (existsb (Z.eqb i) cold) | destruct (existsb (Z.eqb i) not_cold)];
      reflexivity.
  - cbn [Dict.keys map fst] in Hnd. inversion Hnd as [|? ? Hj Hrest]; subst.
    cbn [split_train_pos Dict.get].
    destruct (IH Hrest
                 (if existsb (Z.eqb j) cold then Dict.set Z.eqb j v c else c)
                 (if existsb (Z.eqb j) not_cold then Dict.set Z.eqb j v n else n) i)
      as [Hc Hn].
    cbv zeta in Hc, Hn. rewrite Hc, Hn.
    destruct (Z.eqb_spec i j) as [->|Hne].
    + assert (Hnone : Dict.get Z.eqb j rest = None).
      { now apply (DictFacts.get_None Z _ Z.eqb TesterFacts.Z_eqb_spec'). }
      rewrite Hnone. split.
      * destruct (existsb (Z.eqb j) cold); [|reflexivity].
        apply (DictFacts.get_set_same Z _ Z.eqb TesterFacts.Z_eqb_spec').
      * destruct (existsb (Z.eqb j) not_cold); [|reflexivity].
        apply (DictFacts.get_set_same Z _ Z.eqb TesterFacts.Z_eqb_spec').
    + assert (Hset : forall (b : bool) (d : Dict.t Z (list Z)),
                 Dict.get Z.eqb i (if b then Dict.set Z.eqb j v d else d)
                 = Dict.get Z.eqb i d).
      { intros [] d; [|reflexivity].
        now apply (DictFacts.get_set_other Z _ Z.eqb TesterFacts.Z_eqb_spec'). }
      rewrite !Hset. split; reflexivity.
Qed.

Lemma split_train_pos_same (items : list (Z * list Z)) (users : list Z) :
  forall d : Dict.t Z (list Z),
    fst (split_train_pos items users users d d)
    = snd (split_train_pos items users users d d).
Proof.
  induction items as [|[j v] rest IH]; intros d; [reflexivity|].
  cbn [split_train_pos]. apply IH.
Qed.

(** X23. The training positives of the current period are split by user.
    At snapshot 0 the cold-start and the not-cold-start dicts are the same
    dict: the current positives of the training users. At a later snapshot a
    user of the current period goes to the cold-start dict when it is a
    training user absent from the history, and to the not-cold-start dict
    otherwise, never to both; a user outside the current user set goes to the
    cold-start dict or to none. *)
Theorem cold_start_split
        (snap_idx : nat)
        (train_user_set hist_train_user_set cur_train_user_set : list Z)
        (cur_train_pos : Dict.t Z (list Z)) :
  NoDup (Dict.keys cur_train_pos) ->
  let split := train_pos_split snap_idx train_user_set hist_train_user_set
                               cur_train_user_set cur_train_pos in
  let cold := fun i => existsb (Z.eqb i) train_user_set
                       && negb (existsb (Z.eqb i) hist_train_user_set) in
  (snap_idx = 0 ->
   fst split = snd split
   /\ forall i, Dict.get Z.eqb i (fst split)
                = if existsb (Z.eqb i) train_user_set
                  then Dict.get Z.eqb i cur_train_pos else None)
  /\ (snap_idx <> 0 ->
      forall i,
        Dict.get Z.eqb i (fst split)
        = (if cold i then Dict.get Z.eqb i cur_train_pos else None)
        /\ Dict.get Z.eqb i (snd split)
           = (if existsb (Z.eqb i) cur_train_user_set && negb (cold i)
              then Dict.get Z.eqb i cur_train_pos else None)).
Proof.
  intros Hnd split cold. subst split. unfold train_pos_split, user_sets. split.
  - intros ->. cbn [Nat.eqb fst snd]. split; [apply split_train_pos_same|].
    intros i.
    destruct (split_train_pos_get cur_train_pos train_user_set train_user_set
                                  Hnd [] [] i) as [Hc _].
    cbv zeta in Hc. rewrite Hc. cbn [Dict.get].
    destruct (existsb (Z.eqb i) train_user_set); [|reflexivity].
    now destruct (Dict.get Z.eqb i cur_train_pos).
  - intros Hsnap. destruct (Nat.eqb_spec snap_idx 0) as [|_]; [contradiction|].
    cbn [fst snd]. intros i.
    destruct (split_train_pos_get
                cur_train_pos
                (Tester.set_difference train_user_set hist_train_user_set [])
                (Tester.set_difference
                   cur_train_user_set
                   (Tester.set_difference train_user_set hist_train_user_set []) [])
                Hnd [] [] i) as [Hc Hn].
    cbv zeta in Hc, Hn. rewrite Hc, Hn. rewrite !existsb_set_difference.
    cbn [Dict.get]. fold (cold i). split.
    + destruct (cold i); [|reflexivity].
      now destruct (Dict.get Z.eqb i cur_train_pos).
    + destruct (existsb (Z.eqb i) cur_train_user_set && negb (cold i));
        [|reflexivity].
      now destruct (Dict.get Z.eqb i cur_train_pos).
Qed.

(** Witness: the training positives of the small catalogue as the current
    period, with user 9 already in the history. *)
Lemma cold_start_split_witness :
  let split := train_pos_split 1 [7; 8; 9]%Z [9]%Z [7; 8; 9]%Z Examples.train_pos3 in
  let cold := fun i => existsb (Z.eqb i) [7; 8; 9]%Z
                       && negb (existsb (Z.eqb i) [9]%Z) in
  (1 = 0 ->
   fst split = snd split
   /\ forall i, Dict.get Z.eqb i (fst split)
                = if existsb (Z.eqb i) [7; 8; 9]%Z
                  then Dict.get Z.eqb i Examples.train_pos3 else None)
  /\ (1 <> 0 ->
      forall i,
        Dict.get Z.eqb i (fst split)
        = (if cold i then Dict.get Z.eqb i Examples.train_pos3 else None)
        /\ Dict.get Z.eqb i (snd split)
           = (if existsb (Z.eqb i) [7; 8; 9]%Z && negb (cold i)
              then Dict.get Z.eqb i Examples.train_pos3 else None)).
Proof.
  apply (cold_start_split 1 [7; 8; 9]%Z [9]%Z [7; 8; 9]%Z Examples.train_pos3).
  repeat constructor; simpl; intuition discriminate.
Defined.

End ColdStartExtras.
